(** * Real Income by State Explorer: the dashboard script [app.py]

    The program is one Streamlit script.  It reads a worksheet with pandas,
    normalises it ([load_data]), derives a CPI index per year, selects the
    income rows and renders a chart, two ranking tables and a download.

    The development follows the script from top to bottom.  A worksheet is a
    labelled grid of cells, a DataFrame is a list of column labels with a
    list of rows, Python floats are IEEE binary64 numbers (Rocq's primitive
    floats), exceptions are values of an error type, and the script itself
    runs in a small state monad that records the names it has bound and the
    elements it has put on the page. *)

From Stdlib Require Import ZArith List String Ascii Bool Lia.
From Stdlib Require Import Sorting.Sorted Sorting.Permutation.
From Stdlib Require Import Floats.PrimFloat Floats.SpecFloat Floats.FloatOps.
From Stdlib Require Import Floats.FloatAxioms.
From stdpp Require Import gmap strings pretty.
Import ListNotations.

(* ================================================================== *)
(** * Values *)

(** A pandas [Timestamp], by its civil fields; [.dt.year] reads the first. *)
Record timestamp := Timestamp {
  ts_year : Z;
  ts_month : Z;
  ts_day : Z;
  ts_nanos : Z
}.

(** One cell of a worksheet or of a DataFrame.  [CNull] stands for every
    missing value: a blank cell, [None], [NaN] read from a blank, [NaT]. *)
Inductive cell :=
  | CNull
  | CNum (x : float)
  | CInt (n : Z)
  | CStr (s : string)
  | CTime (t : timestamp).

(** Python exceptions the script can raise. *)
Inductive exn :=
  | KeyError (label : string)
  | NameError (name : string)
  | ValueError (msg : string)
  | TypeError (msg : string)
  | AttributeError (msg : string)
  | StreamlitAPIException (msg : string).

(** The result of an expression that may raise. *)
Inductive res (A : Type) :=
  | Ok (a : A)
  | Raise (e : exn).
Arguments Ok {A} a.
Arguments Raise {A} e.

Definition res_bind {A B} (m : res A) (k : A -> res B) : res B :=
  match m with
  | Ok a => k a
  | Raise e => Raise e
  end.

Notation "'let!' x ':=' m 'in' k" := (res_bind m (fun x => k))
  (at level 10, x name, m at level 100, k at level 200, only parsing).

Fixpoint res_map {A B} (f : A -> res B) (l : list A) : res (list B) :=
  match l with
  | [] => Ok []
  | a :: l' => let! b := f a in let! bs := res_map f l' in Ok (b :: bs)
  end.

(* ================================================================== *)
(** * Text: [str.strip], [str.lower], [str.upper], [len]

    A Python string is held as the bytes of its UTF-8 encoding.  [strip],
    [lower] and [upper] below are Python's on ASCII text: the white space
    they know is the ASCII one and the letters they map are A to Z.  On
    text with other characters Python also strips the Unicode spaces and
    maps the other cased letters; the theorems that depend on it say that
    they are about ASCII text ([ascii_only]). *)

Definition is_space (c : ascii) : bool :=
  let n := nat_of_ascii c in
  ((9 <=? n) && (n <=? 13)) || ((28 <=? n) && (n <=? 32)).

Definition ascii_lower (c : ascii) : ascii :=
  let n := nat_of_ascii c in
  if (65 <=? n) && (n <=? 90) then ascii_of_nat (n + 32) else c.

Definition ascii_upper (c : ascii) : ascii :=
  let n := nat_of_ascii c in
  if (97 <=? n) && (n <=? 122) then ascii_of_nat (n - 32) else c.

Fixpoint str_map (f : ascii -> ascii) (s : string) : string :=
  match s with
  | EmptyString => EmptyString
  | String c s' => String (f c) (str_map f s')
  end.

Definition lower : string -> string := str_map ascii_lower.
Definition upper : string -> string := str_map ascii_upper.

Definition is_empty (s : string) : bool :=
  match s with EmptyString => true | String _ _ => false end.

Fixpoint lstrip (s : string) : string :=
  match s with
  | EmptyString => EmptyString
  | String c s' => if is_space c then lstrip s' else s
  end.

Fixpoint rstrip (s : string) : string :=
  match s with
  | EmptyString => EmptyString
  | String c s' =>
      let r := rstrip s' in
      if is_space c && is_empty r then EmptyString else String c r
  end.

Definition strip (s : string) : string := lstrip (rstrip s).

(** Text without a byte above 127. *)
Fixpoint ascii_only (s : string) : bool :=
  match s with
  | EmptyString => true
  | String c s' => (nat_of_ascii c <? 128) && ascii_only s'
  end.

(** [len(s)], the number of characters: in UTF-8 every byte starts a
    character except the continuation bytes 10xxxxxx. *)
Definition starts_char (c : ascii) : bool :=
  let n := nat_of_ascii c in negb ((128 <=? n) && (n <? 192)).

Fixpoint char_length (s : string) : nat :=
  match s with
  | EmptyString => 0
  | String c s' => (if starts_char c then 1 else 0) + char_length s'
  end.

(** [needle in hay] on text. *)
Fixpoint contains (needle hay : string) : bool :=
  String.prefix needle hay ||
  match hay with
  | EmptyString => false
  | String _ hay' => contains needle hay'
  end.

(* ================================================================== *)
(** * DataFrames *)

Record frame := Frame {
  columns : list string;
  rows : list (list cell)
}.

(** A worksheet as [read_excel] hands it over, before line 29: the column
    labels and the grid below them.  A label is the text of its header
    cell, or the number or the date of a header cell that holds one (a
    blank header cell arrives as a text, Unnamed: n).  A workbook maps
    sheet names to worksheets. *)
Record worksheet := Worksheet {
  labels : list cell;
  grid : list (list cell)
}.

Definition workbook := list (string * worksheet).

(** The cell of a row at a position; a row shorter than the header is
    blank there. *)
Definition cell_at (i : nat) (r : list cell) : cell := nth i r CNull.

(** Writing the cell of a row at a position, padding a short row with
    blanks. *)
Fixpoint set_cell (i : nat) (v : cell) (r : list cell) : list cell :=
  match i, r with
  | O, [] => [v]
  | O, _ :: r' => v :: r'
  | S i', [] => CNull :: set_cell i' v []
  | S i', c :: r' => c :: set_cell i' v r'
  end.

Fixpoint col_index (c : string) (cols : list string) : option nat :=
  match cols with
  | [] => None
  | c' :: cs =>
      if String.eqb c' c then Some O
      else match col_index c cs with
           | Some i => Some (S i)
           | None => None
           end
  end.

(** [df[c]]: the position of the column labelled [c]; [KeyError] when the
    frame has no such label.  A label is read at its first position, which
    is the column pandas selects when the label occurs once; with a
    repeated label pandas selects every such column, and what follows
    depends on the operation.  The theorems about the labels of a loaded
    table are about headers whose labels are distinct ([plain_header]). *)
Definition col (c : string) (df : frame) : res nat :=
  match col_index c (columns df) with
  | Some i => Ok i
  | None => Raise (KeyError c)
  end.

(** [df[c] = e], [e] computed row by row: an existing column is
    overwritten in place, a new label is appended on the right. *)
Definition assign (c : string) (e : list cell -> cell) (df : frame) : frame :=
  match col_index c (columns df) with
  | Some i =>
      {| columns := columns df;
         rows := map (fun r => set_cell i (e r) r) (rows df) |}
  | None =>
      {| columns := columns df ++ [c];
         rows := map (fun r => set_cell (length (columns df)) (e r) r) (rows df) |}
  end.

(** [df[mask]] with the mask computed row by row. *)
Definition select (mask : list cell -> bool) (df : frame) : frame :=
  {| columns := columns df; rows := List.filter mask (rows df) |}.

(** [df.empty]: no rows or no columns. *)
Definition empty (df : frame) : bool :=
  match rows df, columns df with
  | _ :: _, _ :: _ => false
  | _, _ => true
  end.

(** [pd.isna]: a blank, or a float that is NaN. *)
Definition isna (c : cell) : bool :=
  match c with
  | CNull => true
  | CNum x => PrimFloat.is_nan x
  | _ => false
  end.

(** [column == s] for a text constant [s]. *)
Definition eq_str (s : string) (c : cell) : bool :=
  match c with
  | CStr s' => String.eqb s' s
  | _ => false
  end.

(** [.str.len() == n]; the length of a text is its number of characters,
    the length of anything but text is missing, and a missing length
    equals no number. *)
Definition str_len_is (n : nat) (c : cell) : bool :=
  match c with
  | CStr s => Nat.eqb (char_length s) n
  | _ => false
  end.

(** [.dt.year] of a datetime column. *)
Definition dt_year (c : cell) : cell :=
  match c with
  | CTime t => CInt (ts_year t)
  | _ => CNull
  end.

(** [.str.upper()] on a column of text. *)
Definition str_upper (c : cell) : cell :=
  match c with
  | CStr s => CStr (upper s)
  | _ => CNull
  end.

(** [.unique()]: the distinct values in order of first appearance. *)
Fixpoint unique_from {A} (eqb : A -> A -> bool) (seen l : list A) : list A :=
  match l with
  | [] => []
  | a :: l' =>
      if existsb (eqb a) seen then unique_from eqb seen l'
      else a :: unique_from eqb (a :: seen) l'
  end.

Definition unique {A} (eqb : A -> A -> bool) (l : list A) : list A :=
  unique_from eqb [] l.

(* ================================================================== *)
(** * The library routines the script calls

    These are library code: conversions of text and numbers to
    timestamps, the text of a number, what [astype(str)] does with a
    missing value, the mean of a float column, the sorting behind
    [sort_values], the CSV writer, and the range slider of Streamlit.  The
    script is modelled over any implementation of them. *)

Class Pandas := {
  (** [pd.to_datetime(..., errors="coerce")] on one value that is neither
      blank nor already a timestamp; [None] when it cannot be parsed. *)
  parse_datetime : cell -> option timestamp;
  (** [str(v)] of a number or a timestamp. *)
  repr : cell -> string;
  (** Whether [astype(str)] leaves a missing value missing, as pandas 3
      does, or writes it as the text nan, as pandas 2 does. *)
  keeps_missing : bool;
  (** [Series.mean()] and [GroupBy.mean()] of a float column. *)
  mean : list float -> float;
  (** The reordering done by [sort_values], for the order [leb]. *)
  sort_by : forall {A : Type}, (A -> A -> bool) -> list A -> list A;
  (** [to_csv(index=False)]. *)
  to_csv : frame -> string
}.

Class Streamlit := {
  (** [st.sidebar.slider(label, lo, hi, value)]: the range the visitor
      chose, or what the widget makes of the default [value]; it raises
      where the widget refuses its arguments. *)
  slider : Z -> Z -> Z * Z -> option (Z * Z) -> res (Z * Z)
}.

Section Loading.
Context `{Pandas}.

(** [pd.to_datetime(col, errors="coerce")] cell by cell. *)
Definition to_datetime (c : cell) : cell :=
  match c with
  | CNull => CNull
  | CTime t => CTime t
  | _ => match parse_datetime c with
         | Some t => CTime t
         | None => CNull
         end
  end.

(** [str(v)]; the text of a blank is [nan]. *)
Definition str_of (c : cell) : string :=
  match c with
  | CStr s => s
  | CNull => "nan"
  | _ => repr c
  end.

(** [.astype(str)] cell by cell. *)
Definition astype_str (c : cell) : cell :=
  if keeps_missing && isna c then CNull else CStr (str_of c).

(** [pd.read_excel(file, sheet_name=name)]. *)
Fixpoint read_excel (file : workbook) (name : string) : res worksheet :=
  match file with
  | [] => Raise (ValueError ("Worksheet named '" +:+ name +:+ "' not found"))
  | (n, sheet) :: file' =>
      if String.eqb n name then Ok sheet else read_excel file' name
  end.

(** [df.dropna(subset=[a, b])] *)
Definition dropna2 (a b : string) (df : frame) : res frame :=
  let! i := col a df in
  let! j := col b df in
  Ok (select (fun r => negb (isna (cell_at i r)) && negb (isna (cell_at j r))) df).

(** [df[c] = f(df[c])]: reads the column, so the label has to exist. *)
Definition update (c : string) (f : cell -> cell) (df : frame) : res frame :=
  let! i := col c df in
  Ok (assign c (fun r => f (cell_at i r)) df).

(** [c.strip().lower()] of a label, line 29: only text has a [strip]. *)
Definition normal (label : cell) : res string :=
  match label with
  | CStr c => Ok (lower (strip c))
  | _ => Raise (AttributeError "object has no attribute 'strip'")
  end.

Definition normal_labels (sheet : worksheet) : res (list string) :=
  res_map normal (labels sheet).

(** app.py, lines 26 to 38. *)
Definition load_data (file : workbook) : res frame :=
  let! sheet := read_excel file "cleaned_long" in
  let! names := normal_labels sheet in
  let df := {| columns := names; rows := grid sheet |} in
  let! df := update "date" to_datetime df in
  let! df := update "geo" (fun c => str_upper (astype_str c)) df in
  let! df := update "series" astype_str df in
  let! df := update "topic" astype_str df in
  let! df := dropna2 "date" "value" df in
  let! d := col "date" df in
  Ok (assign "year" (fun r => dt_year (cell_at d r)) df).

(** The same, one row at a time: what the four column updates make of a
    row, and the rows [dropna] keeps; [d], [g], [s], [t], [v] are the
    positions of date, geo, series, topic and value. *)
Definition clean_row (d g s t : nat) (r : list cell) : list cell :=
  let r := set_cell d (to_datetime (cell_at d r)) r in
  let r := set_cell g (str_upper (astype_str (cell_at g r))) r in
  let r := set_cell s (astype_str (cell_at s r)) r in
  set_cell t (astype_str (cell_at t r)) r.

Definition kept (d v : nat) (r : list cell) : bool :=
  negb (isna (to_datetime (cell_at d r))) && negb (isna (cell_at v r)).

(** No label occurs twice. *)
Fixpoint distinct (l : list string) : bool :=
  match l with
  | [] => true
  | a :: l' => negb (existsb (String.eqb a) l') && distinct l'
  end.

Definition plain_label (c : cell) : bool :=
  match c with
  | CStr s => ascii_only s
  | _ => false
  end.

(** The headers the model reads as pandas does: every label is ASCII
    text, and the labels stay distinct once stripped and lower-cased. *)
Definition plain_header (sheet : worksheet) : bool :=
  forallb plain_label (labels sheet) &&
  match normal_labels sheet with
  | Ok names => distinct names
  | Raise _ => false
  end.

End Loading.

(* ================================================================== *)
(** * Ordering, [sorted] and numbers *)

Fixpoint insert_sorted {A} (leb : A -> A -> bool) (a : A) (l : list A) : list A :=
  match l with
  | [] => [a]
  | b :: l' => if leb a b then a :: l else b :: insert_sorted leb a l'
  end.

(** Sorting by insertion.  For a total order on distinct values every
    sorting routine returns this list. *)
Fixpoint insertion_sort {A} (leb : A -> A -> bool) (l : list A) : list A :=
  match l with
  | [] => []
  | a :: l' => insert_sorted leb a (insertion_sort leb l')
  end.

(** The float nearest to an integer, ties to even; past the largest
    float it is an infinity. *)
Definition float_of_Z (z : Z) : float :=
  SF2Prim (binary_normalize prec emax z 0 false).

(** The float a cell of a numeric column stands for; a blank is NaN. *)
Definition num_of (c : cell) : float :=
  match c with
  | CNum x => x
  | CInt n => float_of_Z n
  | _ => PrimFloat.nan
  end.

(** The same where the column may hold anything: arithmetic on text or
    on a timestamp raises. *)
Definition as_float (c : cell) : res float :=
  match c with
  | CStr _ | CTime _ => Raise (TypeError "unsupported operand type")
  | _ => Ok (num_of c)
  end.

Definition ts_leb (s t : timestamp) : bool :=
  if negb (ts_year s =? ts_year t)%Z then (ts_year s <? ts_year t)%Z
  else if negb (ts_month s =? ts_month t)%Z then (ts_month s <? ts_month t)%Z
  else if negb (ts_day s =? ts_day t)%Z then (ts_day s <? ts_day t)%Z
  else (ts_nanos s <=? ts_nanos t)%Z.

Definition ts_eqb (s t : timestamp) : bool :=
  (ts_year s =? ts_year t)%Z && (ts_month s =? ts_month t)%Z &&
  (ts_day s =? ts_day t)%Z && (ts_nanos s =? ts_nanos t)%Z.

(** Whether Python can order two values: text with text, timestamps with
    timestamps, numbers with numbers; a blank is a NaN or a NaT. *)
Definition comparable (a b : cell) : bool :=
  match a, b with
  | CStr _, CStr _ => true
  | CStr _, _ | _, CStr _ => false
  | CTime _, (CNum _ | CInt _) | (CNum _ | CInt _), CTime _ => false
  | _, _ => true
  end.

(** [a <= b] on two values that can be ordered. *)
Definition cell_leb (a b : cell) : bool :=
  match a, b with
  | CStr s, CStr t => String.leb s t
  | CInt m, CInt n => (m <=? n)%Z
  | CTime s, CTime t => ts_leb s t
  | _, _ => PrimFloat.leb (num_of a) (num_of b)
  end.

(** [a == b] as [unique] and [groupby] see it; blanks are one value. *)
Definition cell_eqb (a b : cell) : bool :=
  match a, b with
  | CNull, CNull => true
  | CStr s, CStr t => String.eqb s t
  | CInt m, CInt n => (m =? n)%Z
  | CTime s, CTime t => ts_eqb s t
  | CNum x, CNum y => PrimFloat.eqb x y || (PrimFloat.is_nan x && PrimFloat.is_nan y)
  | CNum x, CInt n | CInt n, CNum x => PrimFloat.eqb x (float_of_Z n)
  | CNum x, CNull | CNull, CNum x => PrimFloat.is_nan x
  | _, _ => false
  end.

Fixpoint all_comparable (l : list cell) : bool :=
  match l with
  | [] => true
  | a :: l' => forallb (comparable a) l' && all_comparable l'
  end.

(** Python's [sorted] on a list of values: [TypeError] as soon as two of
    them cannot be compared. *)
Definition py_sorted (l : list cell) : res (list cell) :=
  if all_comparable l then Ok (insertion_sort cell_leb l)
  else Raise (TypeError "'<' not supported").

(** The order [sort_values] sorts a column by: blanks go last whatever the
    direction. *)
Definition key_leb (ascending : bool) (a b : cell) : bool :=
  if isna b then true
  else if isna a then false
  else if ascending then cell_leb a b else cell_leb b a.

(* ================================================================== *)
(** * The expressions of the script *)

(** [column == v] for a scalar [v]: a blank equals nothing. *)
Definition eq_scalar (v c : cell) : bool := negb (isna c) && cell_eqb c v.

(** The keys of a [groupby]: the distinct non-blank values, in order. *)
Definition group_keys (cells : list cell) : list cell :=
  insertion_sort cell_leb
    (unique cell_eqb (List.filter (fun c => negb (isna c)) cells)).

Definition ints_of (cells : list cell) : list Z :=
  flat_map (fun c => match c with CInt n => [n] | _ => [] end) cells.

Section Expressions.
Context `{Pandas}.

(** [df["topic"].unique()] *)
Definition topics (df : frame) : res (list cell) :=
  let! t := col "topic" df in
  Ok (unique cell_eqb (map (cell_at t) (rows df))).

(** app.py, lines 55 to 57. *)
Definition state_list (df : frame) : res (list cell) :=
  let! gl := col "geo_level" df in
  let! g := col "geo" df in
  py_sorted
    (unique cell_eqb
       (map (cell_at g)
          (List.filter
             (fun r => eq_str "state" (cell_at gl r) && str_len_is 2 (cell_at g r))
             (rows df)))).

(** [state_list if state_list else ["MD"]], line 59. *)
Definition state_options (state_list : list cell) : list cell :=
  match state_list with
  | [] => [CStr "MD"]
  | _ => state_list
  end.

(** [int(df["year"].min())] and [int(df["year"].max())], line 61; the
    extremum of an empty column is NaN, which [int] refuses. *)
Definition year_bound (pick : Z -> Z -> Z) (df : frame) : res Z :=
  let! y := col "year" df in
  match ints_of (map (cell_at y) (rows df)) with
  | [] => Raise (ValueError "cannot convert float NaN to integer")
  | n :: ns => Ok (fold_left pick ns n)
  end.

(** [df.groupby(key, as_index=False)[val].mean()] *)
Definition groupby_mean (key val : string) (df : frame) : res frame :=
  let! k := col key df in
  let! v := col val df in
  let! means :=
    res_map
      (fun g =>
         let! xs := res_map (fun r => as_float (cell_at v r))
                      (List.filter (fun r => cell_eqb (cell_at k r) g) (rows df)) in
         Ok [g; CNum (mean xs)])
      (group_keys (map (cell_at k) (rows df))) in
  Ok {| columns := [key; val]; rows := means |}.

(** app.py, lines 69 and 70. *)
Definition cpi_of (df : frame) : res frame :=
  let! gl := col "geo_level" df in
  let! s := col "series" df in
  let cpi := select (fun r => eq_str "national" (cell_at gl r)
                              && eq_str "CPIAUCSL" (cell_at s r)) df in
  let! d := col "date" cpi in
  Ok (assign "year" (fun r => dt_year (cell_at d r)) cpi).

(** app.py, line 72. *)
Definition cpi_annual_of (cpi : frame) : res frame :=
  groupby_mean "year" "value" cpi.

(** app.py, line 73. *)
Definition base_cpi_of (cpi_annual : frame) (base_year : Z) : res float :=
  let! y := col "year" cpi_annual in
  let! v := col "value" cpi_annual in
  Ok (mean (map (fun r => num_of (cell_at v r))
              (List.filter (fun r => eq_scalar (CInt base_year) (cell_at y r))
                 (rows cpi_annual)))).

(** The test of line 75: [pd.isna(base_cpi) or base_cpi == 0]. *)
Definition invalid_base (base_cpi : float) : bool :=
  PrimFloat.is_nan base_cpi || PrimFloat.eqb base_cpi 0.

(** app.py, line 79. *)
Definition with_cpi_index (base_cpi : float) (cpi_annual : frame) : res frame :=
  let! v := col "value" cpi_annual in
  Ok (assign "cpi_index"
        (fun r => CNum ((num_of (cell_at v r) / base_cpi) * 100)%float)
        cpi_annual).

(** In the words of the specification: the CPI values of a year are the
    values of the national CPIAUCSL rows dated in that year; [gl], [s],
    [d], [v] are the positions of geo_level, series, date and value. *)
Definition cpi_values (gl s d v : nat) (df : frame) (year : Z) : list float :=
  map (fun r => num_of (cell_at v r))
    (List.filter
       (fun r => eq_str "national" (cell_at gl r) && eq_str "CPIAUCSL" (cell_at s r)
                 && cell_eqb (dt_year (cell_at d r)) (CInt year))
       (rows df)).

(** app.py, line 84. *)
Definition income_topics (topics : list cell) : list cell :=
  List.filter (fun t => contains "income" (lower (str_of t))) topics.

(** app.py, lines 85 to 90. *)
Definition income_topic_of (topics : list cell) : option cell :=
  if existsb (eq_str "income_per_capita") topics
  then Some (CStr "income_per_capita")
  else match income_topics topics with
       | t :: _ => Some t
       | [] => None
       end.

(** app.py, line 96. *)
Definition income_of (df : frame) (income_topic : cell) : res frame :=
  let! t := col "topic" df in
  let! gl := col "geo_level" df in
  let! g := col "geo" df in
  Ok (select (fun r => eq_scalar income_topic (cell_at t r)
                       && eq_str "state" (cell_at gl r)
                       && str_len_is 2 (cell_at g r)) df).

(** [sel.melt(id_vars=[id], value_vars=vars, var_name=..., value_name=...)] *)
Definition melt (id : string) (vars : list string) (var_name value_name : string)
    (df : frame) : res frame :=
  let! i := col id df in
  let! blocks :=
    res_map
      (fun v =>
         let! j := col v df in
         Ok (map (fun r => [cell_at i r; CStr v; cell_at j r]) (rows df)))
      vars in
  Ok {| columns := [id; var_name; value_name]; rows := concat blocks |}.

(** The order of two rows by the column at position [i]. *)
Definition by_column (i : nat) (ascending : bool) (r1 r2 : list cell) : bool :=
  key_leb ascending (cell_at i r1) (cell_at i r2).

(** [df.sort_values(c, ascending=...)]; values of different kinds cannot
    be ordered. *)
Definition sort_values (c : string) (ascending : bool) (df : frame) : res frame :=
  let! i := col c df in
  if all_comparable
       (List.filter (fun c => negb (isna c)) (map (cell_at i) (rows df)))
  then Ok {| columns := columns df;
             rows := sort_by (by_column i ascending) (rows df) |}
  else Raise (TypeError "'<' not supported").

(** The aggregate of line 133:
    [(x.iloc[-1] / x.iloc[0] - 1) * 100 if len(x) > 1 else None]. *)
Definition growth_pct (x : list cell) : res cell :=
  if (1 <? length x)%nat
  then let! last := as_float (List.last x CNull) in
       let! first := as_float (hd CNull x) in
       Ok (CNum ((last / first - 1) * 100)%float)
  else Ok CNull.

(** app.py, lines 130 to 137. *)
Definition growth_of (income : frame) : res frame :=
  let! sorted := sort_values "year" true income in
  let! g := col "geo" sorted in
  let! ri := col "real_income" sorted in
  let! agg :=
    res_map
      (fun k =>
         let! p := growth_pct
                     (map (cell_at ri)
                        (List.filter (fun r => cell_eqb (cell_at g r) k) (rows sorted))) in
         Ok [k; p])
      (group_keys (map (cell_at g) (rows sorted))) in
  let kept := List.filter (fun r => negb (isna (cell_at 1 r))) agg in
  sort_values "real_income_growth_pct" false
    {| columns := ["geo"; "real_income_growth_pct"]; rows := kept |}.

(** [df.head(n)] and [df.tail(n)] *)
Definition head (n : nat) (df : frame) : frame :=
  {| columns := columns df; rows := firstn n (rows df) |}.

Definition tail (n : nat) (df : frame) : frame :=
  {| columns := columns df; rows := skipn (length (rows df) - n) (rows df) |}.

(** The two ranking tables, lines 141 and 144. *)
Definition top_states (growth : frame) : frame := head 10 growth.

Definition bottom_states (growth : frame) : res frame :=
  sort_values "real_income_growth_pct" true (tail 10 growth).



End Expressions.

(* ================================================================== *)
(** * The page and the run of the script *)

(** What the script puts on the page, in the order of the calls. *)
Inductive element :=
  | PageConfig (title : string)
  | Title (text : string)
  | SidebarTitle (text : string)
  | Caption (text : string)
  | Subheader (text : string)
  | Info (text : string)
  | Success (text : string)
  | Error (text : string)
  | Warning (text : string)
  | Write (text : string) (values : list cell)
  | FileUploader (label : string)
  | Selectbox (label : string) (options : list cell)
  | Slider (label : string) (lo hi : Z) (value : Z * Z)
  | NumberInput (label : string) (lo hi value : Z)
  | PlotlyChart (data : frame)
  | DataFrame (data : frame)
  | DownloadButton (label data file_name mime : string).

(** The values the script binds to names. *)
Inductive pyval :=
  | VNone
  | VFile (file : workbook)
  | VFunction
  | VFrame (df : frame)
  | VList (l : list cell)
  | VCell (c : cell)
  | VInt (n : Z)
  | VRange (r : Z * Z)
  | VFloat (x : float)
  | VFigure (data : frame)
  | VColumn.

(** The state of a run: the module namespace and the page so far. *)
Record world := World {
  globals : gmap string pyval;
  page : list element
}.

(** How a run ends: it reaches the end of the script, [st.stop()] ends
    it, or an exception escapes. *)
Inductive outcome (A : Type) :=
  | Done (a : A) (w : world)
  | Stopped (w : world)
  | Raised (e : exn) (w : world).
Arguments Done {A} a w.
Arguments Stopped {A} w.
Arguments Raised {A} e w.

Definition script (A : Type) := world -> outcome A.

Definition ret {A} (a : A) : script A := fun w => Done a w.

Definition bind {A B} (m : script A) (k : A -> script B) : script B :=
  fun w =>
    match m w with
    | Done a w' => k a w'
    | Stopped w' => Stopped w'
    | Raised e w' => Raised e w'
    end.

Notation "'let*' x ':=' m 'in' k" := (bind m (fun x => k))
  (at level 10, x name, m at level 100, k at level 200, only parsing).
Notation "m ;; k" := (bind m (fun _ => k))
  (at level 100, k at level 200, right associativity, only parsing).

(** A call that draws an element. *)
Definition emit (e : element) : script unit :=
  fun w => Done tt {| globals := globals w; page := page w ++ [e] |}.

(** [name = v] at module level. *)
Definition store (name : string) (v : pyval) : script unit :=
  fun w => Done tt {| globals := <[name := v]> (globals w); page := page w |}.

(** Reading a module-level name; [NameError] when nothing was bound to it. *)
Definition load (name : string) : script pyval :=
  fun w =>
    match globals w !! name with
    | Some v => Done v w
    | None => Raised (NameError name) w
    end.

(** [st.stop()] *)
Definition stop {A} : script A := fun w => Stopped w.

Definition raise {A} (e : exn) : script A := fun w => Raised e w.

(** An expression evaluated inside the script. *)
Definition eval {A} (r : res A) : script A :=
  match r with
  | Ok a => ret a
  | Raise e => raise e
  end.

(** Using a value as a DataFrame. *)
Definition as_frame (v : pyval) : script frame :=
  match v with
  | VFrame df => ret df
  | _ => raise (TypeError "not a DataFrame")
  end.

(** The world in which a run ended. *)
Definition final {A} (o : outcome A) : world :=
  match o with
  | Done _ w => w
  | Stopped w => w
  | Raised _ w => w
  end.

Definition is_download (e : element) : bool :=
  match e with
  | DownloadButton _ _ _ _ => true
  | _ => false
  end.

(** The elements that tell the visitor something went wrong or right. *)
Definition is_message (e : element) : bool :=
  match e with
  | Info _ | Success _ | Error _ | Warning _ => true
  | _ => false
  end.

(** A property of the world that a piece of script keeps, however it ends. *)
Definition keeps {A} (I : world -> Prop) (m : script A) : Prop :=
  forall w, I w -> I (final (m w)).

(** Nothing is bound to [sel] and the page offers no download. *)
Definition no_selection (w : world) : Prop :=
  globals w !! "sel" = None /\ forallb (fun e => negb (is_download e)) (page w) = true.

(** What the visitor did with the widgets during this run. *)
Record session := Session {
  uploaded_file : option workbook;
  state_choice : nat;
  year_choice : option (Z * Z);
  base_year_choice : option Z
}.

(** [st.sidebar.selectbox]: the chosen option, the first one by default. *)
Definition selectbox (options : list cell) (choice : nat) : cell :=
  nth choice options (hd CNull options).

(** [st.sidebar.number_input(label, lo, hi, value)] *)
Definition number_input (lo hi value : Z) (choice : option Z) : Z :=
  match choice with
  | Some n => if (lo <=? n)%Z && (n <=? hi)%Z then n else value
  | None => value
  end.

Section App.
Context {lib : Pandas} {widgets : Streamlit}.

(** app.py, lines 101 to 156: everything from the chart on. *)
Definition display (state : cell) (income : frame) : script unit :=
  emit (Subheader (str_of state +:+ " — Nominal vs Real Income")) ;;
  let* sel := bind (load "sel") as_frame in
  (if empty sel
   then emit (Warning "No income data for selected state.") ;; stop
   else ret tt) ;;
  let* chart := eval (melt "year" ["value"; "real_income"] "Type" "Income" sel) in
  store "chart" (VFrame chart) ;;
  store "fig" (VFigure chart) ;;
  emit (PlotlyChart chart) ;;
  emit (Subheader "Real Income Growth by State") ;;
  let* growth := eval (growth_of income) in
  store "growth" (VFrame growth) ;;
  store "c1" VColumn ;;
  store "c2" VColumn ;;
  emit (Write "Top 10 States" []) ;;
  emit (DataFrame (top_states growth)) ;;
  emit (Write "Bottom 10 States" []) ;;
  let* bottom := eval (bottom_states growth) in
  emit (DataFrame bottom) ;;
  let* sel := bind (load "sel") as_frame in
  emit (DownloadButton ("Download " +:+ str_of state +:+ " real income data")
          (to_csv sel)
          (str_of state +:+ "_real_income.csv")
          "text/csv") ;;
  emit (Caption "No folders. No paths. Just upload and go.").

(** The base year the visitor chose, line 67. *)
Definition base_year_of (s : session) : Z :=
  number_input 1985 2030 2017 (base_year_choice s).

(** app.py, lines 64 to 79: the CPI deflator. *)
Definition deflator (df : frame) (s : session) : script frame :=
  let base_year := base_year_of s in
  emit (NumberInput "Deflation base year" 1985 2030 base_year) ;;
  store "base_year" (VInt base_year) ;;
  let* cpi := eval (cpi_of df) in
  store "cpi" (VFrame cpi) ;;
  let* cpi_annual := eval (cpi_annual_of cpi) in
  store "cpi_annual" (VFrame cpi_annual) ;;
  let* base_cpi := eval (base_cpi_of cpi_annual base_year) in
  store "base_cpi" (VFloat base_cpi) ;;
  (if invalid_base base_cpi
   then emit (Warning "Invalid CPI base year selected.") ;; stop
   else ret tt) ;;
  let* cpi_annual := eval (with_cpi_index base_cpi cpi_annual) in
  store "cpi_annual" (VFrame cpi_annual) ;;
  ret cpi_annual.

(** app.py, lines 81 to 96: the income rows. *)
Definition income_data (df : frame) : script frame :=
  let* ts := eval (topics df) in
  store "income_topics" (VList (income_topics ts)) ;;
  let income_topic := income_topic_of ts in
  store "income_topic" (match income_topic with Some t => VCell t | None => VNone end) ;;
  match income_topic with
  | None =>
      emit (Error "This dataset doesn't include income data. Choose a different view or rebuild with BEA enabled.") ;;
      stop
  | Some t =>
      let* income := eval (income_of df t) in
      store "income" (VFrame income) ;;
      ret income
  end.

(** app.py, lines 40 to 62: the data check and the sidebar. *)
Definition sidebar (df : frame) (s : session) : script cell :=
  emit (Subheader "Data check (what's in your file)") ;;
  let* ts := eval (let! ts := topics df in py_sorted ts) in
  emit (Write "Topics:" ts) ;;
  let* levels := eval (let! gl := col "geo_level" df in
                       py_sorted (unique cell_eqb (map (cell_at gl) (rows df)))) in
  emit (Write "Geo levels:" levels) ;;
  let* ts := eval (topics df) in
  (if existsb (eq_str "income_per_capita") ts
   then emit (Success "✅ income_per_capita is present")
   else emit (Error "❌ income_per_capita is NOT present (BEA data missing)")) ;;
  emit (SidebarTitle "Controls") ;;
  let* states := eval (state_list df) in
  store "state_list" (VList states) ;;
  let state := selectbox (state_options states) (state_choice s) in
  emit (Selectbox "State" (state_options states)) ;;
  store "state" (VCell state) ;;
  let* year_min := eval (year_bound Z.min df) in
  let* year_max := eval (year_bound Z.max df) in
  store "year_min" (VInt year_min) ;;
  store "year_max" (VInt year_max) ;;
  let* year_range := eval (slider year_min year_max (Z.max year_min 2000, year_max)
                             (year_choice s)) in
  emit (Slider "Year range" year_min year_max year_range) ;;
  store "year_range" (VRange year_range) ;;
  ret state.

(** The whole of app.py. *)
Definition app (s : session) : script unit :=
  emit (PageConfig "Real Income by State Explorer") ;;
  emit (Title "Real Income by State Explorer") ;;
  emit (Caption "Upload your cleaned economic dataset to begin") ;;
  emit (FileUploader "Upload cleaned_economic_dataset.xlsx") ;;
  store "uploaded_file"
    (match uploaded_file s with Some f => VFile f | None => VNone end) ;;
  match uploaded_file s with
  | None =>
      emit (Info "Please upload cleaned_economic_dataset.xlsx to continue.") ;;
      stop
  | Some file =>
      store "load_data" VFunction ;;
      let* df := eval (load_data file) in
      store "df" (VFrame df) ;;
      let* state := sidebar df s in
      let* cpi_annual := deflator df s in
      let* income := income_data df in
      display state income
  end.

(** A run starts from an empty namespace and an empty page. *)
Definition start : world := {| globals := ∅; page := [] |}.

Definition run (s : session) : outcome unit := app s start.

(** The world once [load_data] has returned [df] for the uploaded [file]. *)
Definition loaded_world (file : workbook) (df : frame) : world :=
  {| globals :=
       <["df" := VFrame df]>
         (<["load_data" := VFunction]>
            (<["uploaded_file" := VFile file]> ∅));
     page := [PageConfig "Real Income by State Explorer";
              Title "Real Income by State Explorer";
              Caption "Upload your cleaned economic dataset to begin";
              FileUploader "Upload cleaned_economic_dataset.xlsx"] |}.

End App.

(* ================================================================== *)
(** * Further properties of the page *)

(** No element of the page satisfies [p]. *)
Definition page_avoids (p : element -> bool) (w : world) : Prop :=
  forallb (fun e => negb (p e)) (page w) = true.

(** The messages [st.info], [st.warning] and [st.error]. *)
Definition is_alert (e : element) : bool :=
  match e with
  | Info _ | Error _ | Warning _ => true
  | _ => false
  end.

Definition is_info (e : element) : bool :=
  match e with
  | Info _ => true
  | _ => false
  end.

(** What lines 104 to 156 draw: the warning for an empty selection, the
    chart, the ranking tables and their headings, and the closing caption. *)
Definition is_display (e : element) : bool :=
  match e with
  | PlotlyChart _ | DataFrame _ => true
  | Warning text => String.eqb text "No income data for selected state."
  | Subheader text => String.eqb text "Real Income Growth by State"
  | Write text _ => String.eqb text "Top 10 States" || String.eqb text "Bottom 10 States"
  | Caption text => String.eqb text "No folders. No paths. Just upload and go."
  | _ => false
  end.

(** Nothing is bound to [sel] and nothing of lines 104 to 156 is drawn. *)
Definition undisplayed (w : world) : Prop :=
  globals w !! "sel" = None /\ page_avoids is_display w.

(** A piece of script that stops only right after a message. *)
Definition announced {A} (m : script A) : Prop :=
  forall w w', m w = Stopped w' ->
    exists e, List.last (page w') (PageConfig EmptyString) = e /\ is_alert e = true.

(** Whether a cell holds text. *)
Definition is_text (c : cell) : bool :=
  match c with
  | CStr _ => true
  | _ => false
  end.

Definition is_success (e : element) : bool :=
  match e with
  | Success _ => true
  | _ => false
  end.

(** The error message of line 93. *)
Definition is_income_error (e : element) : bool :=
  match e with
  | Error text =>
      String.eqb text
        "This dataset doesn't include income data. Choose a different view or rebuild with BEA enabled."
  | _ => false
  end.

(* ================================================================== *)
(** * A reference implementation of the library routines

    Used to run the model on concrete workbooks: dates are read from
    text of the form YYYY-MM-DD, a missing value becomes the text nan
    under [astype(str)], the mean skips NaN and divides the sum by the
    count, sorting is by insertion, and the CSV writer joins the text of
    the cells with commas. *)

Module Reference.

Definition digit (c : ascii) : option Z :=
  let n := nat_of_ascii c in
  if (48 <=? n)%nat && (n <=? 57)%nat then Some (Z.of_nat (n - 48)) else None.

Fixpoint number (acc : Z) (s : list ascii) : option Z :=
  match s with
  | [] => Some acc
  | c :: s' => match digit c with
               | Some d => number (10 * acc + d)%Z s'
               | None => None
               end
  end.

Definition parse_iso (s : string) : option timestamp :=
  match list_ascii_of_string s with
  | [y1; y2; y3; y4; "-"%char; m1; m2; "-"%char; d1; d2] =>
      match number 0 [y1; y2; y3; y4], number 0 [m1; m2], number 0 [d1; d2] with
      | Some y, Some m, Some d => Some (Timestamp y m d 0)
      | _, _, _ => None
      end
  | _ => None
  end.

Definition parse (c : cell) : option timestamp :=
  match c with
  | CStr s => parse_iso s
  | _ => None
  end.

Definition average (l : list float) : float :=
  let xs := List.filter (fun x => negb (PrimFloat.is_nan x)) l in
  (fold_left PrimFloat.add xs 0 / float_of_Z (Z.of_nat (length xs)))%float.

Definition text (c : cell) : string :=
  match c with
  | CStr s => s
  | CNull => EmptyString
  | CInt n => if (n <? 0)%Z then "-" +:+ pretty (Z.to_N (- n)) else pretty (Z.to_N n)
  | _ => "#"
  end.

Definition csv (df : frame) : string :=
  String.concat (String (ascii_of_nat 10) EmptyString)
    (String.concat "," (columns df)
     :: map (fun r => String.concat ","
                        (map (fun i => text (cell_at i r)) (seq 0 (length (columns df)))))
          (rows df)).

#[export] Instance pandas : Pandas := {|
  parse_datetime := parse;
  repr := text;
  keeps_missing := false;
  mean := average;
  sort_by := @insertion_sort;
  to_csv := csv
|}.

(** The same routines with the [astype(str)] of pandas 3. *)
Definition pandas3 : Pandas := {|
  parse_datetime := parse;
  repr := text;
  keeps_missing := true;
  mean := average;
  sort_by := @insertion_sort;
  to_csv := csv
|}.

(** The slider refuses equal bounds; it returns the range the visitor
    chose and otherwise the default, put in order. *)
Definition range_slider (lo hi : Z) (value : Z * Z) (choice : option (Z * Z))
    : res (Z * Z) :=
  if (lo =? hi)%Z
  then Raise (StreamlitAPIException "Slider min_value must be less than the max_value")
  else match choice with
       | Some r => Ok r
       | None => Ok (Z.min (fst value) (snd value), Z.max (fst value) (snd value))
       end.

#[export] Instance streamlit : Streamlit := {| slider := range_slider |}.

End Reference.

(* ================================================================== *)
(** * Sample workbooks

    A small worksheet in the expected layout, with untidy column labels,
    lower-case state codes, a date that does not parse and a blank value. *)

Module Sample.
Import Reference.

Definition header : list string :=
  [" Date"; "GEO"; "geo_level"; "series"; "topic "; "value"].

Definition sheet : worksheet := {|
  labels := map CStr header;
  grid := [
    [CStr "2017-01-01"; CStr "us"; CStr "national"; CStr "CPIAUCSL"; CStr "cpi"; CNum 240];
    [CStr "2017-06-01"; CStr "us"; CStr "national"; CStr "CPIAUCSL"; CStr "cpi"; CNum 250];
    [CStr "2018-01-01"; CStr "us"; CStr "national"; CStr "CPIAUCSL"; CStr "cpi"; CNum 260];
    [CStr "2017-01-01"; CStr "md"; CStr "state"; CStr "PCPI"; CStr "income_per_capita"; CNum 60000];
    [CStr "2018-01-01"; CStr "md"; CStr "state"; CStr "PCPI"; CStr "income_per_capita"; CNum 62000];
    [CStr "soon"; CStr "md"; CStr "state"; CStr "PCPI"; CStr "income_per_capita"; CNum 63000];
    [CStr "2018-01-01"; CStr "va"; CStr "state"; CStr "PCPI"; CStr "income_per_capita"; CNull]
  ]
|}.

Definition file : workbook := [("cleaned_long", sheet)].

Definition visit : session := {|
  uploaded_file := Some file;
  state_choice := 0;
  year_choice := None;
  base_year_choice := None
|}.

Definition day (y m d : Z) : cell := CTime (Timestamp y m d 0).

(** What [load_data] makes of [file]. *)
Definition loaded : frame := {|
  columns := ["date"; "geo"; "geo_level"; "series"; "topic"; "value"; "year"];
  rows := [
    [day 2017 1 1; CStr "US"; CStr "national"; CStr "CPIAUCSL"; CStr "cpi"; CNum 240; CInt 2017];
    [day 2017 6 1; CStr "US"; CStr "national"; CStr "CPIAUCSL"; CStr "cpi"; CNum 250; CInt 2017];
    [day 2018 1 1; CStr "US"; CStr "national"; CStr "CPIAUCSL"; CStr "cpi"; CNum 260; CInt 2018];
    [day 2017 1 1; CStr "MD"; CStr "state"; CStr "PCPI"; CStr "income_per_capita"; CNum 60000; CInt 2017];
    [day 2018 1 1; CStr "MD"; CStr "state"; CStr "PCPI"; CStr "income_per_capita"; CNum 62000; CInt 2018]
  ]
|}.

(** The worlds a visit with the default choices goes through. *)
Definition after_sidebar : world :=
  final (sidebar loaded visit (loaded_world file loaded)).

Definition after_deflator : world := final (deflator loaded visit after_sidebar).

Definition after_income : world := final (income_data loaded after_deflator).

Definition cpi : frame := {|
  columns := ["date"; "geo"; "geo_level"; "series"; "topic"; "value"; "year"];
  rows := firstn 3 (rows loaded)
|}.

Definition cpi_annual : frame := {|
  columns := ["year"; "value"];
  rows := [[CInt 2017; CNum 245]; [CInt 2018; CNum 260]]
|}.

Definition indexed : frame := {|
  columns := ["year"; "value"; "cpi_index"];
  rows := [[CInt 2017; CNum 245; CNum 100];
           [CInt 2018; CNum 260; CNum (260 / 245 * 100)%float]]
|}.

Definition income : frame := {|
  columns := ["date"; "geo"; "geo_level"; "series"; "topic"; "value"; "year"];
  rows := skipn 3 (rows loaded)
|}.

(** A visit that asks for 1990 as the base year, for which the sheet has
    no CPI rows. *)
Definition visit_1990 : session := {|
  uploaded_file := Some file;
  state_choice := 0;
  year_choice := None;
  base_year_choice := Some 1990%Z
|}.

(** A workbook whose sheet lacks the value column. *)
Definition file_without_value : workbook :=
  [("cleaned_long",
    {| labels := map CStr ["date"; "geo"; "geo_level"; "series"; "topic"];
       grid := [[CStr "2017-01-01"; CStr "md"; CStr "state"; CStr "PCPI";
                 CStr "income_per_capita"]] |})].

Definition visit_without_value : session := {|
  uploaded_file := Some file_without_value;
  state_choice := 0;
  year_choice := None;
  base_year_choice := None
|}.

(** A workbook with CPI rows only. *)
Definition file_without_income : workbook :=
  [("cleaned_long",
    {| labels := map CStr header; grid := firstn 3 (grid sheet) |})].

Definition visit_without_income : session := {|
  uploaded_file := Some file_without_income;
  state_choice := 0;
  year_choice := None;
  base_year_choice := None
|}.

Definition loaded_without_income : frame := {|
  columns := columns loaded;
  rows := firstn 3 (rows loaded)
|}.

Definition after_sidebar_without_income : world :=
  final (sidebar loaded_without_income visit_without_income
           (loaded_world file_without_income loaded_without_income)).

Definition after_deflator_without_income : world :=
  final (deflator loaded_without_income visit_without_income
           after_sidebar_without_income).

(** A workbook whose sheet already carries a real_income column, so that
    the income table of line 96 has the column the ranking of lines 130 to
    137 reads: two states with two years each, one state whose first year
    has no real income, and one state with a single year. *)
Definition ranking_row (date geo : string) (value real_income : cell) : list cell :=
  [CStr date; CStr geo; CStr "state"; CStr "PCPI"; CStr "income_per_capita";
   value; real_income].

Definition ranking_file : workbook :=
  [("cleaned_long",
    {| labels := map CStr ["date"; "geo"; "geo_level"; "series"; "topic"; "value"; "real_income"];
       grid := [
         ranking_row "2018-01-01" "tx" (CNum 33000) (CNum 30000);
         ranking_row "2017-01-01" "md" (CNum 49000) (CNum 50000);
         ranking_row "2017-01-01" "va" (CNum 45000) CNull;
         ranking_row "2018-01-01" "dc" (CNum 95000) (CNum 90000);
         ranking_row "2018-01-01" "md" (CNum 80000) (CNum 75000);
         ranking_row "2017-01-01" "tx" (CNum 39000) (CNum 40000);
         ranking_row "2018-01-01" "va" (CNum 51000) (CNum 48000)
       ] |})].

Definition ranked_row (y : Z) (geo : string) (value real_income : cell) : list cell :=
  [day y 1 1; CStr geo; CStr "state"; CStr "PCPI"; CStr "income_per_capita";
   value; real_income; CInt y].

(** The income table the script derives from [ranking_file]. *)
Definition real_incomes : frame := {|
  columns := ["date"; "geo"; "geo_level"; "series"; "topic"; "value"; "real_income"; "year"];
  rows := [
    ranked_row 2018 "TX" (CNum 33000) (CNum 30000);
    ranked_row 2017 "MD" (CNum 49000) (CNum 50000);
    ranked_row 2017 "VA" (CNum 45000) CNull;
    ranked_row 2018 "DC" (CNum 95000) (CNum 90000);
    ranked_row 2018 "MD" (CNum 80000) (CNum 75000);
    ranked_row 2017 "TX" (CNum 39000) (CNum 40000);
    ranked_row 2018 "VA" (CNum 51000) (CNum 48000)
  ]
|}.

Definition growth : frame := {|
  columns := ["geo"; "real_income_growth_pct"];
  rows := [[CStr "MD"; CNum 50]; [CStr "TX"; CNum (-25)]]
|}.

Definition bottom : frame := {|
  columns := ["geo"; "real_income_growth_pct"];
  rows := [[CStr "TX"; CNum (-25)]; [CStr "MD"; CNum 50]]
|}.

(** A workbook whose two CPI values of 2017 are finite but add up beyond
    the largest float. *)
Definition file_with_huge_cpi : workbook :=
  [("cleaned_long",
    {| labels := map CStr header;
       grid := [
         [CStr "2017-01-01"; CStr "us"; CStr "national"; CStr "CPIAUCSL"; CStr "cpi";
          CNum 0x1p+1023];
         [CStr "2017-06-01"; CStr "us"; CStr "national"; CStr "CPIAUCSL"; CStr "cpi";
          CNum 0x1p+1023];
         [CStr "2018-01-01"; CStr "us"; CStr "national"; CStr "CPIAUCSL"; CStr "cpi";
          CNum 260]
       ] |})].

Definition loaded_with_huge_cpi : frame := {|
  columns := ["date"; "geo"; "geo_level"; "series"; "topic"; "value"; "year"];
  rows := [
    [day 2017 1 1; CStr "US"; CStr "national"; CStr "CPIAUCSL"; CStr "cpi"; CNum 0x1p+1023; CInt 2017];
    [day 2017 6 1; CStr "US"; CStr "national"; CStr "CPIAUCSL"; CStr "cpi"; CNum 0x1p+1023; CInt 2017];
    [day 2018 1 1; CStr "US"; CStr "national"; CStr "CPIAUCSL"; CStr "cpi"; CNum 260; CInt 2018]
  ]
|}.

Definition indexed_with_huge_cpi : frame := {|
  columns := ["year"; "value"; "cpi_index"];
  rows := [[CInt 2017; CNum PrimFloat.infinity; CNum PrimFloat.nan];
           [CInt 2018; CNum 260; CNum 0]]
|}.

End Sample.

(* ================================================================== *)
(** * Further workbooks: a missing sheet, rows without values, blanks *)

Module Cases.
Import Reference Sample.

Definition visiting (upload : option workbook) : session := {|
  uploaded_file := upload;
  state_choice := 0;
  year_choice := None;
  base_year_choice := None
|}.

(** A visit before any file is uploaded. *)
Definition no_upload : session := visiting None.

(** A workbook whose only sheet has another name. *)
Definition file_without_sheet : workbook := [("Sheet1", sheet)].

(** A workbook in which every row lacks its value. *)
Definition file_of_blank_values : workbook :=
  [("cleaned_long",
    {| labels := map CStr header;
       grid := [[CStr "2017-01-01"; CStr "md"; CStr "state"; CStr "PCPI";
                 CStr "income_per_capita"; CNull];
                [CStr "2018-01-01"; CStr "md"; CStr "state"; CStr "PCPI";
                 CStr "income_per_capita"; CNull]] |})].

Definition loaded_without_rows : frame := {|
  columns := columns loaded;
  rows := []
|}.

(** The sample sheet with one more row, blank in geo, geo_level, series
    and topic. *)
Definition sheet_with_blanks : worksheet := {|
  labels := map CStr header;
  grid := grid sheet ++ [[CStr "2018-01-01"; CNull; CNull; CNull; CNull; CNum 1]]
|}.

Definition file_with_blanks : workbook := [("cleaned_long", sheet_with_blanks)].

Definition loaded_with_blanks : frame := {|
  columns := columns loaded;
  rows := rows loaded ++
          [[day 2018 1 1; CStr "NAN"; CNull; CStr "nan"; CStr "nan"; CNum 1; CInt 2018]]
|}.

(** The same upload where pandas keeps a missing value through
    [astype(str)]. *)
Definition loaded_with_missing : frame := {|
  columns := columns loaded;
  rows := rows loaded ++
          [[day 2018 1 1; CNull; CNull; CNull; CNull; CNum 1; CInt 2018]]
|}.

(** A table with a state code of two characters outside ASCII. *)
Definition loaded_abroad : frame := {|
  columns := columns loaded;
  rows := [[day 2018 1 1; CStr "Ñ1"; CStr "state"; CStr "PCPI"; CStr "income_per_capita";
            CNum 1; CInt 2018];
           [day 2018 1 1; CStr "ABC"; CStr "state"; CStr "PCPI"; CStr "income_per_capita";
            CNum 1; CInt 2018]]
|}.

(** The table of [file_with_huge_cpi] with the two large CPI values held
    as whole numbers. *)
Definition loaded_with_huge_whole_cpi : frame := {|
  columns := ["date"; "geo"; "geo_level"; "series"; "topic"; "value"; "year"];
  rows := [
    [day 2017 1 1; CStr "US"; CStr "national"; CStr "CPIAUCSL"; CStr "cpi";
     CInt (2 ^ 1023); CInt 2017];
    [day 2017 6 1; CStr "US"; CStr "national"; CStr "CPIAUCSL"; CStr "cpi";
     CInt (2 ^ 1023); CInt 2017];
    [day 2018 1 1; CStr "US"; CStr "national"; CStr "CPIAUCSL"; CStr "cpi"; CNum 260; CInt 2018]
  ]
|}.

(** A workbook whose header holds a number. *)
Definition file_with_numeric_label : workbook :=
  [("cleaned_long",
    {| labels := [CStr "date"; CInt 2024; CStr "value"];
       grid := [[CStr "2017-01-01"; CNum 1; CNum 2]] |})].

End Cases.

(* ================================================================== *)
(** * Facts about text *)

Lemma ascii_lower_idem c : ascii_lower (ascii_lower c) = ascii_lower c.
Proof. destruct c as [[] [] [] [] [] [] [] []]; reflexivity. Qed.

Lemma ascii_upper_idem c : ascii_upper (ascii_upper c) = ascii_upper c.
Proof. destruct c as [[] [] [] [] [] [] [] []]; reflexivity. Qed.

Lemma is_space_lower c : is_space (ascii_lower c) = is_space c.
Proof. destruct c as [[] [] [] [] [] [] [] []]; reflexivity. Qed.

Lemma str_map_idem f s :
  (forall c, f (f c) = f c) -> str_map f (str_map f s) = str_map f s.
Proof.
  intros Hf. induction s as [|c s IH]; simpl; [reflexivity|].
  now rewrite Hf, IH.
Qed.

Lemma lower_idem s : lower (lower s) = lower s.
Proof. apply str_map_idem, ascii_lower_idem. Qed.

Lemma upper_idem s : upper (upper s) = upper s.
Proof. apply str_map_idem, ascii_upper_idem. Qed.

Lemma is_empty_lower s : is_empty (lower s) = is_empty s.
Proof. destruct s; reflexivity. Qed.

Lemma lstrip_lower s : lstrip (lower s) = lower (lstrip s).
Proof.
  induction s as [|c s IH]; simpl; [reflexivity|].
  rewrite is_space_lower. destruct (is_space c); [exact IH | reflexivity].
Qed.

Lemma rstrip_lower s : rstrip (lower s) = lower (rstrip s).
Proof.
  induction s as [|c s IH]; simpl; [reflexivity|].
  fold (lower s). rewrite IH, is_space_lower, is_empty_lower.
  destruct (is_space c && is_empty (rstrip s)); reflexivity.
Qed.

Lemma rstrip_idem s : rstrip (rstrip s) = rstrip s.
Proof.
  induction s as [|c s IH]; simpl; [reflexivity|].
  destruct (is_space c && is_empty (rstrip s)) eqn:E; simpl; [reflexivity|].
  now rewrite IH, E.
Qed.

Lemma lstrip_idem s : lstrip (lstrip s) = lstrip s.
Proof.
  induction s as [|c s IH]; simpl; [reflexivity|].
  destruct (is_space c) eqn:E; [exact IH|]. simpl. now rewrite E.
Qed.

(** Removing leading blanks from text without trailing blanks leaves it
    without trailing blanks. *)
Lemma rstrip_lstrip s : rstrip s = s -> rstrip (lstrip s) = lstrip s.
Proof.
  induction s as [|c s IH]; simpl; [reflexivity|].
  destruct (is_space c && is_empty (rstrip s)) eqn:E; [discriminate|].
  intros Hs. injection Hs as Hs.
  destruct (is_space c) eqn:Ec; [now apply IH|].
  simpl. now rewrite Ec, Hs.
Qed.

Lemma strip_idem s : strip (strip s) = strip s.
Proof.
  unfold strip.
  rewrite (rstrip_lstrip (rstrip s)) by apply rstrip_idem.
  apply lstrip_idem.
Qed.

Lemma strip_lower s : strip (lower s) = lower (strip s).
Proof. unfold strip. now rewrite rstrip_lower, lstrip_lower. Qed.

(** A normalised column label is a fixed point of both operations. *)
Lemma normal_label s :
  strip (lower (strip s)) = lower (strip s) /\
  lower (lower (strip s)) = lower (strip s).
Proof.
  split; [|apply lower_idem].
  now rewrite strip_lower, strip_idem.
Qed.
(* ================================================================== *)
(** * Facts about rows and columns *)

Lemma cell_at_set_cell i v r : cell_at i (set_cell i v r) = v.
Proof.
  unfold cell_at. revert r.
  induction i as [|i IH]; intros [|c r]; simpl; auto.
Qed.


Lemma cell_at_set_cell_ne i j v r :
  i <> j -> cell_at j (set_cell i v r) = cell_at j r.
Proof.
  unfold cell_at. revert j r.
  induction i as [|i IH]; intros [|j] [|c r] Hij; simpl; try congruence.
  - now destruct j.
  - rewrite IH by congruence. now destruct j.
  - apply IH. congruence.
Qed.

Lemma col_index_lt c cols i : col_index c cols = Some i -> i < length cols.
Proof.
  revert i. induction cols as [|c' cs IH]; simpl; intros i; [discriminate|].
  destruct (String.eqb c' c).
  - intros [= <-]. lia.
  - destruct (col_index c cs) as [k|]; [|discriminate].
    intros [= <-]. specialize (IH k eq_refl). lia.
Qed.

Lemma col_index_nth c cols i : col_index c cols = Some i -> nth i cols EmptyString = c.
Proof.
  revert i. induction cols as [|c' cs IH]; simpl; intros i; [discriminate|].
  destruct (String.eqb c' c) eqn:E.
  - intros [= <-]. now apply String.eqb_eq.
  - destruct (col_index c cs) as [k|]; [|discriminate].
    intros [= <-]. now apply IH.
Qed.

(** Two labels found at one position are one label. *)
Lemma col_index_inj a b cols i :
  col_index a cols = Some i -> col_index b cols = Some i -> a = b.
Proof.
  intros Ha Hb. apply col_index_nth in Ha, Hb. congruence.
Qed.

(** Two positions that carry different labels differ. *)
Ltac labels_differ H1 H2 :=
  intros ->; discriminate (col_index_inj _ _ _ _ H1 H2).

Lemma col_index_In c cols : col_index c cols = None <-> ~ In c cols.
Proof.
  induction cols as [|c' cs IH]; simpl; [tauto|].
  destruct (String.eqb c' c) eqn:E.
  - apply String.eqb_eq in E. split; [discriminate|]. intros Hn. exfalso. auto.
  - apply String.eqb_neq in E.
    destruct (col_index c cs) eqn:Ec.
    + split; [discriminate|]. intros Hn. exfalso. apply Hn. right.
      destruct (in_dec string_dec c cs) as [?|Hc]; [assumption|].
      apply IH in Hc. discriminate.
    + split; [|reflexivity]. intros _ [?|?]; [congruence|].
      now apply (proj1 IH).
Qed.

Lemma col_index_app_l c cols more i :
  col_index c cols = Some i -> col_index c (cols ++ more) = Some i.
Proof.
  revert i. induction cols as [|c' cs IH]; simpl; intros i; [discriminate|].
  destruct (String.eqb c' c); [auto|].
  destruct (col_index c cs) as [k|]; [|discriminate].
  intros [= <-]. now rewrite (IH k eq_refl).
Qed.

Lemma col_index_app_new c cols :
  col_index c cols = None -> col_index c (cols ++ [c]) = Some (length cols).
Proof.
  induction cols as [|c' cs IH]; simpl.
  - now rewrite String.eqb_refl.
  - destruct (String.eqb c' c); [discriminate|].
    destruct (col_index c cs); [discriminate|].
    intros _. now rewrite IH.
Qed.

(** What [df[c] = e] does: the label [c] ends up at some position [i],
    every row gets its value there, and the other labels stay where they
    were, away from [i]. *)
Lemma assign_spec c e df :
  exists i,
    col_index c (columns (assign c e df)) = Some i /\
    rows (assign c e df) = map (fun r => set_cell i (e r) r) (rows df) /\
    (forall a j, col_index a (columns df) = Some j ->
                 col_index a (columns (assign c e df)) = Some j) /\
    (forall a, a <> c -> col_index a (columns (assign c e df)) = col_index a (columns df)) /\
    (forall a, In a (columns (assign c e df)) -> In a (columns df) \/ a = c).
Proof.
  unfold assign. destruct (col_index c (columns df)) as [i|] eqn:E; simpl.
  - exists i. repeat split; auto.
  - exists (length (columns df)). repeat split.
    + now apply col_index_app_new.
    + intros a j. apply col_index_app_l.
    + intros a Ha.
      destruct (col_index a (columns df)) as [j|] eqn:Ea.
      * now apply col_index_app_l.
      * apply col_index_In. rewrite in_app_iff. simpl.
        apply col_index_In in Ea. intros [?|[?|[]]]; congruence.
    + intros a. rewrite in_app_iff. simpl. intuition auto.
Qed.

Lemma col_Ok c df i : col c df = Ok i <-> col_index c (columns df) = Some i.
Proof.
  unfold col. destruct (col_index c (columns df)); split; congruence.
Qed.

Lemma col_Raise c df e : col c df = Raise e <-> col_index c (columns df) = None /\ e = KeyError c.
Proof.
  unfold col. destruct (col_index c (columns df)); split; try congruence.
  - intros [? _]. congruence.
  - intros [= <-]. auto.
  - intros [_ ->]. auto.
Qed.

Lemma bind_Ok {A B} (m : res A) (k : A -> res B) b :
  res_bind m k = Ok b <-> exists a, m = Ok a /\ k a = Ok b.
Proof.
  destruct m; simpl; split.
  - eauto.
  - now intros (a' & [= <-] & ?).
  - discriminate.
  - now intros (? & ? & _).
Qed.

Lemma filter_map_comm {A B} (f : A -> B) (p : B -> bool) l :
  List.filter p (map f l) = map f (List.filter (fun a => p (f a)) l).
Proof.
  induction l as [|a l IH]; simpl; [reflexivity|].
  destruct (p (f a)); simpl; now rewrite IH.
Qed.

(* ================================================================== *)
(** * [load_data] row by row *)

Section LoadFacts.
Context `{Pandas}.

Lemma update_Ok c f df df' :
  update c f df = Ok df' ->
  exists i,
    col_index c (columns df) = Some i /\
    columns df' = columns df /\
    rows df' = map (fun r => set_cell i (f (cell_at i r)) r) (rows df).
Proof.
  unfold update. intros Hu. apply bind_Ok in Hu as (i & Hi & [= <-]).
  apply col_Ok in Hi. exists i. unfold assign. rewrite Hi. auto.
Qed.

Lemma to_datetime_cases c :
  to_datetime c = CNull \/ exists t, to_datetime c = CTime t.
Proof.
  destruct c; simpl; eauto; destruct (parse_datetime _); eauto.
Qed.

Lemma to_datetime_notna c :
  isna (to_datetime c) = false -> exists t, to_datetime c = CTime t.
Proof.
  destruct (to_datetime_cases c) as [E|E]; [|auto].
  rewrite E. discriminate.
Qed.

(** The table [load_data] returns, described row by row from the
    worksheet: which rows are kept and what each kept row becomes. *)
Lemma load_data_rows file df :
  load_data file = Ok df ->
  exists sheet cols d g s t v y,
    read_excel file "cleaned_long" = Ok sheet /\
    normal_labels sheet = Ok cols /\
    col_index "date" cols = Some d /\
    col_index "geo" cols = Some g /\
    col_index "series" cols = Some s /\
    col_index "topic" cols = Some t /\
    col_index "value" cols = Some v /\
    col_index "year" (columns df) = Some y /\
    (forall a j, col_index a cols = Some j -> col_index a (columns df) = Some j) /\
    (forall a, In a (columns df) -> In a cols \/ a = "year") /\
    rows df =
      map (fun r => set_cell y (dt_year (to_datetime (cell_at d r))) (clean_row d g s t r))
        (List.filter (kept d v) (grid sheet)).
Proof.
  unfold load_data. intros Hl.
  apply bind_Ok in Hl as (sheet & Hsheet & Hl).
  apply bind_Ok in Hl as (names & Hnames & Hl).
  apply bind_Ok in Hl as (df1 & H1 & Hl).
  apply bind_Ok in Hl as (df2 & H2 & Hl).
  apply bind_Ok in Hl as (df3 & H3 & Hl).
  apply bind_Ok in Hl as (df4 & H4 & Hl).
  apply bind_Ok in Hl as (df5 & H5 & Hl).
  apply bind_Ok in Hl as (d' & Hd' & [= <-]).
  apply update_Ok in H1 as (d & Hd & Hc1 & Hr1).
  apply update_Ok in H2 as (g & Hg & Hc2 & Hr2).
  apply update_Ok in H3 as (s & Hs & Hc3 & Hr3).
  apply update_Ok in H4 as (t & Ht & Hc4 & Hr4).
  unfold dropna2 in H5.
  apply bind_Ok in H5 as (d5 & Hd5 & H5).
  apply bind_Ok in H5 as (v & Hv & [= <-]).
  assert (Hr : rows df4 = map (clean_row d g s t) (grid sheet)).
  { rewrite Hr4, Hr3, Hr2, Hr1. cbn [rows]. rewrite !map_map.
    apply map_ext. reflexivity. }
  assert (Hc : columns df4 = names).
  { rewrite Hc4, Hc3, Hc2, Hc1. reflexivity. }
  clear Hr1 Hr2 Hr3 Hr4.
  apply col_Ok in Hd5, Hv, Hd'. cbn [columns select] in Hd5, Hv, Hd'.
  rewrite Hc3, Hc2, Hc1 in Ht. rewrite Hc2, Hc1 in Hs. rewrite Hc1 in Hg.
  cbn [columns] in Hd, Hg, Hs, Ht.
  rewrite Hc in Hd5, Hv, Hd'.
  rewrite Hd in Hd5, Hd'. injection Hd5 as <-. injection Hd' as <-.
  assert (Hdg : d <> g) by labels_differ Hd Hg.
  assert (Hds : d <> s) by labels_differ Hd Hs.
  assert (Hdt : d <> t) by labels_differ Hd Ht.
  assert (Hvd : d <> v) by labels_differ Hd Hv.
  assert (Hvg : g <> v) by labels_differ Hg Hv.
  assert (Hvs : s <> v) by labels_differ Hs Hv.
  assert (Hvt : t <> v) by labels_differ Ht Hv.
  set (df5 := select _ df4).
  destruct (assign_spec "year" (fun r => dt_year (cell_at d r)) df5)
    as (y & Hy & Hrows & Hkeep & _ & Hin).
  assert (Hcols5 : columns df5 = names)
    by (unfold df5; cbn [columns select]; congruence).
  rewrite Hcols5 in Hkeep, Hin.
  exists sheet, names, d, g, s, t, v, y.
  repeat split; auto.
  rewrite Hrows. unfold df5. cbn [rows select].
  rewrite Hr, filter_map_comm, map_map.
  assert (Hdate : forall r, cell_at d (clean_row d g s t r) = to_datetime (cell_at d r)).
  { intros r. unfold clean_row. cbv zeta.
    now rewrite !cell_at_set_cell_ne, cell_at_set_cell by congruence. }
  assert (Hval : forall r, cell_at v (clean_row d g s t r) = cell_at v r).
  { intros r. unfold clean_row. cbv zeta.
    now rewrite !cell_at_set_cell_ne by congruence. }
  rewrite (filter_ext _ (kept d v)).
  - apply map_ext. intros r. now rewrite Hdate.
  - intros r. unfold kept. now rewrite Hdate, Hval.
Qed.

End LoadFacts.

Section LoadTheorems.
Context `{Pandas}.

(** The cells of a row of the loaded table, from the worksheet row it
    comes from. *)
Lemma load_data_cells file df :
  load_data file = Ok df ->
  exists sheet names d g s t v y,
    read_excel file "cleaned_long" = Ok sheet /\
    normal_labels sheet = Ok names /\
    col_index "date" (columns df) = Some d /\
    col_index "geo" (columns df) = Some g /\
    col_index "series" (columns df) = Some s /\
    col_index "topic" (columns df) = Some t /\
    col_index "value" (columns df) = Some v /\
    col_index "year" (columns df) = Some y /\
    (forall a, In a (columns df) -> In a names \/ a = "year") /\
    exists final,
      rows df = map final (List.filter (kept d v) (grid sheet)) /\
      forall r0,
        cell_at d (final r0) = to_datetime (cell_at d r0) /\
        cell_at g (final r0) = str_upper (astype_str (cell_at g r0)) /\
        cell_at s (final r0) = astype_str (cell_at s r0) /\
        cell_at t (final r0) = astype_str (cell_at t r0) /\
        cell_at v (final r0) = cell_at v r0 /\
        cell_at y (final r0) = dt_year (to_datetime (cell_at d r0)).
Proof.
  intros Hl.
  destruct (load_data_rows _ _ Hl)
    as (sheet & names & d & g & s & t & v & y & Hsheet & Hnames & Hd & Hg & Hs & Ht & Hv & Hy
        & Hkeep & Hin & Hrows).
  pose proof (Hkeep _ _ Hd) as Hd'. pose proof (Hkeep _ _ Hg) as Hg'.
  pose proof (Hkeep _ _ Hs) as Hs'. pose proof (Hkeep _ _ Ht) as Ht'.
  pose proof (Hkeep _ _ Hv) as Hv'.
  assert (Hdg : d <> g) by labels_differ Hd Hg.
  assert (Hds : d <> s) by labels_differ Hd Hs.
  assert (Hdt : d <> t) by labels_differ Hd Ht.
  assert (Hdv : d <> v) by labels_differ Hd Hv.
  assert (Hgs : g <> s) by labels_differ Hg Hs.
  assert (Hgt : g <> t) by labels_differ Hg Ht.
  assert (Hgv : g <> v) by labels_differ Hg Hv.
  assert (Hst : s <> t) by labels_differ Hs Ht.
  assert (Hsv : s <> v) by labels_differ Hs Hv.
  assert (Htv : t <> v) by labels_differ Ht Hv.
  assert (Hyd : y <> d) by labels_differ Hy Hd'.
  assert (Hyg : y <> g) by labels_differ Hy Hg'.
  assert (Hys : y <> s) by labels_differ Hy Hs'.
  assert (Hyt : y <> t) by labels_differ Hy Ht'.
  assert (Hyv : y <> v) by labels_differ Hy Hv'.
  exists sheet, names, d, g, s, t, v, y. repeat split; auto.
  eexists. split; [exact Hrows|].
  intros r0. cbv beta. unfold clean_row. cbv zeta.
  repeat split.
  - now rewrite !cell_at_set_cell_ne, cell_at_set_cell by congruence.
  - rewrite !cell_at_set_cell_ne, cell_at_set_cell by congruence.
    now rewrite !cell_at_set_cell_ne by congruence.
  - rewrite !cell_at_set_cell_ne, cell_at_set_cell by congruence.
    now rewrite !cell_at_set_cell_ne by congruence.
  - rewrite !cell_at_set_cell_ne, cell_at_set_cell by congruence.
    now rewrite !cell_at_set_cell_ne by congruence.
  - now rewrite !cell_at_set_cell_ne by congruence.
  - now rewrite cell_at_set_cell.
Qed.

(** C7.  In every row of the table [load_data] returns, the date is a
    timestamp and the year column holds an integer, the calendar year of
    that timestamp. *)
Theorem year_is_calendar_year file df :
  load_data file = Ok df ->
  exists d y,
    col "date" df = Ok d /\
    col "year" df = Ok y /\
    forall r, In r (rows df) ->
      exists t, cell_at d r = CTime t /\ cell_at y r = CInt (ts_year t).
Proof.
  intros Hl.
  destruct (load_data_cells _ _ Hl)
    as (sheet & names & d & g & s & t & v & y & _ & _ & Hd & _ & _ & _ & _ & Hy & _
        & final & Hrows & Hcells).
  exists d, y. repeat split; [now apply col_Ok | now apply col_Ok |].
  intros r Hr. rewrite Hrows in Hr. apply in_map_iff in Hr as (r0 & <- & Hr0).
  apply filter_In in Hr0 as [_ Hk]. unfold kept in Hk.
  apply andb_true_iff in Hk as [Hk _]. apply negb_true_iff in Hk.
  destruct (to_datetime_notna _ Hk) as (ts & Hts).
  destruct (Hcells r0) as (Ed & _ & _ & _ & _ & Ey).
  exists ts. rewrite Ed, Ey, Hts. auto.
Qed.

Lemma astype_str_cases c :
  (keeps_missing && isna c = true /\ astype_str c = CNull) \/
  (keeps_missing && isna c = false /\ astype_str c = CStr (str_of c)).
Proof.
  unfold astype_str. destruct (keeps_missing && isna c); auto.
Qed.

Lemma normal_labels_spec sheet names :
  normal_labels sheet = Ok names ->
  exists raw, labels sheet = map CStr raw /\ names = map (fun c => lower (strip c)) raw.
Proof.
  unfold normal_labels. generalize (labels sheet). intros l. revert names.
  induction l as [|c l IH]; intros names; cbn [res_map].
  - intros [= <-]. now exists [].
  - intros Hn. apply bind_Ok in Hn as (name & Hname & Hn).
    apply bind_Ok in Hn as (rest & Hrest & [= <-]).
    destruct c as [| | |x|]; try discriminate Hname. injection Hname as <-.
    destruct (IH _ Hrest) as (raw & -> & ->). now exists (x :: raw).
Qed.

(** C8, as the code has it.  For an uploaded workbook whose header is
    ASCII text with labels that stay distinct once normalised: the rows
    of the table [load_data] returns are the rows of the worksheet whose
    date parses and whose value is present, in order, and the others are
    left out without a trace on the page or in the result.  Every row has
    a date and a value that are not missing.  Its series and topic are
    the text of the worksheet's cells and its geo is a text, the
    upper-cased text of the worksheet's cell when that is ASCII; except
    that where pandas keeps a missing value through [astype(str)], a
    blank in geo, series or topic stays missing.  Every column label is
    stripped and lower-case. *)
Theorem load_data_invariants file df sheet :
  load_data file = Ok df ->
  read_excel file "cleaned_long" = Ok sheet ->
  plain_header sheet = true ->
  exists d g s t v final,
    col "date" df = Ok d /\ col "geo" df = Ok g /\ col "series" df = Ok s /\
    col "topic" df = Ok t /\ col "value" df = Ok v /\
    rows df = map final (List.filter (kept d v) (grid sheet)) /\
    (forall r0, kept d v r0 = true ->
       isna (cell_at d (final r0)) = false /\
       isna (cell_at v (final r0)) = false /\
       (if keeps_missing && isna (cell_at g r0)
        then cell_at g (final r0) = CNull
        else exists x,
               cell_at g (final r0) = CStr x /\ upper x = x /\
               (ascii_only (str_of (cell_at g r0)) = true ->
                x = upper (str_of (cell_at g r0)))) /\
       (if keeps_missing && isna (cell_at s r0)
        then cell_at s (final r0) = CNull
        else cell_at s (final r0) = CStr (str_of (cell_at s r0))) /\
       (if keeps_missing && isna (cell_at t r0)
        then cell_at t (final r0) = CNull
        else cell_at t (final r0) = CStr (str_of (cell_at t r0)))) /\
    (keeps_missing = false ->
     forall r, In r (rows df) ->
       (exists x, cell_at g r = CStr x /\ upper x = x) /\
       (exists x, cell_at s r = CStr x) /\
       (exists x, cell_at t r = CStr x)) /\
    (forall c, In c (columns df) -> strip c = c /\ lower c = c) /\
    (forall w, eval (load_data file) w = Done df w).
Proof.
  intros Hl Hsheet _.
  destruct (load_data_cells _ _ Hl)
    as (sheet' & names & d & g & s & t & v & y & Hsheet' & Hnames & Hd & Hg & Hs & Ht & Hv & Hy
        & Hin & final & Hrows & Hcells).
  rewrite Hsheet in Hsheet'. injection Hsheet' as <-.
  exists d, g, s, t, v, final.
  repeat (split; [now apply col_Ok|]).
  split; [exact Hrows|].
  assert (Hrow : forall r0, kept d v r0 = true ->
       isna (cell_at d (final r0)) = false /\
       isna (cell_at v (final r0)) = false /\
       (if keeps_missing && isna (cell_at g r0)
        then cell_at g (final r0) = CNull
        else exists x,
               cell_at g (final r0) = CStr x /\ upper x = x /\
               (ascii_only (str_of (cell_at g r0)) = true ->
                x = upper (str_of (cell_at g r0)))) /\
       (if keeps_missing && isna (cell_at s r0)
        then cell_at s (final r0) = CNull
        else cell_at s (final r0) = CStr (str_of (cell_at s r0))) /\
       (if keeps_missing && isna (cell_at t r0)
        then cell_at t (final r0) = CNull
        else cell_at t (final r0) = CStr (str_of (cell_at t r0)))).
  { intros r0 Hk. unfold kept in Hk.
    apply andb_true_iff in Hk as [Hk1 Hk2]. apply negb_true_iff in Hk1, Hk2.
    destruct (Hcells r0) as (Ed & Eg & Es & Et & Ev & _).
    rewrite Ed, Eg, Es, Et, Ev.
    split; [exact Hk1|]. split; [exact Hk2|].
    split; [|split].
    - destruct (astype_str_cases (cell_at g r0)) as [[-> ->]|[-> ->]]; [reflexivity|].
      eexists. split; [reflexivity|]. split; [apply upper_idem | reflexivity].
    - now destruct (astype_str_cases (cell_at s r0)) as [[-> ->]|[-> ->]].
    - now destruct (astype_str_cases (cell_at t r0)) as [[-> ->]|[-> ->]]. }
  split; [exact Hrow|]. split; [|split].
  - intros Hv2 r Hr. rewrite Hrows in Hr. apply in_map_iff in Hr as (r0 & <- & Hr0).
    apply filter_In in Hr0 as [_ Hk].
    destruct (Hrow r0 Hk) as (_ & _ & Eg & Es & Et).
    rewrite Hv2 in Eg, Es, Et. cbn [andb] in Eg, Es, Et.
    destruct Eg as (x & Eg & Hup & _).
    split; [exists x; split; assumption|]. split; eexists; eassumption.
  - intros c Hc. apply Hin in Hc as [Hc| ->]; [|split; reflexivity].
    destruct (normal_labels_spec _ _ Hnames) as (raw & _ & ->).
    apply in_map_iff in Hc as (c0 & <- & _). apply normal_label.
  - intros w. rewrite Hl. reflexivity.
Qed.

End LoadTheorems.

(* ================================================================== *)
(** * Sorting by insertion and [unique] *)

Lemma insert_sorted_perm {A} (leb : A -> A -> bool) a l :
  Permutation (insert_sorted leb a l) (a :: l).
Proof.
  induction l as [|b l IH]; simpl; [reflexivity|].
  destruct (leb a b); [reflexivity|].
  rewrite IH. apply perm_swap.
Qed.

Lemma insertion_sort_perm {A} (leb : A -> A -> bool) l :
  Permutation (insertion_sort leb l) l.
Proof.
  induction l as [|a l IH]; simpl; [reflexivity|].
  rewrite insert_sorted_perm. now constructor.
Qed.

Lemma insert_sorted_sorted {A} (leb : A -> A -> bool) a l :
  (forall x y, leb x y = false -> leb y x = true) ->
  (forall x y z, leb x y = true -> leb y z = true -> leb x z = true) ->
  StronglySorted (fun x y => leb x y = true) l ->
  StronglySorted (fun x y => leb x y = true) (insert_sorted leb a l).
Proof.
  intros Htot Htr. induction 1 as [|b l Hs IH Hb]; simpl.
  - repeat constructor.
  - destruct (leb a b) eqn:E.
    + constructor; [now constructor|].
      constructor; [assumption|].
      eapply List.Forall_impl; [|exact Hb]. intros c Hc. eauto.
    + constructor; [assumption|].
      rewrite (List.Forall_forall _ _). intros c Hc.
      apply (Permutation_in _ (insert_sorted_perm leb a l)) in Hc as [<-|Hc].
      * now apply Htot.
      * rewrite (List.Forall_forall _ _) in Hb. now apply Hb.
Qed.

Lemma insertion_sort_sorted {A} (leb : A -> A -> bool) l :
  (forall x y, leb x y = false -> leb y x = true) ->
  (forall x y z, leb x y = true -> leb y z = true -> leb x z = true) ->
  StronglySorted (fun x y => leb x y = true) (insertion_sort leb l).
Proof.
  intros Htot Htr. induction l as [|a l IH]; simpl; [constructor|].
  now apply insert_sorted_sorted.
Qed.



Lemma insertion_sort_map {A B} (f : A -> B) lebA lebB l :
  (forall x y, lebB (f x) (f y) = lebA x y) ->
  insertion_sort lebB (map f l) = map f (insertion_sort lebA l).
Proof.
  intros Hf. induction l as [|a l IH]; simpl; [reflexivity|].
  rewrite IH. generalize (insertion_sort lebA l) as s.
  induction s as [|b s IHs]; simpl; [reflexivity|].
  rewrite Hf. destruct (lebA a b); simpl; [reflexivity|]. now rewrite IHs.
Qed.

Lemma leb_str_total x y : String.leb x y = false -> String.leb y x = true.
Proof.
  intros E. destruct (String.leb_total x y) as [E'|E']; congruence.
Qed.

Lemma leb_str_trans x y z :
  String.leb x y = true -> String.leb y z = true -> String.leb x z = true.
Proof.
  intros Hxy Hyz. apply Is_true_true.
  apply Is_true_true in Hxy, Hyz.
  exact (transitivity (R := String.le) Hxy Hyz).
Qed.

Lemma existsb_eqb_In {A} (eqb : A -> A -> bool) a l :
  (forall x y, eqb x y = true <-> x = y) ->
  existsb (eqb a) l = true <-> In a l.
Proof.
  intros Heq. rewrite existsb_exists. split.
  - intros (x & Hx & E). apply Heq in E. congruence.
  - intros Ha. exists a. split; [assumption|]. now apply Heq.
Qed.

Lemma unique_from_spec {A} (eqb : A -> A -> bool) seen l :
  (forall x y, eqb x y = true <-> x = y) ->
  (forall x, In x (unique_from eqb seen l) <-> In x l /\ ~ In x seen) /\
  List.NoDup (unique_from eqb seen l).
Proof.
  intros Heq. revert seen.
  induction l as [|a l IH]; intros seen; simpl.
  - split; [tauto | constructor].
  - destruct (existsb (eqb a) seen) eqn:E.
    + apply (existsb_eqb_In eqb a seen Heq) in E.
      destruct (IH seen) as [Hin Hnd]. split; [|assumption].
      intros x. rewrite Hin. split; [tauto|].
      intros [[<-|Hx] Hs]; tauto.
    + assert (Ha : ~ In a seen).
      { intros Ha. apply (existsb_eqb_In eqb a seen Heq) in Ha. congruence. }
      destruct (IH (a :: seen)) as [Hin Hnd]. split.
      * intros x. simpl. rewrite Hin. simpl. split.
        -- intros [<-|[Hx Hs]]; tauto.
        -- intros [[<-|Hx] Hs]; [tauto|].
           destruct (eqb a x) eqn:Eax.
           ++ left. now apply Heq.
           ++ right. split; [assumption|]. intros [->|?]; [|tauto].
              assert (eqb x x = true) by now apply Heq.
              congruence.
      * constructor; [|assumption]. rewrite Hin. simpl. tauto.
Qed.

Lemma unique_spec {A} (eqb : A -> A -> bool) l :
  (forall x y, eqb x y = true <-> x = y) ->
  (forall x, In x (unique eqb l) <-> In x l) /\ List.NoDup (unique eqb l).
Proof.
  intros Heq. destruct (unique_from_spec eqb [] l Heq) as [Hin Hnd].
  split; [|assumption]. intros x. rewrite (Hin x). simpl. tauto.
Qed.

Lemma unique_from_map {A B} (f : A -> B) eqA eqB seen l :
  (forall x y, eqB (f x) (f y) = eqA x y) ->
  unique_from eqB (map f seen) (map f l) = map f (unique_from eqA seen l).
Proof.
  intros Hf. revert seen. induction l as [|a l IH]; intros seen; simpl; [reflexivity|].
  assert (E : existsb (eqB (f a)) (map f seen) = existsb (eqA a) seen).
  { induction seen as [|b seen IHs]; simpl; [reflexivity|]. now rewrite Hf, IHs. }
  rewrite E. destruct (existsb (eqA a) seen); [apply IH|].
  simpl. f_equal. apply (IH (a :: seen)).
Qed.

Lemma unique_map {A B} (f : A -> B) eqA eqB l :
  (forall x y, eqB (f x) (f y) = eqA x y) ->
  unique eqB (map f l) = map f (unique eqA l).
Proof. intros Hf. apply (unique_from_map f eqA eqB [] l Hf). Qed.

Lemma all_comparable_text l : all_comparable (map CStr l) = true.
Proof.
  induction l as [|a l IH]; simpl; [reflexivity|].
  rewrite IH, andb_true_r. apply forallb_forall.
  intros c Hc. apply in_map_iff in Hc as (s & <- & _). reflexivity.
Qed.

(** [sorted] on a list of text never raises and sorts the text. *)
Lemma py_sorted_text l :
  py_sorted (map CStr l) = Ok (map CStr (insertion_sort String.leb l)).
Proof.
  unfold py_sorted. rewrite all_comparable_text. f_equal.
  now apply insertion_sort_map.
Qed.

Section StateList.
Context `{Pandas}.

(** The geo cells [state_list] collects are text. *)
Lemma state_rows_text gl g (l : list (list cell)) :
  exists codes,
    map (cell_at g)
      (List.filter (fun r => eq_str "state" (cell_at gl r) && str_len_is 2 (cell_at g r)) l)
    = map CStr codes /\
    forall x, In x codes <->
      char_length x = 2 /\
      exists r, In r l /\ cell_at gl r = CStr "state" /\ cell_at g r = CStr x.
Proof.
  induction l as [|r l (codes & Hc & Hin)]; simpl.
  - exists []. split; [reflexivity|]. simpl. intros x. split; [tauto|].
    intros (_ & r & [] & _).
  - destruct (eq_str "state" (cell_at gl r) && str_len_is 2 (cell_at g r)) eqn:E.
    + apply andb_true_iff in E as [E1 E2].
      destruct (cell_at g r) as [| | |x0|] eqn:Eg; try discriminate.
      destruct (cell_at gl r) as [| | |lv|] eqn:Egl; try discriminate.
      simpl in E1, E2. apply String.eqb_eq in E1 as ->.
      apply Nat.eqb_eq in E2.
      exists (x0 :: codes). simpl. rewrite Hc, Eg. split; [reflexivity|].
      intros x. rewrite Hin. split.
      * intros [<-|(Hlen & r' & Hr' & H1 & H2)].
        -- split; [assumption|]. exists r. auto.
        -- split; [assumption|]. exists r'. auto.
      * intros (Hlen & r' & [<-|Hr'] & H1 & H2).
        -- left. congruence.
        -- right. split; [assumption|]. exists r'. auto.
    + exists codes. split; [assumption|].
      intros x. rewrite Hin. split.
      * intros (Hlen & r' & Hr' & H1 & H2). split; [assumption|]. exists r'. auto.
      * intros (Hlen & r' & [<-|Hr'] & H1 & H2).
        -- exfalso. rewrite H1, H2 in E. simpl in E.
           rewrite Hlen in E. discriminate.
        -- split; [assumption|]. exists r'. auto.
Qed.

(** C9.  The state selector offers exactly the distinct geo codes of the
    rows whose geo_level is "state" and whose code has two characters, as
    [len] counts them, in sorted order; when there is none it offers the
    single option "MD". *)
Theorem state_list_spec df gl g :
  col "geo_level" df = Ok gl ->
  col "geo" df = Ok g ->
  exists codes,
    state_list df = Ok (map CStr codes) /\
    (forall x, In x codes <->
       char_length x = 2 /\
       exists r, In r (rows df) /\ cell_at gl r = CStr "state" /\ cell_at g r = CStr x) /\
    List.NoDup codes /\
    StronglySorted (fun a b => String.leb a b = true) codes /\
    state_options (map CStr codes) =
      match codes with [] => [CStr "MD"] | _ => map CStr codes end.
Proof.
  intros Hgl Hg. unfold state_list. rewrite Hgl, Hg. cbn [res_bind].
  destruct (state_rows_text gl g (rows df)) as (raw & Hraw & Hin).
  rewrite Hraw.
  rewrite (unique_map CStr String.eqb cell_eqb) by reflexivity.
  rewrite py_sorted_text.
  destruct (unique_spec String.eqb raw String.eqb_eq) as [Hu Hnd].
  pose proof (insertion_sort_perm String.leb (unique String.eqb raw)) as Hp.
  exists (insertion_sort String.leb (unique String.eqb raw)).
  split; [reflexivity|]. split; [|split; [|split]].
  - intros x. rewrite <- Hin, <- Hu.
    split; intros Hx; [now apply (Permutation_in _ Hp) |
                       now apply (Permutation_in _ (Permutation_sym Hp))].
  - now apply (Permutation_NoDup (Permutation_sym Hp)).
  - apply insertion_sort_sorted; [apply leb_str_total | apply leb_str_trans].
  - now destruct (insertion_sort String.leb (unique String.eqb raw)).
Qed.

End StateList.

(* ================================================================== *)
(** * The CPI index *)

Lemma res_map_Ok {A B} (f : A -> res B) (g : A -> B) l l' :
  (forall a b, In a l -> f a = Ok b -> b = g a) ->
  res_map f l = Ok l' -> l' = map g l.
Proof.
  revert l'. induction l as [|a l IH]; intros l' Hf; simpl.
  - now intros [= <-].
  - intros Hm. apply bind_Ok in Hm as (b & Hb & Hm).
    apply bind_Ok in Hm as (bs & Hbs & [= <-]).
    f_equal.
    + apply Hf; [now left | assumption].
    + apply IH; [|assumption]. intros a' b' Ha'. apply Hf. now right.
Qed.

Lemma as_float_Ok c x : as_float c = Ok x -> x = num_of c.
Proof. destruct c; simpl; congruence. Qed.

Lemma filter_filter {A} (p q : A -> bool) l :
  List.filter p (List.filter q l) = List.filter (fun a => q a && p a) l.
Proof.
  induction l as [|a l IH]; simpl; [reflexivity|].
  destruct (q a); simpl; [|assumption]. destruct (p a); now rewrite IH.
Qed.

(** A column of integers and blanks: the non-blank cells are its integers. *)
Lemma notna_ints l :
  (forall c, In c l -> c = CNull \/ exists n, c = CInt n) ->
  List.filter (fun c => negb (isna c)) l = map CInt (ints_of l).
Proof.
  induction l as [|c l IH]; intros Hl; simpl; [reflexivity|].
  destruct (Hl c (or_introl eq_refl)) as [->|(n & ->)]; simpl;
    [|f_equal]; apply IH; intros c' Hc'; apply Hl; now right.
Qed.

Lemma In_ints_of n l : In n (ints_of l) <-> In (CInt n) l.
Proof.
  unfold ints_of. rewrite in_flat_map. split.
  - intros (c & Hc & Hn). destruct c; simpl in Hn; try tauto.
    destruct Hn as [<-|[]]. assumption.
  - intros Hn. exists (CInt n). simpl. auto.
Qed.

(** The keys of a group-by over such a column: its distinct integers in
    increasing order. *)
Lemma group_keys_ints l :
  (forall c, In c l -> c = CNull \/ exists n, c = CInt n) ->
  exists ys,
    group_keys l = map CInt ys /\
    List.NoDup ys /\
    forall y, In y ys <-> In (CInt y) l.
Proof.
  intros Hl. unfold group_keys. rewrite (notna_ints l Hl).
  rewrite (unique_map CInt Z.eqb cell_eqb) by reflexivity.
  rewrite (insertion_sort_map CInt Z.leb cell_leb) by reflexivity.
  destruct (unique_spec Z.eqb (ints_of l) Z.eqb_eq) as [Hu Hnd].
  pose proof (insertion_sort_perm Z.leb (unique Z.eqb (ints_of l))) as Hp.
  eexists. split; [reflexivity|]. split.
  - now apply (Permutation_NoDup (Permutation_sym Hp)).
  - intros y. rewrite <- In_ints_of, <- Hu.
    split; intros Hy; [now apply (Permutation_in _ Hp) |
                       now apply (Permutation_in _ (Permutation_sym Hp))].
Qed.

(** In a list without repetition, selecting the images equal to one member
    yields that image alone. *)
Lemma filter_key_NoDup ys b :
  List.NoDup ys -> In b ys ->
  List.filter (fun y => (y =? b)%Z) ys = [b].
Proof.
  induction 1 as [|y ys Hy Hnd IH]; simpl; [tauto|].
  intros [->|Hb].
  - rewrite Z.eqb_refl. f_equal.
    clear IH Hnd. induction ys as [|z ys IH]; simpl; [reflexivity|].
    destruct (z =? b)%Z eqn:E.
    + apply Z.eqb_eq in E. subst. exfalso. apply Hy. now left.
    + apply IH. intros Hc. apply Hy. now right.
  - destruct (y =? b)%Z eqn:E.
    + apply Z.eqb_eq in E. subst. tauto.
    + now apply IH.
Qed.

Lemma filter_key_absent ys b :
  ~ In b ys -> List.filter (fun y => (y =? b)%Z) ys = [].
Proof.
  induction ys as [|y ys IH]; simpl; [reflexivity|].
  intros Hb. destruct (y =? b)%Z eqn:E.
  - apply Z.eqb_eq in E. subst. tauto.
  - apply IH. tauto.
Qed.

Section Deflator.
Context `{Pandas}.

Lemma groupby_mean_rows key val df out :
  groupby_mean key val df = Ok out ->
  exists k v,
    col_index key (columns df) = Some k /\
    col_index val (columns df) = Some v /\
    columns out = [key; val] /\
    rows out =
      map (fun g =>
             [g; CNum (mean (map (fun r => num_of (cell_at v r))
                               (List.filter (fun r => cell_eqb (cell_at k r) g) (rows df))))])
        (group_keys (map (cell_at k) (rows df))).
Proof.
  unfold groupby_mean. intros Hg.
  apply bind_Ok in Hg as (k & Hk & Hg).
  apply bind_Ok in Hg as (v & Hv & Hg).
  apply bind_Ok in Hg as (means & Hm & [= <-]).
  apply col_Ok in Hk, Hv. exists k, v. repeat split; auto. cbn [rows].
  eapply res_map_Ok; [|exact Hm].
  intros g row _ Hrow. cbv beta in Hrow.
  apply bind_Ok in Hrow as (xs & Hxs & [= <-]).
  do 4 f_equal.
  eapply res_map_Ok; [|exact Hxs].
  intros r x _. apply as_float_Ok.
Qed.

Lemma dt_year_cases c : dt_year c = CNull \/ exists n, dt_year c = CInt n.
Proof. destruct c; simpl; eauto. Qed.

(** The yearly table of line 72, from the rows of the loaded table: one
    row per year that has CPI values, with the mean of those values. *)
Lemma cpi_annual_rows df cpi annual :
  cpi_of df = Ok cpi ->
  cpi_annual_of cpi = Ok annual ->
  exists gl s d v years,
    col "geo_level" df = Ok gl /\ col "series" df = Ok s /\
    col "date" df = Ok d /\ col "value" df = Ok v /\
    List.NoDup years /\
    (forall y, In y years <-> cpi_values gl s d v df y <> []) /\
    columns annual = ["year"; "value"] /\
    rows annual = map (fun y => [CInt y; CNum (mean (cpi_values gl s d v df y))]) years.
Proof.
  unfold cpi_of, cpi_annual_of. intros Hc Ha.
  apply bind_Ok in Hc as (gl & Hgl & Hc).
  apply bind_Ok in Hc as (s & Hs & Hc).
  apply bind_Ok in Hc as (d & Hd & [= <-]).
  set (nat_cpi := fun r => eq_str "national" (cell_at gl r) && eq_str "CPIAUCSL" (cell_at s r)) in *.
  destruct (groupby_mean_rows _ _ _ _ Ha) as (yi & v & Hyi & Hv & Hcols & Hrows).
  destruct (assign_spec "year" (fun r => dt_year (cell_at d r)) (select nat_cpi df))
    as (yi' & Hyi' & Hr & _ & Hother & _).
  rewrite Hyi in Hyi'. injection Hyi' as <-.
  assert (Hvy : yi <> v)
    by labels_differ Hyi Hv.
  rewrite (Hother "value") in Hv by discriminate. cbn [columns select] in Hv.
  rewrite Hr in Hrows. cbn [rows select] in Hrows.
  rewrite map_map in Hrows.
  destruct (group_keys_ints
              (map (fun r => cell_at yi (set_cell yi (dt_year (cell_at d r)) r))
                 (List.filter nat_cpi (rows df)))) as (years & Hkeys & Hnd & Hin).
  { intros c Hc. apply in_map_iff in Hc as (r & <- & _).
    rewrite cell_at_set_cell. apply dt_year_cases. }
  rewrite Hkeys, map_map in Hrows.
  assert (Hvals : forall y,
    map (fun r => num_of (cell_at v r))
      (List.filter (fun r => cell_eqb (cell_at yi r) (CInt y))
         (map (fun r => set_cell yi (dt_year (cell_at d r)) r) (List.filter nat_cpi (rows df))))
    = cpi_values gl s d v df y).
  { intros y. rewrite filter_map_comm, map_map, filter_filter. unfold cpi_values.
    erewrite filter_ext, map_ext; [reflexivity| |].
    - intros r. cbv beta. now rewrite cell_at_set_cell_ne.
    - intros r. cbv beta. now rewrite cell_at_set_cell. }
  apply col_Ok in Hd. cbn [columns select] in Hd.
  exists gl, s, d, v, years.
  split; [assumption|]. split; [assumption|].
  split; [now apply col_Ok|]. split; [now apply col_Ok|].
  split; [assumption|]. split; [|split; [assumption|]].
  - intros y. split.
    + intros Hy Hnil. apply Hin in Hy. apply in_map_iff in Hy as (r & Hr' & Hrin).
      rewrite cell_at_set_cell in Hr'.
      assert (Hm : In (num_of (cell_at v r)) (cpi_values gl s d v df y)).
      { unfold cpi_values. apply (in_map (fun r => num_of (cell_at v r))).
        apply filter_In.
        apply filter_In in Hrin as [Hrin Hnat]. split; [assumption|].
        fold (nat_cpi r). rewrite Hnat, Hr'. simpl. apply Z.eqb_refl. }
      rewrite Hnil in Hm. destruct Hm.
    + intros Hne. apply Hin.
      unfold cpi_values in Hne.
      match type of Hne with map _ ?l <> [] => destruct l as [|r rest] eqn:Ef end;
        [exfalso; apply Hne; reflexivity|].
      assert (Hr' : In r (r :: rest)) by now left.
      rewrite <- Ef in Hr'. apply filter_In in Hr' as [Hrin Hc].
      apply andb_true_iff in Hc as [Hnat Hy].
      apply in_map_iff. exists r. rewrite cell_at_set_cell. split.
      * destruct (dt_year_cases (cell_at d r)) as [E|(n & E)];
          rewrite E in Hy |- *; simpl in Hy; [discriminate|].
        apply Z.eqb_eq in Hy. now subst.
      * apply filter_In. auto.
  - rewrite Hrows. apply map_ext. intros y. now rewrite Hvals.
Qed.

(** A run of the deflator section that reaches its end went through every
    expression of the section, with a valid base. *)
Lemma deflator_Done df s w indexed w' :
  deflator df s w = Done indexed w' ->
  exists cpi annual b,
    cpi_of df = Ok cpi /\
    cpi_annual_of cpi = Ok annual /\
    base_cpi_of annual (base_year_of s) = Ok b /\
    invalid_base b = false /\
    with_cpi_index b annual = Ok indexed /\
    globals w' !! "base_cpi" = Some (VFloat b) /\
    globals w' !! "cpi_annual" = Some (VFrame indexed).
Proof.
  unfold deflator, bind, emit, store, eval, ret, stop, raise.
  cbn [globals page].
  destruct (cpi_of df) as [cpi|] eqn:E1; [|discriminate].
  destruct (cpi_annual_of cpi) as [annual|] eqn:E2; [|discriminate].
  destruct (base_cpi_of annual _) as [b|] eqn:E3; [|discriminate].
  destruct (invalid_base b) eqn:Eb; [discriminate|].
  destruct (with_cpi_index b annual) as [ix|] eqn:E4; [|discriminate].
  intros [= <- <-]. exists cpi, annual, b. cbn [globals].
  repeat split; auto.
  - rewrite lookup_insert_ne by discriminate. apply lookup_insert_eq.
  - apply lookup_insert_eq.
Qed.

(** C2, as the code has it.  When the deflator section runs to its end,
    the yearly table has one row per year with CPI values; its value is the
    mean of that year's values and its cpi_index is that mean divided by
    the mean of the base year's values, times 100.  The base year is among
    the rows; its index is 100 whenever the base mean divided by itself is
    1, as it is for a finite mean, and NaN when the base mean is infinite,
    which the guard lets through.  Two facts about the library mean are
    used: the mean of no value is NaN, and the mean of the one-row
    selection of line 73 is that row's value. *)
Theorem cpi_index_formula df s w indexed w' gl se d v :
  deflator df s w = Done indexed w' ->
  col "geo_level" df = Ok gl -> col "series" df = Ok se ->
  col "date" df = Ok d -> col "value" df = Ok v ->
  let m := fun y => mean (cpi_values gl se d v df y) in
  let base := base_year_of s in
  PrimFloat.is_nan (mean []) = true ->
  mean [m base] = m base ->
  exists years,
    List.NoDup years /\
    (forall y, In y years <-> cpi_values gl se d v df y <> []) /\
    In base years /\
    columns indexed = ["year"; "value"; "cpi_index"] /\
    rows indexed =
      map (fun y => [CInt y; CNum (m y); CNum (m y / m base * 100)%float]) years /\
    ((m base / m base = 1)%float ->
     In [CInt base; CNum (m base); CNum 100] (rows indexed)) /\
    (m base = PrimFloat.infinity \/ m base = PrimFloat.neg_infinity ->
     In [CInt base; CNum (m base); CNum PrimFloat.nan] (rows indexed)).
Proof.
  intros Hrun Hgl Hse Hd Hv m base Hnil Hone.
  destruct (deflator_Done _ _ _ _ _ Hrun)
    as (cpi & annual & b & Hcpi & Hannual & Hb & Hvalid & Hix & _).
  destruct (cpi_annual_rows _ _ _ Hcpi Hannual)
    as (gl' & se' & d' & v' & years & Hgl' & Hse' & Hd' & Hv' & Hnd & Hin & Hcols & Hrows).
  rewrite Hgl in Hgl'. rewrite Hse in Hse'. rewrite Hd in Hd'. rewrite Hv in Hv'.
  injection Hgl' as <-. injection Hse' as <-. injection Hd' as <-. injection Hv' as <-.
  destruct annual as [acols arows]. cbn [columns rows] in Hcols, Hrows. subst acols arows.
  set (annual := {| columns := ["year"; "value"]; rows := _ |}) in *.
  assert (Hc0 : col "year" annual = Ok 0) by reflexivity.
  assert (Hc1 : col "value" annual = Ok 1) by reflexivity.
  (* the base mean, line 73 *)
  unfold base_cpi_of in Hb. rewrite Hc0, Hc1 in Hb. cbn [res_bind] in Hb.
  injection Hb as Hb. fold base in Hb.
  unfold annual in Hb. cbn [rows] in Hb.
  rewrite filter_map_comm, map_map in Hb.
  rewrite (filter_ext _ (fun y => (y =? base)%Z)) in Hb by reflexivity.
  assert (Hbase : In base years /\ b = m base).
  { destruct (in_dec Z.eq_dec base years) as [Hy|Hy].
    - split; [assumption|].
      rewrite (filter_key_NoDup years base Hnd Hy) in Hb.
      cbn [map cell_at nth num_of] in Hb. fold (m base) in Hb. congruence.
    - exfalso.
      rewrite (filter_key_absent years base Hy) in Hb. cbn [map] in Hb.
      unfold invalid_base in Hvalid. rewrite <- Hb, Hnil in Hvalid. discriminate. }
  destruct Hbase as [Hy ->].
  (* the index, line 79 *)
  unfold with_cpi_index in Hix. rewrite Hc1 in Hix. cbn [res_bind] in Hix.
  injection Hix as <-.
  exists years. split; [assumption|]. split; [assumption|]. split; [assumption|].
  split; [reflexivity|].
  assert (Hr : rows (assign "cpi_index"
                       (fun r => CNum (num_of (cell_at 1 r) / m base * 100)%float) annual)
               = map (fun y => [CInt y; CNum (m y); CNum (m y / m base * 100)%float]) years).
  { unfold assign, annual. cbn [columns rows col_index String.eqb Ascii.eqb Bool.eqb].
    cbn [length]. rewrite map_map. apply map_ext. intros y. reflexivity. }
  split; [exact Hr|]. split.
  - intros Hself. rewrite Hr. apply in_map_iff. exists base. split; [|assumption].
    rewrite Hself. reflexivity.
  - intros Hinf. rewrite Hr. apply in_map_iff. exists base. split; [|assumption].
    destruct Hinf as [-> | ->]; reflexivity.
Qed.

(** C6.  Once the base mean [b] of line 73 is computed, the section
    goes one of two ways.  If [b] is NaN or zero it shows the warning and
    stops, with the yearly table still without a cpi_index column.
    Otherwise it runs to its end, and the division of line 79 is done with
    that [b], which is neither NaN nor zero. *)
Theorem deflator_guard df s w cpi annual b :
  cpi_of df = Ok cpi ->
  cpi_annual_of cpi = Ok annual ->
  base_cpi_of annual (base_year_of s) = Ok b ->
  if PrimFloat.is_nan b || PrimFloat.eqb b 0
  then
    deflator df s w =
      Stopped
        {| globals :=
             <["base_cpi" := VFloat b]>
               (<["cpi_annual" := VFrame annual]>
                  (<["cpi" := VFrame cpi]>
                     (<["base_year" := VInt (base_year_of s)]> (globals w))));
           page :=
             (page w ++ [NumberInput "Deflation base year" 1985 2030 (base_year_of s)])
             ++ [Warning "Invalid CPI base year selected."] |} /\
    columns annual = ["year"; "value"]
  else
    PrimFloat.is_nan b = false /\ PrimFloat.eqb b 0 = false /\
    exists indexed w',
      deflator df s w = Done indexed w' /\
      with_cpi_index b annual = Ok indexed /\
      page w' = page w ++ [NumberInput "Deflation base year" 1985 2030 (base_year_of s)].
Proof.
  intros Hcpi Hannual Hb.
  destruct (groupby_mean_rows _ _ _ _ Hannual) as (k & v & _ & _ & Hcols & _).
  unfold deflator, bind, emit, store, eval, ret, stop, raise.
  cbn [globals page]. rewrite Hcpi, Hannual, Hb. fold (invalid_base b).
  unfold invalid_base.
  destruct (PrimFloat.is_nan b || PrimFloat.eqb b 0) eqn:E.
  - split; [reflexivity | assumption].
  - apply orb_false_iff in E as [E1 E2]. split; [assumption|]. split; [assumption|].
    unfold with_cpi_index, col. rewrite Hcols. cbn.
    eexists _, _. repeat split.
Qed.

End Deflator.

(* ================================================================== *)
(** * The growth ranking *)

Lemma res_map_In {A B} (f : A -> res B) l l' :
  res_map f l = Ok l' ->
  forall b, In b l' <-> exists a, In a l /\ f a = Ok b.
Proof.
  revert l'. induction l as [|a l IH]; intros l'; simpl.
  - intros [= <-] b. simpl. split; [tauto|]. now intros (? & [] & _).
  - intros Hm. apply bind_Ok in Hm as (b0 & Hb0 & Hm).
    apply bind_Ok in Hm as (bs & Hbs & [= <-]).
    intros b. simpl. rewrite (IH bs Hbs b). split.
    + intros [<-|(a' & Ha' & Hf)]; [exists a; auto | exists a'; auto].
    + intros (a' & [<-|Ha'] & Hf); [left; congruence | right; eauto].
Qed.

Lemma filter_perm {A} (p : A -> bool) l l' :
  Permutation l l' -> Permutation (List.filter p l) (List.filter p l').
Proof.
  induction 1 as [|x l l' _ IH|x y l|l1 l2 l3 _ IH1 _ IH2]; simpl.
  - constructor.
  - destruct (p x); [now constructor | assumption].
  - destruct (p x), (p y); try reflexivity. apply perm_swap.
  - now transitivity (List.filter p l2).
Qed.


(** A value that only equals itself stays in the list [unique] returns. *)
Lemma unique_from_keeps {A} (eqb : A -> A -> bool) x seen l :
  (forall y, eqb x y = true -> y = x) ->
  In x l -> In x seen \/ In x (unique_from eqb seen l).
Proof.
  intros Hx. revert seen. induction l as [|a l IH]; intros seen; simpl; [tauto|].
  intros [->|Hl].
  - destruct (existsb (eqb x) seen) eqn:E.
    + apply existsb_exists in E as (y & Hy & Exy).
      apply Hx in Exy. subst. now left.
    + right. now left.
  - destruct (existsb (eqb a) seen).
    + now apply IH.
    + destruct (IH (a :: seen) Hl) as [[->|Hs]|Hu].
      * right. now left.
      * now left.
      * right. now right.
Qed.

Lemma unique_from_sub {A} (eqb : A -> A -> bool) x seen l :
  In x (unique_from eqb seen l) -> In x l.
Proof.
  revert seen. induction l as [|a l IH]; intros seen; simpl; [tauto|].
  destruct (existsb (eqb a) seen).
  - intros Hu. right. eapply IH, Hu.
  - intros [->|Hu]; [now left|]. right. eapply IH, Hu.
Qed.

(** The keys of a group-by are cells of the column, none of them blank,
    and every text of the column is one of them. *)
Lemma group_keys_sub k cells :
  In k (group_keys cells) -> In k cells /\ isna k = false.
Proof.
  unfold group_keys. intros Hk.
  apply (Permutation_in _ (insertion_sort_perm _ _)) in Hk.
  apply unique_from_sub, filter_In in Hk as [Hk Hn].
  split; [assumption|]. now apply negb_true_iff.
Qed.







(* ================================================================== *)
(** * The order of floats and of the keys of [sort_values] *)

Ltac compare_cases :=
  repeat match goal with
  | |- context [PosDef.Pos.compare_cont Eq ?x ?y] =>
      change (PosDef.Pos.compare_cont Eq x y) with (Pos.compare x y)
  | H : context [PosDef.Pos.compare_cont Eq ?x ?y] |- _ =>
      change (PosDef.Pos.compare_cont Eq x y) with (Pos.compare x y) in H
  end;
  repeat match goal with
  | H : context [(?x ?= ?y)%Z] |- _ => destruct (Z.compare_spec x y); cbn in H
  | H : context [(?x ?= ?y)%positive] |- _ => destruct (Pos.compare_spec x y); cbn in H
  | |- context [(?x ?= ?y)%Z] => destruct (Z.compare_spec x y); cbn
  | |- context [(?x ?= ?y)%positive] => destruct (Pos.compare_spec x y); cbn
  end;
  try reflexivity; try discriminate; try lia.

Lemma SFcompare_refl a : a <> S754_nan -> SFcompare a a = Some Eq.
Proof.
  destruct a as [s|s| |s m e]; intros Ha; try congruence; cbn;
    try destruct s; compare_cases.
Qed.











Section Growth.
Context `{Pandas}.

Lemma sort_values_Ok c ascending df out :
  sort_values c ascending df = Ok out ->
  exists i,
    col_index c (columns df) = Some i /\
    columns out = columns df /\
    rows out = sort_by (by_column i ascending) (rows df).
Proof.
  unfold sort_values. intros Hs. apply bind_Ok in Hs as (i & Hi & Hs).
  apply col_Ok in Hi. destruct (all_comparable _); [|discriminate].
  injection Hs as <-. exists i. auto.
Qed.

(** The steps of lines 130 to 137, named. *)
Lemma growth_of_Ok income growth :
  growth_of income = Ok growth ->
  exists y g ri agg,
    col_index "year" (columns income) = Some y /\
    col_index "geo" (columns income) = Some g /\
    col_index "real_income" (columns income) = Some ri /\
    res_map
      (fun k =>
         let! p := growth_pct
                     (map (cell_at ri)
                        (List.filter (fun r => cell_eqb (cell_at g r) k)
                           (sort_by (by_column y true) (rows income)))) in
         Ok [k; p])
      (group_keys (map (cell_at g) (sort_by (by_column y true) (rows income)))) = Ok agg /\
    columns growth = ["geo"; "real_income_growth_pct"] /\
    rows growth =
      sort_by (by_column 1 false)
        (List.filter (fun r => negb (isna (cell_at 1 r))) agg).
Proof.
  unfold growth_of. intros Hg.
  apply bind_Ok in Hg as (sorted & Hsorted & Hg).
  apply bind_Ok in Hg as (g & Hgeo & Hg).
  apply bind_Ok in Hg as (ri & Hri & Hg).
  apply bind_Ok in Hg as (agg & Hagg & Hg).
  destruct (sort_values_Ok _ _ _ _ Hsorted) as (y & Hy & Hcols & Hrows).
  destruct (sort_values_Ok _ _ _ _ Hg) as (i & Hi & Hcols' & Hrows').
  cbn in Hi. injection Hi as <-. cbn [columns rows] in Hcols', Hrows'.
  apply col_Ok in Hgeo, Hri. rewrite Hcols in Hgeo, Hri. rewrite Hrows in Hagg.
  exists y, g, ri, agg. repeat split; assumption.
Qed.

Lemma growth_pct_Ok x p :
  growth_pct x = Ok p ->
  isna p = false ->
  (1 < length x)%nat /\
  p = CNum ((num_of (List.last x CNull) / num_of (hd CNull x) - 1) * 100)%float.
Proof.
  unfold growth_pct. destruct (1 <? length x)%nat eqn:E.
  - intros Hp _. apply Nat.ltb_lt in E. split; [assumption|].
    apply bind_Ok in Hp as (l & Hl & Hp). apply bind_Ok in Hp as (f & Hf & [= <-]).
    apply as_float_Ok in Hl, Hf. now subst.
  - intros [= <-]. discriminate.
Qed.

(** C10.  Every row of the growth table belongs to a state with at least
    two rows in the income table, so a state with at most one row has no
    row in the growth table.  The sorting routine is only assumed to
    return the rows it was given, in some order. *)
Theorem growth_needs_two_rows income growth g :
  growth_of income = Ok growth ->
  col "geo" income = Ok g ->
  (forall (leb : list cell -> list cell -> bool) l, Permutation (sort_by leb l) l) ->
  let observations := fun k =>
    length (List.filter (fun r => cell_eqb (cell_at g r) k) (rows income)) in
  (forall row, In row (rows growth) ->
     exists k p, row = [k; CNum p] /\ PrimFloat.is_nan p = false /\
                 (2 <= observations k)%nat) /\
  (forall k p, (observations k <= 1)%nat -> ~ In [k; p] (rows growth)).
Proof.
  intros Hg Hgeo Hperm observations.
  destruct (growth_of_Ok _ _ Hg) as (y & g' & ri & agg & Hy & Hg' & Hri & Hagg & Hcols & Hrows).
  apply col_Ok in Hgeo. rewrite Hgeo in Hg'. injection Hg' as <-.
  assert (Hrow : forall row, In row (rows growth) ->
     exists k p, row = [k; CNum p] /\ PrimFloat.is_nan p = false /\
                 (2 <= observations k)%nat).
  { intros row Hrow. rewrite Hrows in Hrow.
    apply (Permutation_in _ (Hperm _ _)) in Hrow.
    apply filter_In in Hrow as [Hrow Hnotna]. apply negb_true_iff in Hnotna.
    apply (res_map_In _ _ _ Hagg) in Hrow as (k & _ & Hk).
    cbv beta in Hk. apply bind_Ok in Hk as (p & Hp & [= <-]).
    cbn in Hnotna.
    destruct (growth_pct_Ok _ _ Hp Hnotna) as [Hlen ->].
    eexists k, _. split; [reflexivity|]. split; [exact Hnotna|].
    rewrite length_map in Hlen. unfold observations.
    rewrite <- (Permutation_length (filter_perm _ _ _ (Hperm (by_column y true) (rows income)))).
    lia. }
  split; [exact Hrow|].
  intros k p Hfew Hin. destruct (Hrow _ Hin) as (k' & p' & [= <- _] & _ & Hmany). lia.
Qed.


End Growth.

(* ================================================================== *)
(** * Runs of the script *)

Lemma keeps_ret {A} I (a : A) : keeps I (ret a).
Proof. intros w Hw. exact Hw. Qed.

Lemma keeps_stop {A} I : keeps I (@stop A).
Proof. intros w Hw. exact Hw. Qed.

Lemma keeps_raise {A} I e : keeps I (@raise A e).
Proof. intros w Hw. exact Hw. Qed.

Lemma keeps_eval {A} I (r : res A) : keeps I (eval r).
Proof. destruct r; [apply keeps_ret | apply keeps_raise]. Qed.

Lemma keeps_bind {A B} I (m : script A) (k : A -> script B) :
  keeps I m -> (forall a, keeps I (k a)) -> keeps I (bind m k).
Proof.
  intros Hm Hk w Hw. unfold bind. specialize (Hm w Hw).
  destruct (m w) as [a w'|w'|e w']; cbn [final] in *; [|assumption..].
  now apply Hk.
Qed.

Lemma keeps_if {A} I (b : bool) (m1 m2 : script A) :
  keeps I m1 -> keeps I m2 -> keeps I (if b then m1 else m2).
Proof. now destruct b. Qed.

Lemma keeps_emit e : is_download e = false -> keeps no_selection (emit e).
Proof.
  intros He w [Hsel Hpage]. split; cbn; [assumption|].
  rewrite forallb_app, Hpage. cbn. now rewrite He.
Qed.

Lemma keeps_store name v : name <> "sel" -> keeps no_selection (store name v).
Proof.
  intros Hn w [Hsel Hpage]. split; cbn; [|assumption].
  now rewrite lookup_insert_ne.
Qed.

Create HintDb script.
#[local] Hint Resolve keeps_ret keeps_stop keeps_raise keeps_eval keeps_if : script.
#[local] Hint Extern 1 (keeps _ (bind _ _)) => apply keeps_bind; [|intros ?] : script.
#[local] Hint Extern 1 (keeps no_selection (emit _)) => apply keeps_emit; reflexivity : script.
#[local] Hint Extern 1 (keeps no_selection (store _ _)) => apply keeps_store; discriminate : script.
#[local] Hint Extern 2 (keeps _ (match ?x with _ => _ end)) => destruct x : script.

Section Runs.
Context {lib : Pandas} {widgets : Streamlit}.

Lemma sidebar_keeps df s : keeps no_selection (sidebar df s).
Proof. unfold sidebar. auto 40 with script. Qed.

Lemma deflator_keeps df s : keeps no_selection (deflator df s).
Proof. unfold deflator. auto 40 with script. Qed.

Lemma income_data_keeps df : keeps no_selection (income_data df).
Proof. unfold income_data. auto 40 with script. Qed.

(** Where nothing is bound to [sel], the display section draws its
    heading and then fails on line 103. *)
Lemma display_fails state income w :
  globals w !! "sel" = None ->
  display state income w =
    Raised (NameError "sel")
      {| globals := globals w;
         page := page w ++ [Subheader (str_of state +:+ " — Nominal vs Real Income")] |}.
Proof.
  intros Hsel. unfold display, bind, emit, load. cbn [globals page].
  now rewrite Hsel.
Qed.

Lemma display_keeps state income : keeps no_selection (display state income).
Proof.
  intros w [Hsel Hpage]. rewrite (display_fails _ _ _ Hsel). split; cbn; [assumption|].
  rewrite forallb_app, Hpage. reflexivity.
Qed.

Lemma app_keeps s : keeps no_selection (app s).
Proof.
  unfold app.
  pose proof sidebar_keeps. pose proof deflator_keeps.
  pose proof income_data_keeps. pose proof display_keeps.
  auto 40 with script.
Qed.

(** A run that loads its table continues from [loaded_world]. *)
Lemma run_loaded s file df :
  uploaded_file s = Some file ->
  load_data file = Ok df ->
  run s =
    (let* state := sidebar df s in
     let* cpi_annual := deflator df s in
     let* income := income_data df in
     display state income) (loaded_world file df).
Proof.
  intros Hf Hl. unfold run, app. rewrite Hf.
  unfold bind at 1 2 3 4 5 6 7 8. unfold emit, store, eval, start.
  cbn [globals page app]. rewrite Hl. reflexivity.
Qed.

Lemma income_data_Done df w income w' :
  income_data df w = Done income w' ->
  exists ts t,
    topics df = Ok ts /\ income_topic_of ts = Some t /\
    income_of df t = Ok income /\
    globals w' !! "income" = Some (VFrame income).
Proof.
  unfold income_data, bind, emit, store, eval, ret, stop, raise. cbn [globals page].
  destruct (topics df) as [ts|] eqn:Et; [|discriminate].
  destruct (income_topic_of ts) as [t|] eqn:Ei; [|discriminate].
  destruct (income_of df t) as [inc|] eqn:Einc; [|discriminate].
  intros [= <- <-]. exists ts, t. cbn [globals].
  repeat split; auto. apply lookup_insert_eq.
Qed.

(** C1.  A run that gets through the upload, the load, the sidebar, the
    deflator and the income section ends on line 103 with a NameError for
    [sel].  The income table bound at that point is a selection of rows of
    the loaded table with the same columns: no real_income column was
    derived, and nothing was bound to [sel]. *)
Theorem real_income_never_computed s file df state w1 cpi_annual w2 income w3 :
  uploaded_file s = Some file ->
  load_data file = Ok df ->
  sidebar df s (loaded_world file df) = Done state w1 ->
  deflator df s w1 = Done cpi_annual w2 ->
  income_data df w2 = Done income w3 ->
  run s =
    Raised (NameError "sel")
      {| globals := globals w3;
         page := page w3 ++ [Subheader (str_of state +:+ " — Nominal vs Real Income")] |} /\
  globals w3 !! "sel" = None /\
  globals w3 !! "income" = Some (VFrame income) /\
  columns income = columns df /\
  (forall r, In r (rows income) -> In r (rows df)).
Proof.
  intros Hf Hl H1 H2 H3.
  assert (H0 : no_selection (loaded_world file df)) by (split; reflexivity).
  pose proof (sidebar_keeps df s _ H0) as K1. rewrite H1 in K1. cbn [final] in K1.
  pose proof (deflator_keeps df s _ K1) as K2. rewrite H2 in K2. cbn [final] in K2.
  pose proof (income_data_keeps df _ K2) as [K3 _]. rewrite H3 in K3.
  cbn [final] in K3.
  destruct (income_data_Done _ _ _ _ H3) as (ts & t & _ & _ & Hinc & Hbound).
  split; [|split; [assumption|split; [assumption|]]].
  - rewrite (run_loaded _ _ _ Hf Hl). unfold bind.
    rewrite H1. cbv beta iota. rewrite H2. cbv beta iota. rewrite H3. cbv beta iota.
    now apply display_fails.
  - unfold income_of in Hinc.
    apply bind_Ok in Hinc as (ti & _ & Hinc).
    apply bind_Ok in Hinc as (gl & _ & Hinc).
    apply bind_Ok in Hinc as (g & _ & [= <-]).
    split; [reflexivity|]. cbn [rows select]. intros r Hr.
    now apply filter_In in Hr.
Qed.

(** C5.  No run reaches the end of the script and no run puts a download
    button on the page, whatever was uploaded and chosen. *)
Theorem download_never_offered s :
  (forall u w, run s <> Done u w) /\
  (forall label data file_name mime,
     ~ In (DownloadButton label data file_name mime) (page (final (run s)))).
Proof.
  assert (H0 : no_selection start) by (split; reflexivity).
  split.
  - intros u w Hrun. unfold run, app in Hrun.
    unfold bind at 1 2 3 4 5, emit, store in Hrun. cbn [globals page] in Hrun.
    destruct (uploaded_file s) as [file|]; [|discriminate].
    unfold bind at 1 2, store, eval in Hrun. cbn [globals page] in Hrun.
    destruct (load_data file) as [df|]; [|discriminate].
    cbn [ret] in Hrun. unfold bind at 1 in Hrun. cbn [globals page] in Hrun.
    match type of Hrun with bind _ _ ?w0 = _ => set (w1 := w0) in * end.
    assert (K0 : no_selection w1) by (split; reflexivity).
    unfold bind at 1 in Hrun.
    pose proof (sidebar_keeps df s _ K0) as K1.
    destruct (sidebar df s w1) as [state w2|?|?]; [|discriminate..].
    cbn [final] in K1. unfold bind at 1 in Hrun.
    pose proof (deflator_keeps df s _ K1) as K2.
    destruct (deflator df s w2) as [ix w3|?|?]; [|discriminate..].
    cbn [final] in K2. unfold bind at 1 in Hrun.
    pose proof (income_data_keeps df _ K2) as [K3 _].
    destruct (income_data df w3) as [income w4|?|?]; [|discriminate..].
    cbn [final] in K3. rewrite (display_fails _ _ _ K3) in Hrun. discriminate.
  - intros label data file_name mime Hin.
    destruct (app_keeps s start H0) as [_ Hpage].
    rewrite forallb_forall in Hpage. specialize (Hpage _ Hin). discriminate.
Qed.

Lemma update_columns c f df :
  match update c f df with
  | Ok df' => columns df' = columns df /\ col_index c (columns df) <> None
  | Raise e => e = KeyError c /\ col_index c (columns df) = None
  end.
Proof.
  unfold update, col, assign. destruct (col_index c (columns df)) eqn:E; cbn.
  - split; [reflexivity | discriminate].
  - auto.
Qed.

(** With the five columns it reads, [load_data] returns a table;
    without one of them it raises a KeyError for a missing one. *)
Lemma load_data_outcome file sheet names :
  read_excel file "cleaned_long" = Ok sheet ->
  normal_labels sheet = Ok names ->
  (exists df, load_data file = Ok df) \/
  (exists c, In c ["date"; "geo"; "series"; "topic"; "value"] /\
             col_index c names = None /\ load_data file = Raise (KeyError c)).
Proof.
  intros Hsheet Hnames. unfold load_data. rewrite Hsheet. cbn [res_bind].
  rewrite Hnames. cbn [res_bind].
  set (df0 := {| columns := names; rows := grid sheet |}).
  change names with (columns df0).
  pose proof (update_columns "date" to_datetime df0) as U1.
  destruct (update "date" to_datetime df0) as [df1|e1];
    [destruct U1 as [C1 _] | destruct U1 as [-> U1]; right; exists "date"; simpl; auto].
  cbn [res_bind].
  pose proof (update_columns "geo" (fun c => str_upper (astype_str c)) df1) as U2.
  destruct (update "geo" _ df1) as [df2|e2];
    [destruct U2 as [C2 _]
    | destruct U2 as [-> U2]; rewrite C1 in U2; right; exists "geo"; simpl; auto].
  cbn [res_bind].
  pose proof (update_columns "series" astype_str df2) as U3.
  destruct (update "series" _ df2) as [df3|e3];
    [destruct U3 as [C3 _]
    | destruct U3 as [-> U3]; rewrite C2, C1 in U3; right; exists "series"; simpl; auto 6].
  cbn [res_bind].
  pose proof (update_columns "topic" astype_str df3) as U4.
  destruct (update "topic" _ df3) as [df4|e4];
    [destruct U4 as [C4 _]
    | destruct U4 as [-> U4]; rewrite C3, C2, C1 in U4; right; exists "topic"; simpl; auto 7].
  cbn [res_bind].
  unfold dropna2, col. rewrite C4, C3, C2, C1.
  destruct (col_index "date" (columns df0)) as [d|] eqn:Ed;
    [|right; exists "date"; simpl; auto].
  cbn [res_bind].
  destruct (col_index "value" (columns df0)) as [v|] eqn:Ev;
    [|right; exists "value"; simpl; auto 8].
  cbn [res_bind columns select]. rewrite C4, C3, C2, C1, Ed. cbn [res_bind].
  left. eauto.
Qed.

(** A label that is not text stops line 29. *)
Lemma normal_labels_Raise sheet c :
  In c (labels sheet) -> is_text c = false ->
  normal_labels sheet = Raise (AttributeError "object has no attribute 'strip'").
Proof.
  unfold normal_labels. generalize (labels sheet). intros l.
  induction l as [|a l IH]; intros Hin Hc; [destruct Hin|].
  cbn [res_map]. destruct a as [| | |x|] eqn:Ea; cbn [normal res_bind]; try reflexivity.
  destruct Hin as [<-|Hin]; [discriminate Hc|].
  now rewrite (IH Hin Hc).
Qed.

Lemma all_comparable_texts l :
  (forall c, In c l -> exists x, c = CStr x) -> all_comparable l = true.
Proof.
  induction l as [|a l IH]; intros Hl; simpl; [reflexivity|].
  rewrite IH by (intros c Hc; apply Hl; now right).
  rewrite andb_true_r. apply forallb_forall. intros c Hc.
  destruct (Hl a (or_introl eq_refl)) as (x & ->).
  destruct (Hl c (or_intror Hc)) as (y & ->). reflexivity.
Qed.

(** The topics of a loaded table are text, or blanks where pandas keeps
    them: sorting the topics raises only there. *)
Lemma loaded_topics file df :
  load_data file = Ok df ->
  exists t, col_index "topic" (columns df) = Some t /\
    forall r, In r (rows df) ->
      (exists x, cell_at t r = CStr x) \/ (keeps_missing = true /\ cell_at t r = CNull).
Proof.
  intros Hl.
  destruct (load_data_cells _ _ Hl)
    as (sheet & names & d & g & s & t & v & y & _ & _ & _ & _ & _ & Ht & _ & _ & _
        & final & Hrows & Hcells).
  exists t. split; [exact Ht|].
  intros r Hr. rewrite Hrows in Hr. apply in_map_iff in Hr as (r0 & <- & _).
  destruct (Hcells r0) as (_ & _ & _ & Et & _). rewrite Et.
  destruct (astype_str_cases (cell_at t r0)) as [[Hk ->]|[_ ->]]; [right|left; eauto].
  apply andb_true_iff in Hk as [Hk _]. auto.
Qed.

Lemma topics_of_loaded file df :
  load_data file = Ok df ->
  exists ts,
    topics df = Ok ts /\
    ((exists sorted, py_sorted ts = Ok sorted) \/
     (keeps_missing = true /\ py_sorted ts = Raise (TypeError "'<' not supported"))).
Proof.
  intros Hl. destruct (loaded_topics _ _ Hl) as (t & Ht & Hcells).
  unfold topics, col. rewrite Ht. cbn [res_bind].
  eexists. split; [reflexivity|].
  unfold py_sorted.
  destruct (all_comparable _) eqn:Ecmp; [left; eauto|right].
  split; [|reflexivity].
  destruct keeps_missing eqn:Ek; [reflexivity|]. exfalso.
  rewrite all_comparable_texts in Ecmp; [discriminate|].
  intros c Hc. apply unique_from_sub in Hc.
  apply in_map_iff in Hc as (r & <- & Hr).
  destruct (Hcells r Hr) as [Hx|[Hk _]]; [exact Hx | discriminate Hk].
Qed.

(** A missing expected column is not caught: the run ends with an
    exception and the page shows no message.  The exception is the
    KeyError for a column the sheet does not have; where geo_level alone
    is missing and pandas keeps a blank topic missing, it can be the
    TypeError of sorting the topics on line 42, which comes first. *)
Lemma missing_column_escapes s file sheet names c :
  uploaded_file s = Some file ->
  read_excel file "cleaned_long" = Ok sheet ->
  normal_labels sheet = Ok names ->
  In c ["date"; "geo"; "series"; "topic"; "value"; "geo_level"] ->
  col_index c names = None ->
  exists e w,
    run s = Raised e w /\
    forallb (fun e => negb (is_message e)) (page w) = true /\
    ((exists c', e = KeyError c' /\ col_index c' names = None) \/
     (keeps_missing = true /\ e = TypeError "'<' not supported")).
Proof.
  intros Hf Hsheet Hnames Hc Hmiss.
  destruct (load_data_outcome _ _ _ Hsheet Hnames) as [(df & Hl)|(c' & _ & Hc' & Hl)].
  - (* the five columns of load_data are there: geo_level is the missing one *)
    destruct (load_data_rows _ _ Hl)
      as (sheet' & names' & d & g & se & t & v & y & Hsheet' & Hnames' & Hd & Hg & Hs & Ht & Hv
          & _ & _ & Hin & _).
    rewrite Hsheet in Hsheet'. injection Hsheet' as <-.
    rewrite Hnames in Hnames'. injection Hnames' as <-.
    assert (Hgl : c = "geo_level").
    { simpl in Hc. destruct Hc as [<-|[<-|[<-|[<-|[<-|[<-|[]]]]]]]; congruence. }
    subst c.
    assert (Hgl : col_index "geo_level" (columns df) = None).
    { apply col_index_In. intros Hgl. apply Hin in Hgl as [Hgl|Hgl]; [|discriminate].
      now apply col_index_In in Hmiss. }
    destruct (topics_of_loaded _ _ Hl) as (ts & Hts & [(sorted & Hsorted)|[Hk Hsorted]]).
    + exists (KeyError "geo_level"). eexists. split; [|split; [|left; eauto]].
      * rewrite (run_loaded _ _ _ Hf Hl). unfold bind at 1. unfold sidebar.
        unfold bind, emit, eval, col. cbn [globals page].
        rewrite Hts. cbn [res_bind]. rewrite Hsorted, Hgl. reflexivity.
      * reflexivity.
    + exists (TypeError "'<' not supported"). eexists. split; [|split; [|right; auto]].
      * rewrite (run_loaded _ _ _ Hf Hl). unfold bind at 1. unfold sidebar.
        unfold bind, emit, eval, col. cbn [globals page].
        rewrite Hts. cbn [res_bind]. rewrite Hsorted. reflexivity.
      * reflexivity.
  - exists (KeyError c'). eexists. split; [|split; [|left; eauto]].
    + unfold run, app. rewrite Hf.
      unfold bind, emit, store, eval, start. cbn [globals page]. rewrite Hl. reflexivity.
    + reflexivity.
Qed.

(** A header label that is not text is not caught either: line 29 raises
    an AttributeError inside [load_data]. *)
Lemma odd_label_escapes s file sheet c :
  uploaded_file s = Some file ->
  read_excel file "cleaned_long" = Ok sheet ->
  In c (labels sheet) -> is_text c = false ->
  exists w,
    run s = Raised (AttributeError "object has no attribute 'strip'") w /\
    forallb (fun e => negb (is_message e)) (page w) = true.
Proof.
  intros Hf Hsheet Hin Hc.
  assert (Hl : load_data file = Raise (AttributeError "object has no attribute 'strip'")).
  { unfold load_data. rewrite Hsheet. cbn [res_bind].
    now rewrite (normal_labels_Raise _ _ Hin Hc). }
  eexists. split.
  - unfold run, app. rewrite Hf.
    unfold bind, emit, store, eval, start. cbn [globals page]. rewrite Hl. reflexivity.
  - reflexivity.
Qed.

Lemma no_income_topic ts :
  (forall t, In t ts -> contains "income" (lower (str_of t)) = false) ->
  income_topics ts = [] /\ income_topic_of ts = None.
Proof.
  intros Hts.
  assert (Hnone : income_topics ts = []).
  { unfold income_topics. induction ts as [|t ts IH]; [reflexivity|]. simpl.
    rewrite (Hts t (or_introl eq_refl)). apply IH. intros t' Ht'. apply Hts. now right. }
  split; [assumption|]. unfold income_topic_of. rewrite Hnone.
  destruct (existsb (eq_str "income_per_capita") ts) eqn:E; [|reflexivity].
  apply existsb_exists in E as (t & Ht & Et).
  destruct t as [| | |x|]; simpl in Et; try discriminate.
  apply String.eqb_eq in Et. subst x.
  specialize (Hts _ Ht). discriminate.
Qed.

(** When the table loads, the sidebar and the deflator sections run
    through, and no topic of the table mentions income, the run shows the
    error message of line 93 and stops there. *)
Lemma absent_income_stops s file df state w1 cpi_annual w2 ts :
  uploaded_file s = Some file ->
  load_data file = Ok df ->
  sidebar df s (loaded_world file df) = Done state w1 ->
  deflator df s w1 = Done cpi_annual w2 ->
  topics df = Ok ts ->
  (forall t, In t ts -> contains "income" (lower (str_of t)) = false) ->
  run s =
    Stopped
      {| globals := <["income_topic" := VNone]> (<["income_topics" := VList []]> (globals w2));
         page := page w2 ++
           [Error "This dataset doesn't include income data. Choose a different view or rebuild with BEA enabled."] |}.
Proof.
  intros Hf Hl H1 H2 Hts Hnone.
  destruct (no_income_topic ts Hnone) as [Hlist Htopic].
  rewrite (run_loaded _ _ _ Hf Hl). unfold bind at 1 2.
  rewrite H1. cbv beta iota. rewrite H2. cbv beta iota.
  unfold bind at 1. unfold income_data, bind, eval, store, emit, stop, ret.
  rewrite Hts, Htopic, Hlist. reflexivity.
Qed.

(** C4, as the code has it.  For an uploaded workbook with the expected
    sheet.  Where the header is ASCII text with labels that stay distinct
    once normalised: when no topic of the table mentions income and the
    run gets as far as the income section, it shows the error message of
    line 93 and stops; when one of the expected columns is missing,
    nothing catches it and the run ends with an exception and none of the
    script's messages: the KeyError of the missing column, or, where
    geo_level alone is missing and pandas keeps a blank topic missing,
    the TypeError of line 42.  Where a header label is not text, line 29
    raises an AttributeError, which nothing catches either. *)
Theorem absent_income_is_reported s file sheet :
  uploaded_file s = Some file ->
  read_excel file "cleaned_long" = Ok sheet ->
  (plain_header sheet = true ->
   (forall df state w1 cpi_annual w2 ts,
      load_data file = Ok df ->
      sidebar df s (loaded_world file df) = Done state w1 ->
      deflator df s w1 = Done cpi_annual w2 ->
      topics df = Ok ts ->
      (forall t, In t ts -> contains "income" (lower (str_of t)) = false) ->
      run s =
        Stopped
          {| globals := <["income_topic" := VNone]>
                          (<["income_topics" := VList []]> (globals w2));
             page := page w2 ++
               [Error "This dataset doesn't include income data. Choose a different view or rebuild with BEA enabled."] |}) /\
   (forall names c,
      normal_labels sheet = Ok names ->
      In c ["date"; "geo"; "series"; "topic"; "value"; "geo_level"] ->
      col_index c names = None ->
      exists e w,
        run s = Raised e w /\
        forallb (fun e => negb (is_message e)) (page w) = true /\
        ((exists c', e = KeyError c' /\ col_index c' names = None) \/
         (keeps_missing = true /\ e = TypeError "'<' not supported")))) /\
  (forall c,
     In c (labels sheet) -> is_text c = false ->
     exists w,
       run s = Raised (AttributeError "object has no attribute 'strip'") w /\
       forallb (fun e => negb (is_message e)) (page w) = true).
Proof.
  intros Hf Hsheet. split; [intros _; split|].
  - intros df state w1 cpi_annual w2 ts Hl H1 H2 Hts Hnone.
    exact (absent_income_stops s file df state w1 cpi_annual w2 ts Hf Hl H1 H2 Hts Hnone).
  - intros names c Hnames Hc Hmiss.
    exact (missing_column_escapes s file sheet names c Hf Hsheet Hnames Hc Hmiss).
  - intros c Hin Hc.
    exact (odd_label_escapes s file sheet c Hf Hsheet Hin Hc).
Qed.

End Runs.

(* ================================================================== *)
(** * How a run ends and what it shows *)

Lemma keeps_load I name : keeps I (load name).
Proof. intros w Hw. unfold load. now destruct (globals w !! name). Qed.

Lemma keeps_as_frame I v : keeps I (as_frame v).
Proof. destruct v; intros w Hw; exact Hw. Qed.

Lemma avoids_emit p e : p e = false -> keeps (page_avoids p) (emit e).
Proof.
  intros He w Hw. unfold page_avoids in *. cbn.
  rewrite forallb_app, Hw. cbn. now rewrite He.
Qed.

Lemma avoids_store p name v : keeps (page_avoids p) (store name v).
Proof. intros w Hw. exact Hw. Qed.

Lemma undisplayed_emit e : is_display e = false -> keeps undisplayed (emit e).
Proof.
  intros He w [Hsel Hpage]. split; [exact Hsel|]. now apply avoids_emit.
Qed.

Lemma undisplayed_store name v : name <> "sel" -> keeps undisplayed (store name v).
Proof.
  intros Hn w [Hsel Hpage]. split; cbn; [|assumption].
  now rewrite lookup_insert_ne.
Qed.

#[local] Hint Resolve keeps_load keeps_as_frame avoids_store : script.
#[local] Hint Extern 1 (keeps (page_avoids _) (emit _)) =>
  apply avoids_emit; reflexivity : script.
#[local] Hint Extern 1 (keeps undisplayed (emit _)) =>
  apply undisplayed_emit; reflexivity : script.
#[local] Hint Extern 1 (keeps undisplayed (store _ _)) =>
  apply undisplayed_store; discriminate : script.

Lemma announced_ret {A} (a : A) : announced (ret a).
Proof. intros w w' E. discriminate E. Qed.

Lemma announced_raise {A} e : announced (@raise A e).
Proof. intros w w' E. discriminate E. Qed.

Lemma announced_eval {A} (r : res A) : announced (eval r).
Proof. destruct r; [apply announced_ret | apply announced_raise]. Qed.

Lemma announced_emit e : announced (emit e).
Proof. intros w w' E. discriminate E. Qed.

Lemma announced_store name v : announced (store name v).
Proof. intros w w' E. discriminate E. Qed.

Lemma announced_load name : announced (load name).
Proof. intros w w' E. unfold load in E. destruct (globals w !! name); discriminate E. Qed.

Lemma announced_as_frame v : announced (as_frame v).
Proof. destruct v; intros w w' E; discriminate E. Qed.

Lemma announced_bind {A B} (m : script A) (k : A -> script B) :
  announced m -> (forall a, announced (k a)) -> announced (bind m k).
Proof.
  intros Hm Hk w w' E. unfold bind in E.
  destruct (m w) as [a w1|w1|e w1] eqn:Em; [|injection E as <-|discriminate].
  - exact (Hk a w1 w' E).
  - exact (Hm w w1 Em).
Qed.

Lemma announced_if {A} (b : bool) (m1 m2 : script A) :
  announced m1 -> announced m2 -> announced (if b then m1 else m2).
Proof. now destruct b. Qed.

(** The one way the script stops: a message, then [st.stop()]. *)
Lemma announced_stop {A} e :
  is_alert e = true -> announced (bind (emit e) (fun _ => @stop A)).
Proof.
  intros He w w' E. unfold bind, emit, stop in E. injection E as <-.
  exists e. cbn [page]. split; [apply last_last | assumption].
Qed.

#[local] Hint Resolve announced_ret announced_raise announced_eval announced_emit
  announced_store announced_load announced_as_frame announced_if : script.
#[local] Hint Extern 0 (announced (bind (emit _) (fun _ => stop))) =>
  apply announced_stop; reflexivity : script.
#[local] Hint Extern 2 (announced (bind _ _)) => apply announced_bind; [|intros ?] : script.
#[local] Hint Extern 3 (announced (match ?x with _ => _ end)) => destruct x : script.

Lemma read_excel_In file name sheet :
  read_excel file name = Ok sheet -> In (name, sheet) file.
Proof.
  induction file as [|[n sh] file IH]; simpl; [discriminate|].
  destruct (String.eqb n name) eqn:E.
  - apply String.eqb_eq in E. intros [= ->]. left. now subst.
  - intros Hr. right. now apply IH.
Qed.

Lemma read_excel_missing file name :
  (forall sheet, ~ In (name, sheet) file) ->
  read_excel file name = Raise (ValueError ("Worksheet named '" +:+ name +:+ "' not found")).
Proof.
  induction file as [|[n sh] file IH]; intros Hno; simpl; [reflexivity|].
  destruct (String.eqb n name) eqn:E.
  - apply String.eqb_eq in E. subst n. exfalso. apply (Hno sh). now left.
  - apply IH. intros sheet Hin. apply (Hno sheet). now right.
Qed.

Lemma append_length s1 s2 :
  String.length (s1 +:+ s2) = String.length s1 + String.length s2.
Proof. induction s1 as [|c s1 IH]; simpl; [reflexivity | now rewrite IH]. Qed.

Section Outcomes.
Context {lib : Pandas} {widgets : Streamlit}.

Lemma sidebar_announced df s : announced (sidebar df s).
Proof. unfold sidebar. auto 40 with script. Qed.

Lemma deflator_announced df s : announced (deflator df s).
Proof. unfold deflator. auto 40 with script. Qed.

Lemma income_data_announced df : announced (income_data df).
Proof. unfold income_data. auto 40 with script. Qed.

Lemma display_announced state income : announced (display state income).
Proof. unfold display. auto 60 with script. Qed.

(** X1.  The script never stops silently: whenever a run ends in
    [st.stop()], the last element on the page is an info, a warning or an
    error message. *)
Theorem stop_is_announced s w :
  run s = Stopped w ->
  exists e, List.last (page w) (PageConfig EmptyString) = e /\ is_alert e = true.
Proof.
  assert (Happ : announced (app s)).
  { unfold app.
    pose proof sidebar_announced. pose proof deflator_announced.
    pose proof income_data_announced. pose proof display_announced.
    auto 40 with script. }
  exact (Happ start w).
Qed.

(** X2.  The upload prompt of line 19 is on the page exactly when no file
    was uploaded; the run then stops right after it, with nothing loaded. *)
Theorem upload_prompt s :
  (In (Info "Please upload cleaned_economic_dataset.xlsx to continue.")
      (page (final (run s))) <-> uploaded_file s = None) /\
  (uploaded_file s = None ->
   run s =
     Stopped
       {| globals := <["uploaded_file" := VNone]> ∅;
          page := [PageConfig "Real Income by State Explorer";
                   Title "Real Income by State Explorer";
                   Caption "Upload your cleaned economic dataset to begin";
                   FileUploader "Upload cleaned_economic_dataset.xlsx";
                   Info "Please upload cleaned_economic_dataset.xlsx to continue."] |}).
Proof.
  assert (Hnone : uploaded_file s = None ->
    run s =
     Stopped
       {| globals := <["uploaded_file" := VNone]> ∅;
          page := [PageConfig "Real Income by State Explorer";
                   Title "Real Income by State Explorer";
                   Caption "Upload your cleaned economic dataset to begin";
                   FileUploader "Upload cleaned_economic_dataset.xlsx";
                   Info "Please upload cleaned_economic_dataset.xlsx to continue."] |}).
  { intros Hf. unfold run, app. rewrite Hf. reflexivity. }
  split; [|exact Hnone]. split.
  - destruct (uploaded_file s) as [file|] eqn:Hf; [|reflexivity].
    intros Hin. exfalso.
    assert (Havoid : page_avoids is_info (final (run s))).
    { unfold run, app. rewrite Hf.
      assert (Hs : forall df, keeps (page_avoids is_info) (sidebar df s))
        by (intros; unfold sidebar; auto 40 with script).
      assert (Hd : forall df, keeps (page_avoids is_info) (deflator df s))
        by (intros; unfold deflator; auto 40 with script).
      assert (Hi : forall df, keeps (page_avoids is_info) (income_data df))
        by (intros; unfold income_data; auto 40 with script).
      assert (Hp : forall state income, keeps (page_avoids is_info) (display state income))
        by (intros; unfold display; auto 60 with script).
      match goal with
      | |- page_avoids _ (final (?m start)) =>
          assert (Hm : keeps (page_avoids is_info) m) by auto 40 with script;
          apply Hm
      end.
      reflexivity. }
    unfold page_avoids in Havoid. rewrite forallb_forall in Havoid.
    specialize (Havoid _ Hin). discriminate.
  - intros Hf. rewrite (Hnone Hf). cbn. auto 6.
Qed.

(** X3.  An upload without a sheet named cleaned_long is not caught: the
    run ends with the ValueError of [read_excel], right after the uploader,
    with no message on the page. *)
Theorem missing_sheet_escapes s file :
  uploaded_file s = Some file ->
  (forall sheet, ~ In ("cleaned_long", sheet) file) ->
  load_data file = Raise (ValueError "Worksheet named 'cleaned_long' not found") /\
  run s =
    Raised (ValueError "Worksheet named 'cleaned_long' not found")
      {| globals := <["load_data" := VFunction]> (<["uploaded_file" := VFile file]> ∅);
         page := [PageConfig "Real Income by State Explorer";
                  Title "Real Income by State Explorer";
                  Caption "Upload your cleaned economic dataset to begin";
                  FileUploader "Upload cleaned_economic_dataset.xlsx"] |}.
Proof.
  intros Hf Hno.
  assert (Hl : load_data file =
               Raise (ValueError "Worksheet named 'cleaned_long' not found")).
  { unfold load_data. now rewrite (read_excel_missing _ _ Hno). }
  split; [exact Hl|].
  unfold run, app. rewrite Hf.
  unfold bind, emit, store, eval, start. cbn [globals page]. now rewrite Hl.
Qed.

Lemma display_undisplayed state income : keeps undisplayed (display state income).
Proof.
  intros w [Hsel Hpage]. rewrite (display_fails _ _ _ Hsel). split; [assumption|].
  unfold page_avoids in *. cbn [final page].
  rewrite forallb_app, Hpage. cbn [forallb is_display].
  destruct (String.eqb _ _) eqn:E; [|reflexivity].
  apply String.eqb_eq in E. exfalso.
  destruct (str_of state) as [|c text]; [discriminate E|].
  assert (Hlen : String.length (String c text +:+ " — Nominal vs Real Income") =
                 String.length "Real Income Growth by State") by now rewrite E.
  change (String c text +:+ " — Nominal vs Real Income")
    with (String c (text +:+ " — Nominal vs Real Income")) in Hlen.
  cbn [String.length] in Hlen. rewrite append_length in Hlen. cbn in Hlen. lia.
Qed.

(** Nothing of lines 104 to 156 is drawn by any part of the script. *)
Lemma app_undisplayed s : keeps undisplayed (app s).
Proof.
  unfold app.
  assert (Hs : forall df, keeps undisplayed (sidebar df s))
    by (intros; unfold sidebar; auto 40 with script).
  assert (Hd : forall df, keeps undisplayed (deflator df s))
    by (intros; unfold deflator; auto 40 with script).
  assert (Hi : forall df, keeps undisplayed (income_data df))
    by (intros; unfold income_data; auto 40 with script).
  pose proof display_undisplayed.
  auto 40 with script.
Qed.

(** X4.  Lines 104 to 156 are never reached: no run shows the warning for
    an empty selection, draws the chart or a ranking table, or prints the
    closing caption. *)
Theorem display_never_drawn s e :
  In e (page (final (run s))) -> is_display e = false.
Proof.
  assert (H0 : undisplayed start) by (split; reflexivity).
  destruct (app_undisplayed s start H0) as [_ Hpage]. unfold page_avoids in Hpage.
  rewrite forallb_forall in Hpage. intros Hin.
  apply Hpage in Hin. now destruct (is_display e).
Qed.

End Outcomes.

(* ================================================================== *)
(** * The ranking, and that no run shows it *)

Section Ranking.
Context {lib : Pandas} {widgets : Streamlit}.


End Ranking.

(* ================================================================== *)
(** * More on [load_data] and the sidebar *)

Lemma fold_min_spec ns n :
  In (fold_left Z.min ns n) (n :: ns) /\
  forall k, In k (n :: ns) -> (fold_left Z.min ns n <= k)%Z.
Proof.
  revert n. induction ns as [|m ns IH]; intros n; cbn [fold_left].
  - split; [now left|]. intros k [<-|[]]. lia.
  - destruct (IH (Z.min n m)) as [Hin Hle]. split.
    + destruct Hin as [Hin|Hin]; [|now right; right].
      rewrite <- Hin. destruct (Z.min_spec n m) as [[_ ->]|[_ ->]]; simpl; auto.
    + intros k [<-|[<-|Hk]].
      * specialize (Hle _ (or_introl eq_refl)). lia.
      * specialize (Hle _ (or_introl eq_refl)). lia.
      * apply Hle. now right.
Qed.

Lemma fold_max_spec ns n :
  In (fold_left Z.max ns n) (n :: ns) /\
  forall k, In k (n :: ns) -> (k <= fold_left Z.max ns n)%Z.
Proof.
  revert n. induction ns as [|m ns IH]; intros n; cbn [fold_left].
  - split; [now left|]. intros k [<-|[]]. lia.
  - destruct (IH (Z.max n m)) as [Hin Hle]. split.
    + destruct Hin as [Hin|Hin]; [|now right; right].
      rewrite <- Hin. destruct (Z.max_spec n m) as [[_ ->]|[_ ->]]; simpl; auto.
    + intros k [<-|[<-|Hk]].
      * specialize (Hle _ (or_introl eq_refl)). lia.
      * specialize (Hle _ (or_introl eq_refl)). lia.
      * apply Hle. now right.
Qed.

Lemma ints_of_all l :
  (forall c, In c l -> exists n, c = CInt n) -> map CInt (ints_of l) = l.
Proof.
  induction l as [|c l IH]; intros Hl; [reflexivity|].
  destruct (Hl c (or_introl eq_refl)) as (n & ->). cbn.
  f_equal. apply IH. intros c Hc. apply Hl. now right.
Qed.

(** Two values one of which is text and the other a blank or a number
    cannot both be in a list that [sorted] accepts. *)
Lemma all_comparable_In l a b :
  all_comparable l = true -> In a l -> In b l ->
  comparable a b = true \/ comparable b a = true \/ a = b.
Proof.
  induction l as [|c l IH]; intros Hl Ha Hb; [destruct Ha|].
  cbn in Hl. apply andb_true_iff in Hl as [Hc Hl].
  rewrite forallb_forall in Hc.
  destruct Ha as [<-|Ha], Hb as [<-|Hb]; auto.
Qed.

(** [unique] never loses a kind of value: a value it drops equals one it
    has seen. *)
Lemma unique_from_other {A} (eqb : A -> A -> bool) (p : A -> bool) seen l :
  (forall a b, p a = false -> eqb a b = true -> p b = false) ->
  (exists c, In c l /\ p c = false) ->
  exists c, (In c seen \/ In c (unique_from eqb seen l)) /\ p c = false.
Proof.
  intros Heq. revert seen.
  induction l as [|a l IH]; intros seen (c0 & Hc0 & Hp); [destruct Hc0|].
  cbn [unique_from].
  destruct (existsb (eqb a) seen) eqn:Eex.
  - destruct Hc0 as [->|Hc0]; [|apply IH; eauto].
    apply existsb_exists in Eex as (c1 & Hc1 & Eq). exists c1. eauto.
  - destruct Hc0 as [->|Hc0]; [exists c0; split; [right; now left | exact Hp]|].
    destruct (IH (a :: seen)) as (c & [[<-|Hc]|Hc] & Hpc); eauto.
    + exists a. split; [right; now left | exact Hpc].
    + exists c. split; [right; now right | exact Hpc].
Qed.

(** Python cannot sort a blank together with a text. *)
Lemma mixed_not_sortable l x :
  In CNull l -> In (CStr x) l ->
  py_sorted (unique cell_eqb l) = Raise (TypeError "'<' not supported").
Proof.
  intros Hnull Hx. unfold py_sorted.
  destruct (all_comparable _) eqn:Ecmp; [exfalso|reflexivity].
  set (values := unique cell_eqb l) in *.
  assert (Htext : In (CStr x) values).
  { destruct (unique_from_keeps cell_eqb (CStr x) [] l) as [[]|Hin]; [| |exact Hin]; auto.
    intros c Hc. destruct c; try discriminate Hc.
    cbn [cell_eqb] in Hc. apply String.eqb_eq in Hc. now subst. }
  assert (Hblank : exists c, In c values /\ eq_str x c = false /\ comparable c (CStr x) = false).
  { destruct (unique_from_other cell_eqb is_text [] l) as (c & [[]|Hc] & Hnt).
    - intros a b Ha Hab. destruct a, b; cbn in *; congruence.
    - exists CNull. split; [exact Hnull | reflexivity].
    - exists c. split; [exact Hc|]. destruct c; cbn in *; auto; discriminate. }
  destruct Hblank as (c & Hc & Hne & Hcmp).
  destruct (all_comparable_In _ _ _ Ecmp Hc Htext) as [Hcmp'|[Hcmp'| ->]].
  - congruence.
  - destruct c; cbn in *; discriminate.
  - cbn in Hne. now rewrite String.eqb_refl in Hne.
Qed.

Section LoadMore.
Context {lib : Pandas} {widgets : Streamlit}.

Lemma distinct_NoDup l : distinct l = true -> List.NoDup l.
Proof.
  induction l as [|a l IH]; intros Hd; [constructor|].
  cbn in Hd. apply andb_true_iff in Hd as [Ha Hd]. constructor; [|now apply IH].
  intros Hin. apply negb_true_iff in Ha.
  assert (Hex : existsb (String.eqb a) l = true).
  { apply existsb_exists. exists a. split; [exact Hin | apply String.eqb_refl]. }
  congruence.
Qed.

(** What a plain header is: ASCII text labels, distinct once normalised. *)
Lemma plain_header_spec sheet :
  plain_header sheet = true ->
  exists raw,
    labels sheet = map CStr raw /\
    forallb ascii_only raw = true /\
    normal_labels sheet = Ok (map (fun c => lower (strip c)) raw) /\
    List.NoDup (map (fun c => lower (strip c)) raw).
Proof.
  unfold plain_header. intros Hp. apply andb_true_iff in Hp as [Hascii Hd].
  destruct (normal_labels sheet) as [names|] eqn:Hn; [|discriminate].
  destruct (normal_labels_spec _ _ Hn) as (raw & Hraw & ->).
  exists raw. split; [exact Hraw|]. split; [|split; [reflexivity | now apply distinct_NoDup]].
  rewrite Hraw in Hascii. clear -Hascii.
  induction raw as [|c raw IH]; [reflexivity|].
  cbn in Hascii |- *. apply andb_true_iff in Hascii as [-> Hrest]. now apply IH.
Qed.

(** X5.  For a worksheet whose header is ASCII text with labels that
    stay distinct once normalised: the labels of the loaded table are the
    labels of the worksheet, stripped and lower-cased, in the worksheet's
    order; year is appended on the right unless the worksheet already has
    a year column, which is then overwritten in place.  The labels of the
    loaded table are distinct, and no row is added. *)
Theorem load_data_columns file df sheet :
  load_data file = Ok df ->
  read_excel file "cleaned_long" = Ok sheet ->
  plain_header sheet = true ->
  exists raw,
    labels sheet = map CStr raw /\
    let names := map (fun c => lower (strip c)) raw in
    (In "year" names -> columns df = names) /\
    (~ In "year" names -> columns df = names ++ ["year"]) /\
    List.NoDup (columns df) /\
    length (rows df) <= length (grid sheet).
Proof.
  intros Hl Hsheet Hplain.
  destruct (plain_header_spec _ Hplain) as (raw & Hraw & _ & Hnames & Hnd).
  destruct (load_data_rows _ _ Hl)
    as (sheet' & names' & d' & g' & s' & t' & v' & y' & Hsheet' & Hnames' & _ & _ & _ & _ & _
        & _ & _ & _ & Hrows).
  rewrite Hsheet in Hsheet'. injection Hsheet' as <-.
  rewrite Hnames in Hnames'. injection Hnames' as <-.
  unfold load_data in Hl. rewrite Hsheet in Hl. cbn [res_bind] in Hl.
  rewrite Hnames in Hl. cbn [res_bind] in Hl.
  apply bind_Ok in Hl as (df1 & H1 & Hl).
  apply bind_Ok in Hl as (df2 & H2 & Hl).
  apply bind_Ok in Hl as (df3 & H3 & Hl).
  apply bind_Ok in Hl as (df4 & H4 & Hl).
  apply bind_Ok in Hl as (df5 & H5 & Hl).
  apply bind_Ok in Hl as (d & Hd & [= <-]).
  apply update_Ok in H1 as (_ & _ & Hc1 & _).
  apply update_Ok in H2 as (_ & _ & Hc2 & _).
  apply update_Ok in H3 as (_ & _ & Hc3 & _).
  apply update_Ok in H4 as (_ & _ & Hc4 & _).
  unfold dropna2 in H5.
  apply bind_Ok in H5 as (i & _ & H5).
  apply bind_Ok in H5 as (j & _ & [= <-]).
  exists raw. split; [exact Hraw|]. cbv zeta.
  set (names := map (fun c => lower (strip c)) raw) in *.
  assert (Hc : columns (select (fun r => negb (isna (cell_at i r)) && negb (isna (cell_at j r))) df4)
               = names).
  { cbn [columns select]. rewrite Hc4, Hc3, Hc2, Hc1. reflexivity. }
  assert (Hold : In "year" names -> columns (assign "year" (fun r => dt_year (cell_at d r))
                   (select (fun r => negb (isna (cell_at i r)) && negb (isna (cell_at j r))) df4))
                 = names).
  { intros Hin. unfold assign. rewrite Hc.
    destruct (col_index "year" names) eqn:E; [reflexivity|].
    apply col_index_In in E. contradiction. }
  assert (Hnew : ~ In "year" names -> columns (assign "year" (fun r => dt_year (cell_at d r))
                   (select (fun r => negb (isna (cell_at i r)) && negb (isna (cell_at j r))) df4))
                 = names ++ ["year"]).
  { intros Hnin. unfold assign. rewrite Hc.
    apply col_index_In in Hnin. now rewrite Hnin. }
  split; [exact Hold|]. split; [exact Hnew|]. split.
  - destruct (in_dec string_dec "year" names) as [Hin|Hnin].
    + now rewrite (Hold Hin).
    + rewrite (Hnew Hnin).
      apply (Permutation_NoDup (l := "year" :: names));
        [apply Permutation_cons_append | now constructor].
  - rewrite Hrows, length_map. apply filter_length_le.
Qed.

(** X6.  [load_data] leaves every column other than date, geo, series,
    topic and year as the worksheet has it: the column keeps its position,
    and its cells in the loaded table are the worksheet's cells of the rows
    that were kept, in the worksheet's order. *)
Theorem load_data_other_columns file df sheet names a j :
  load_data file = Ok df ->
  read_excel file "cleaned_long" = Ok sheet ->
  normal_labels sheet = Ok names ->
  col_index a names = Some j ->
  ~ In a ["date"; "geo"; "series"; "topic"; "year"] ->
  exists d v,
    col_index "date" names = Some d /\
    col_index "value" names = Some v /\
    col a df = Ok j /\
    map (cell_at j) (rows df) =
      map (cell_at j)
        (List.filter
           (fun r => negb (isna (to_datetime (cell_at d r))) && negb (isna (cell_at v r)))
           (grid sheet)).
Proof.
  intros Hl Hsheet Hnames Ha Hother.
  destruct (load_data_rows _ _ Hl)
    as (sheet' & names' & d & g & s & t & v & y & Hsheet' & Hnames' & Hd & Hg & Hs & Ht & Hv
        & Hy & Hkeep & _ & Hrows).
  rewrite Hsheet in Hsheet'. injection Hsheet' as <-.
  rewrite Hnames in Hnames'. injection Hnames' as <-.
  pose proof (Hkeep _ _ Ha) as Ha'.
  assert (Hne : forall b i, In b ["date"; "geo"; "series"; "topic"] ->
                  col_index b names = Some i -> i <> j).
  { intros b i Hb Hi ->. apply Hother.
    rewrite (col_index_inj _ _ _ _ Ha Hi). simpl in *. tauto. }
  assert (Hyj : y <> j).
  { intros ->. apply Hother. rewrite (col_index_inj _ _ _ _ Ha' Hy). simpl. tauto. }
  assert (Hdj : d <> j) by (apply (Hne "date"); simpl; auto).
  assert (Hgj : g <> j) by (apply (Hne "geo"); simpl; auto).
  assert (Hsj : s <> j) by (apply (Hne "series"); simpl; auto).
  assert (Htj : t <> j) by (apply (Hne "topic"); simpl; auto).
  exists d, v. split; [exact Hd|]. split; [exact Hv|]. split; [now apply col_Ok|].
  rewrite Hrows, map_map. apply map_ext. intros r.
  unfold clean_row. cbv zeta. now rewrite !cell_at_set_cell_ne by assumption.
Qed.

(** The year of every row of a loaded table is an integer. *)
Lemma loaded_years file df :
  load_data file = Ok df ->
  exists y, col_index "year" (columns df) = Some y /\
            forall r, In r (rows df) -> exists n, cell_at y r = CInt n.
Proof.
  intros Hl.
  destruct (load_data_cells _ _ Hl)
    as (sheet & names & d & g & s & t & v & y & _ & _ & _ & _ & _ & _ & _ & Hy & _
        & final & Hrows & Hcells).
  exists y. split; [exact Hy|].
  intros r Hr. rewrite Hrows in Hr. apply in_map_iff in Hr as (r0 & <- & Hr0).
  apply filter_In in Hr0 as [_ Hk]. unfold kept in Hk.
  apply andb_true_iff in Hk as [Hk _]. apply negb_true_iff in Hk.
  destruct (to_datetime_notna _ Hk) as (ts & Hts).
  destruct (Hcells r0) as (_ & _ & _ & _ & _ & Ey).
  rewrite Ey, Hts. cbn. eauto.
Qed.

(** X7.  On a loaded table without rows both bounds of line 61 raise the
    ValueError of [int(nan)].  On a loaded table with rows they are the
    smallest and the largest year of the table: each is the year of some
    row and every row's year lies between them. *)
Theorem year_bounds_of_loaded file df :
  load_data file = Ok df ->
  match rows df with
  | [] =>
      year_bound Z.min df = Raise (ValueError "cannot convert float NaN to integer") /\
      year_bound Z.max df = Raise (ValueError "cannot convert float NaN to integer")
  | _ :: _ =>
      exists y lo hi,
        col "year" df = Ok y /\
        year_bound Z.min df = Ok lo /\
        year_bound Z.max df = Ok hi /\
        (exists r, In r (rows df) /\ cell_at y r = CInt lo) /\
        (exists r, In r (rows df) /\ cell_at y r = CInt hi) /\
        (forall r, In r (rows df) ->
           exists n, cell_at y r = CInt n /\ (lo <= n <= hi)%Z)
  end.
Proof.
  intros Hl. destruct (loaded_years _ _ Hl) as (y & Hy & Hint).
  assert (Hall : map CInt (ints_of (map (cell_at y) (rows df))) = map (cell_at y) (rows df)).
  { apply ints_of_all. intros c Hc. apply in_map_iff in Hc as (r & <- & Hr). auto. }
  unfold year_bound, col. rewrite Hy. cbn [res_bind].
  destruct (rows df) as [|r0 rs] eqn:Erows; [split; reflexivity|].
  destruct (ints_of (map (cell_at y) (r0 :: rs))) as [|n ns] eqn:Eints; [discriminate Hall|].
  destruct (fold_min_spec ns n) as [Hmin_in Hmin]. destruct (fold_max_spec ns n) as [Hmax_in Hmax].
  assert (Hrow : forall k, In k (n :: ns) -> exists r, In r (r0 :: rs) /\ cell_at y r = CInt k).
  { intros k Hk. apply (in_map CInt) in Hk. rewrite Hall in Hk.
    apply in_map_iff in Hk as (r & Er & Hr). eauto. }
  exists y, (fold_left Z.min ns n), (fold_left Z.max ns n).
  split; [reflexivity|]. split; [reflexivity|]. split; [reflexivity|].
  split; [now apply Hrow|]. split; [now apply Hrow|].
  intros r Hr. destruct (Hint r Hr) as (k & Ek). exists k. split; [exact Ek|].
  assert (Hk : In k (n :: ns)).
  { apply (in_map (cell_at y)) in Hr. rewrite <- Hall, Ek in Hr.
    apply in_map_iff in Hr as (k' & [= ->] & Hk'). exact Hk'. }
  split; [now apply Hmin | now apply Hmax].
Qed.

(** X8.  An upload whose loaded table has no rows (every row of the sheet
    lacks a date or a value) is not caught: the data check lists no topic
    and no geo level, the state selector offers MD alone, and the run ends
    with the ValueError of line 61. *)
Theorem empty_table_escapes s file df :
  uploaded_file s = Some file ->
  load_data file = Ok df ->
  rows df = [] ->
  In "geo_level" (columns df) ->
  run s =
    Raised (ValueError "cannot convert float NaN to integer")
      {| globals :=
           <["state" := VCell (CStr "MD")]>
             (<["state_list" := VList []]> (globals (loaded_world file df)));
         page := page (loaded_world file df) ++
           [Subheader "Data check (what's in your file)";
            Write "Topics:" [];
            Write "Geo levels:" [];
            Error "❌ income_per_capita is NOT present (BEA data missing)";
            SidebarTitle "Controls";
            Selectbox "State" [CStr "MD"]] |}.
Proof.
  intros Hf Hl Hrows Hgl.
  destruct (load_data_cells _ _ Hl)
    as (sheet & names & d & g & se & t & v & y & _ & _ & _ & Hg & _ & Ht & _ & Hy & _).
  destruct (col_index "geo_level" (columns df)) as [gl|] eqn:Egl;
    [|apply col_index_In in Egl; contradiction].
  rewrite (run_loaded _ _ _ Hf Hl).
  unfold sidebar, topics, state_list, year_bound, col.
  rewrite Ht, Egl, Hg, Hy, Hrows.
  destruct (state_choice s) as [|[|n]]; reflexivity.
Qed.

(** X9.  The geo_level column is not converted to text by [load_data], so
    a blank in it stays a NaN: when the loaded table has a row with a blank
    geo level and a row with a text one, the run ends with the TypeError
    of [sorted] before any geo level is listed: on line 43, after the list
    of topics, or already on line 42 where the topics cannot be sorted
    either. *)
Theorem blank_geo_level_escapes s file df gl r1 r2 x :
  uploaded_file s = Some file ->
  load_data file = Ok df ->
  col "geo_level" df = Ok gl ->
  In r1 (rows df) -> cell_at gl r1 = CNull ->
  In r2 (rows df) -> cell_at gl r2 = CStr x ->
  exists w,
    run s = Raised (TypeError "'<' not supported") w /\
    globals w = globals (loaded_world file df) /\
    (page w = page (loaded_world file df) ++
              [Subheader "Data check (what's in your file)"] \/
     exists ts,
       page w = page (loaded_world file df) ++
                [Subheader "Data check (what's in your file)"; Write "Topics:" ts]).
Proof.
  intros Hf Hl Hgl Hr1 E1 Hr2 E2.
  destruct (topics_of_loaded _ _ Hl) as (ts & Hts & Hsorted).
  rewrite (run_loaded _ _ _ Hf Hl).
  unfold sidebar. rewrite Hts. cbn [res_bind].
  destruct Hsorted as [(sorted & Hsorted)|[_ Hsorted]]; rewrite Hsorted;
    [|eexists; split; [reflexivity|]; split; [reflexivity|]; left; reflexivity].
  rewrite Hgl. cbn [res_bind].
  assert (Hbad : py_sorted (unique cell_eqb (map (cell_at gl) (rows df))) =
                 Raise (TypeError "'<' not supported")).
  { apply (mixed_not_sortable _ x).
    - rewrite <- E1. now apply in_map.
    - rewrite <- E2. now apply in_map. }
  unfold bind, emit, eval, raise, ret, loaded_world. cbn [globals page].
  rewrite Hbad. eexists. split; [reflexivity|]. split; [reflexivity|].
  right. eexists. reflexivity.
Qed.

End LoadMore.

(* ================================================================== *)
(** * The income topic and the states on offer *)

Lemma filter_first {A} (p : A -> bool) l :
  match List.filter p l with
  | t :: _ =>
      p t = true /\
      exists before after,
        l = before ++ t :: after /\ forall u, In u before -> p u = false
  | [] => forall u, In u l -> p u = false
  end.
Proof.
  induction l as [|a l IH]; [intros u []|]. cbn [List.filter].
  destruct (p a) eqn:Ea.
  - split; [exact Ea|]. exists [], l. split; [reflexivity | intros u []].
  - destruct (List.filter p l) as [|t rest].
    + intros u [<-|Hu]; auto.
    + destruct IH as (Ht & before & after & -> & Hb). split; [exact Ht|].
      exists (a :: before), after. split; [reflexivity|].
      intros u [<-|Hu]; auto.
Qed.

Lemma existsb_eq_str x l : existsb (eq_str x) l = true <-> In (CStr x) l.
Proof.
  rewrite existsb_exists. split.
  - intros (c & Hc & E). destruct c; try discriminate E.
    cbn in E. apply String.eqb_eq in E. now subst.
  - intros Hin. exists (CStr x). split; [exact Hin|]. cbn. apply String.eqb_refl.
Qed.

Section Income.
Context {lib : Pandas} {widgets : Streamlit}.

(** X10.  The income topic of lines 84 to 90.  When one is chosen it is a
    topic of the table and its text mentions income, whatever the case of
    the letters: it is income_per_capita whenever that is among the topics,
    and otherwise the first topic, in the table's order, that mentions
    income.  None is chosen exactly when no topic mentions income. *)
Theorem income_topic_choice ts :
  let mentions := fun t => contains "income" (lower (str_of t)) in
  match income_topic_of ts with
  | Some t =>
      In t ts /\ mentions t = true /\
      ((In (CStr "income_per_capita") ts /\ t = CStr "income_per_capita") \/
       (~ In (CStr "income_per_capita") ts /\
        exists before after,
          ts = before ++ t :: after /\
          forall u, In u before -> mentions u = false))
  | None => forall t, In t ts -> mentions t = false
  end.
Proof.
  intros mentions. unfold income_topic_of.
  destruct (existsb (eq_str "income_per_capita") ts) eqn:E.
  - apply existsb_eq_str in E. split; [exact E|]. split; [reflexivity|]. now left.
  - assert (Hno : ~ In (CStr "income_per_capita") ts).
    { intros Hin. apply existsb_eq_str in Hin. congruence. }
    unfold income_topics. pose proof (filter_first mentions ts) as Hf.
    fold mentions. destruct (List.filter mentions ts) as [|t rest]; [exact Hf|].
    destruct Hf as (Ht & before & after & Ets & Hb).
    split; [rewrite Ets; apply in_elt|]. split; [exact Ht|].
    right. split; [exact Hno|]. eauto.
Qed.

(** X11.  Every row of the income table of line 96 belongs to a state that
    the selector of lines 55 to 59 offers; when the table has no
    two-letter state row the selector offers MD alone and the income table
    is empty. *)
Theorem income_states_offered df t income states :
  income_of df t = Ok income ->
  state_list df = Ok states ->
  exists g,
    col "geo" df = Ok g /\
    (forall r, In r (rows income) -> In (cell_at g r) (state_options states)) /\
    (states = [] -> state_options states = [CStr "MD"] /\ rows income = []).
Proof.
  unfold income_of, state_list. intros Hi Hs.
  apply bind_Ok in Hi as (ti & Hti & Hi).
  apply bind_Ok in Hi as (gl & Hgl & Hi).
  apply bind_Ok in Hi as (g & Hg & [= <-]).
  rewrite Hgl, Hg in Hs. cbn [res_bind] in Hs.
  destruct (state_rows_text gl g (rows df)) as (codes & Hcodes & Hin).
  rewrite Hcodes in Hs.
  rewrite (unique_map CStr String.eqb cell_eqb) in Hs by reflexivity.
  rewrite py_sorted_text in Hs. injection Hs as <-.
  assert (Hmem : forall r, In r (rows (select
                   (fun r => eq_scalar t (cell_at ti r) && eq_str "state" (cell_at gl r)
                             && str_len_is 2 (cell_at g r)) df)) ->
                 In (cell_at g r)
                   (map CStr (insertion_sort String.leb (unique String.eqb codes)))).
  { intros r Hr. cbn [rows select] in Hr. apply filter_In in Hr as [Hr Hmask].
    apply andb_true_iff in Hmask as [Hmask Hlen].
    apply andb_true_iff in Hmask as [_ Hstate].
    destruct (cell_at gl r) as [| | |level|] eqn:El; try discriminate Hstate.
    cbn in Hstate. apply String.eqb_eq in Hstate. subst level.
    destruct (cell_at g r) as [| | |code|] eqn:Eg; try discriminate Hlen.
    cbn in Hlen. apply Nat.eqb_eq in Hlen.
    apply in_map.
    apply (Permutation_in _ (Permutation_sym (insertion_sort_perm _ _))).
    apply (unique_spec String.eqb codes String.eqb_eq).
    apply Hin. split; [exact Hlen|]. eauto. }
  set (states := map CStr (insertion_sort String.leb (unique String.eqb codes))) in *.
  exists g. split; [exact Hg|]. split.
  - intros r Hr. specialize (Hmem r Hr).
    destruct states as [|c l]; [destruct Hmem | exact Hmem].
  - intros Hnil. split; [now rewrite Hnil|].
    destruct (rows (select _ df)) as [|r rest] eqn:Er; [reflexivity|].
    specialize (Hmem r (or_introl eq_refl)). rewrite Hnil in Hmem. destruct Hmem.
Qed.

End Income.

(* ================================================================== *)
(** * More on the deflator, the chart data and the ranking tables *)



Lemma res_map_Raise {A B} (f : A -> res B) l e :
  res_map f l = Raise e -> exists a, In a l /\ f a = Raise e.
Proof.
  induction l as [|a l IH]; cbn [res_map]; [discriminate|].
  destruct (f a) as [b|e'] eqn:Ea; cbn [res_bind].
  - destruct (res_map f l) as [bs|e'']; cbn [res_bind]; [discriminate|].
    intros [= <-]. destruct (IH eq_refl) as (a' & Ha' & Ea'). eauto using in_cons.
  - intros [= <-]. exists a. split; [now left | exact Ea].
Qed.

Lemma res_map_length {A B} (f : A -> res B) l l' :
  res_map f l = Ok l' -> length l' = length l.
Proof.
  revert l'. induction l as [|a l IH]; intros l'; cbn [res_map].
  - now intros [= <-].
  - intros Hm. apply bind_Ok in Hm as (b & _ & Hm).
    apply bind_Ok in Hm as (bs & Hbs & [= <-]). cbn. f_equal. now apply IH.
Qed.

Lemma concat_length_const {A} (blocks : list (list A)) n :
  (forall b, In b blocks -> length b = n) ->
  length (concat blocks) = length blocks * n.
Proof.
  induction blocks as [|b bs IH]; intros Hb; [reflexivity|].
  cbn [concat length]. rewrite length_app, (Hb b (or_introl eq_refl)), IH; [lia|].
  intros b' Hb'. apply Hb. now right.
Qed.

Lemma all_comparable_numbers l :
  (forall c, In c l -> match c with CNum _ | CInt _ | CNull => True | _ => False end) ->
  all_comparable l = true.
Proof.
  induction l as [|a l IH]; intros Hl; simpl; [reflexivity|].
  rewrite IH by (intros c Hc; apply Hl; now right).
  rewrite andb_true_r. apply forallb_forall. intros c Hc.
  pose proof (Hl a (or_introl eq_refl)) as Ha.
  pose proof (Hl c (or_intror Hc)) as Hc'.
  destruct a, c; try contradiction; reflexivity.
Qed.

Lemma firstn_In_le {A} (l : list A) a b x :
  a <= b -> In x (firstn a l) -> In x (firstn b l).
Proof.
  revert a b. induction l as [|c l IH]; intros a b Hab Hx.
  - now rewrite firstn_nil in Hx.
  - destruct a as [|a]; [destruct Hx|]. destruct b as [|b]; [lia|].
    cbn [firstn] in *. destruct Hx as [<-|Hx]; [now left|].
    right. apply (IH a b); [lia | exact Hx].
Qed.

Section More.
Context {lib : Pandas} {widgets : Streamlit}.

(** X12.  A base year in which the table has no national CPIAUCSL row
    ends the run at the guard of line 75: the mean of the empty selection
    of line 73 is NaN, so the section shows the warning and stops, with no
    cpi_index derived. *)
Theorem base_year_without_cpi df s w cpi annual gl se d v :
  cpi_of df = Ok cpi ->
  cpi_annual_of cpi = Ok annual ->
  col "geo_level" df = Ok gl -> col "series" df = Ok se ->
  col "date" df = Ok d -> col "value" df = Ok v ->
  cpi_values gl se d v df (base_year_of s) = [] ->
  PrimFloat.is_nan (mean []) = true ->
  base_cpi_of annual (base_year_of s) = Ok (mean []) /\
  deflator df s w =
    Stopped
      {| globals :=
           <["base_cpi" := VFloat (mean [])]>
             (<["cpi_annual" := VFrame annual]>
                (<["cpi" := VFrame cpi]>
                   (<["base_year" := VInt (base_year_of s)]> (globals w))));
         page :=
           (page w ++ [NumberInput "Deflation base year" 1985 2030 (base_year_of s)])
           ++ [Warning "Invalid CPI base year selected."] |}.
Proof.
  intros Hcpi Hannual Hgl Hse Hd Hv Hnone Hnil.
  destruct (cpi_annual_rows _ _ _ Hcpi Hannual)
    as (gl' & se' & d' & v' & years & Hgl' & Hse' & Hd' & Hv' & Hnd & Hin & Hcols & Hrows).
  rewrite Hgl in Hgl'. rewrite Hse in Hse'. rewrite Hd in Hd'. rewrite Hv in Hv'.
  injection Hgl' as <-. injection Hse' as <-. injection Hd' as <-. injection Hv' as <-.
  assert (Hb : base_cpi_of annual (base_year_of s) = Ok (mean [])).
  { unfold base_cpi_of, col. rewrite Hcols. cbn [col_index String.eqb Ascii.eqb Bool.eqb res_bind].
    rewrite Hrows, filter_map_comm, map_map.
    rewrite (filter_ext _ (fun y => (y =? base_year_of s)%Z)) by reflexivity.
    rewrite filter_key_absent; [reflexivity|].
    intros Hy. apply Hin in Hy. contradiction. }
  split; [exact Hb|].
  unfold deflator, bind, emit, store, eval, ret, stop, raise.
  cbn [globals page]. rewrite Hcpi, Hannual, Hb. unfold invalid_base. rewrite Hnil.
  reflexivity.
Qed.


(** X15.  The table [load_data] returns has a real_income column only if
    the worksheet has one, and nothing after it derives one: on the income
    table of a worksheet without that column both the chart data of line
    107 and the ranking of line 130 raise a KeyError for real_income. *)
Theorem real_income_is_required file df t income :
  load_data file = Ok df ->
  income_of df t = Ok income ->
  ~ In "real_income" (columns df) ->
  melt "year" ["value"; "real_income"] "Type" "Income" income =
    Raise (KeyError "real_income") /\
  growth_of income = Raise (KeyError "real_income").
Proof.
  intros Hl Hi Hno.
  destruct (load_data_cells _ _ Hl)
    as (sheet & names & d & g & se & ti & v & y & _ & _ & _ & Hg & _ & _ & Hv & Hy & _).
  destruct (loaded_years _ _ Hl) as (y' & Hy' & Hint).
  rewrite Hy in Hy'. injection Hy' as <-.
  unfold income_of in Hi.
  apply bind_Ok in Hi as (ti' & _ & Hi).
  apply bind_Ok in Hi as (gl & _ & Hi).
  apply bind_Ok in Hi as (g' & _ & [= <-]).
  apply col_index_In in Hno.
  set (income := select _ df).
  assert (Hcols : columns income = columns df) by reflexivity.
  split.
  - unfold melt, col. rewrite Hcols, Hy. cbn [res_bind res_map].
    rewrite Hv, Hno. reflexivity.
  - unfold growth_of, sort_values, col. rewrite Hcols, Hy. cbn [res_bind].
    rewrite all_comparable_numbers.
    + cbn [res_bind columns]. rewrite Hg, Hno. reflexivity.
    + intros c Hc. apply filter_In in Hc as [Hc _].
      apply in_map_iff in Hc as (r & <- & Hr).
      apply filter_In in Hr as [Hr _].
      destruct (Hint r Hr) as (n & ->). exact I.
Qed.

(** X16.  For a ranking produced by lines 130 to 137 the bottom table of
    line 144 never raises.  Each of the two tables has ten rows, or as many
    as the ranking has when that is fewer.  Up to twenty ranked states
    every one of them is in a table; up to ten the top table is the whole
    ranking and the bottom table holds the same rows. *)
Theorem ranking_tables_cover income growth :
  growth_of income = Ok growth ->
  (forall (leb : list cell -> list cell -> bool) l, Permutation (sort_by leb l) l) ->
  exists bottom,
    bottom_states growth = Ok bottom /\
    length (rows (top_states growth)) = Nat.min 10 (length (rows growth)) /\
    length (rows bottom) = Nat.min 10 (length (rows growth)) /\
    (length (rows growth) <= 20 ->
     forall r, In r (rows growth) -> In r (rows (top_states growth)) \/ In r (rows bottom)) /\
    (length (rows growth) <= 10 ->
     rows (top_states growth) = rows growth /\ Permutation (rows bottom) (rows growth)).
Proof.
  intros Hg Hperm.
  destruct (growth_of_Ok _ _ Hg) as (y & g & ri & agg & _ & _ & _ & Hagg & Hcols & Hrows).
  assert (Hcells : forall r, In r (rows growth) ->
            match cell_at 1 r with CNum _ | CInt _ | CNull => True | _ => False end).
  { intros r Hr. rewrite Hrows in Hr. apply (Permutation_in _ (Hperm _ _)) in Hr.
    apply filter_In in Hr as [Hr _].
    apply (res_map_In _ _ _ Hagg) in Hr as (k & _ & Hk). cbv beta in Hk.
    apply bind_Ok in Hk as (p & Hp & [= <-]). cbn [cell_at nth].
    unfold growth_pct in Hp. destruct (1 <? _)%nat; [|now injection Hp as <-].
    apply bind_Ok in Hp as (l & _ & Hp). apply bind_Ok in Hp as (f & _ & [= <-]). exact I. }
  set (n := length (rows growth)) in *.
  assert (Hb : bottom_states growth =
               Ok {| columns := columns growth;
                     rows := sort_by (by_column 1 true) (skipn (n - 10) (rows growth)) |}).
  { unfold bottom_states, sort_values, col, tail. cbn [columns rows].
    rewrite Hcols. cbn [col_index String.eqb Ascii.eqb Bool.eqb res_bind].
    rewrite all_comparable_numbers; [reflexivity|].
    intros c Hc. apply filter_In in Hc as [Hc _].
    apply in_map_iff in Hc as (r & <- & Hr).
    apply Hcells. rewrite <- (firstn_skipn (n - 10) (rows growth)).
    apply in_or_app. now right. }
  eexists. split; [exact Hb|]. cbn [rows top_states head].
  pose proof (Hperm (by_column 1 true) (skipn (n - 10) (rows growth))) as Hp.
  split; [apply length_firstn|].
  split; [rewrite (Permutation_length Hp), length_skipn; fold n; lia|].
  split.
  - intros Hn r Hr. rewrite <- (firstn_skipn (n - 10) (rows growth)) in Hr.
    apply in_app_or in Hr as [Hr|Hr].
    + left. apply (firstn_In_le _ (n - 10) 10); [lia | exact Hr].
    + right. now apply (Permutation_in _ (Permutation_sym Hp)).
  - intros Hn. split; [now apply firstn_all2|].
    assert (H0 : n - 10 = 0) by lia. rewrite H0 in Hp |- *. exact Hp.
Qed.

End More.

(* ================================================================== *)
(** * Blanks, the list of topics and the two income messages *)

Lemma text_cells l :
  (forall c, In c l -> exists x, c = CStr x) -> exists xs, l = map CStr xs.
Proof.
  induction l as [|c l IH]; intros Hl; [now exists []|].
  destruct (Hl c (or_introl eq_refl)) as (x & ->).
  destruct IH as (xs & ->); [intros c Hc; apply Hl; now right|].
  now exists (x :: xs).
Qed.

Lemma keeps_eval_bind {A B} I (r : res A) (k : A -> script B) :
  (forall a, r = Ok a -> keeps I (k a)) -> keeps I (bind (eval r) k).
Proof.
  intros Hk w Hw. unfold bind, eval. destruct r as [a|e]; [|exact Hw].
  now apply Hk.
Qed.

Section Topics.
Context {lib : Pandas} {widgets : Streamlit}.

(** X18.  The list of topics of line 42 on a loaded table.  When no row
    has a blank topic it never raises: it is the distinct texts of the
    topic column in increasing order.  A blank topic is possible only
    where pandas keeps it missing through [astype(str)]; next to a text
    topic it makes [sorted] raise a TypeError. *)
Theorem topics_listing file df :
  load_data file = Ok df ->
  exists t,
    col "topic" df = Ok t /\
    ((forall r, In r (rows df) -> cell_at t r <> CNull) ->
     exists names,
       (let! ts := topics df in py_sorted ts) = Ok (map CStr names) /\
       (forall x, In x names <-> exists r, In r (rows df) /\ cell_at t r = CStr x) /\
       List.NoDup names /\
       StronglySorted (fun a b => String.leb a b = true) names) /\
    (forall r1 r2 x,
       In r1 (rows df) -> cell_at t r1 = CNull ->
       In r2 (rows df) -> cell_at t r2 = CStr x ->
       keeps_missing = true /\
       (let! ts := topics df in py_sorted ts) = Raise (TypeError "'<' not supported")).
Proof.
  intros Hl.
  destruct (loaded_topics _ _ Hl) as (t & Ht & Hcells).
  exists t. split; [now apply col_Ok|]. split.
  - intros Hfull.
    destruct (text_cells (map (cell_at t) (rows df))) as (xs & Hxs).
    { intros c Hc. apply in_map_iff in Hc as (r & <- & Hr).
      destruct (Hcells r Hr) as [Hx|[_ Hnull]]; [exact Hx|].
      exfalso. exact (Hfull r Hr Hnull). }
    exists (insertion_sort String.leb (unique String.eqb xs)).
    unfold topics, col. rewrite Ht. cbn [res_bind]. rewrite Hxs.
    rewrite (unique_map CStr String.eqb cell_eqb) by reflexivity.
    split; [apply py_sorted_text|].
    destruct (unique_spec String.eqb xs String.eqb_eq) as [Hu Hnd].
    pose proof (insertion_sort_perm String.leb (unique String.eqb xs)) as Hp.
    split; [|split].
    + intros x. split.
      * intros Hx. apply (Permutation_in _ Hp), Hu in Hx.
        apply (in_map CStr) in Hx. rewrite <- Hxs in Hx.
        apply in_map_iff in Hx as (r & Er & Hr). eauto.
      * intros (r & Hr & Er).
        apply (Permutation_in _ (Permutation_sym Hp)), Hu.
        apply (in_map (cell_at t)) in Hr. rewrite Hxs, Er in Hr.
        apply in_map_iff in Hr as (x' & [= ->] & Hx'). exact Hx'.
    + now apply (Permutation_NoDup (Permutation_sym Hp)).
    + apply insertion_sort_sorted; [apply leb_str_total | apply leb_str_trans].
  - intros r1 r2 x Hr1 E1 Hr2 E2.
    assert (Hk : keeps_missing = true).
    { destruct (Hcells r1 Hr1) as [(x1 & Ex1)|[Hk _]]; [congruence | exact Hk]. }
    split; [exact Hk|].
    unfold topics, col. rewrite Ht. cbn [res_bind].
    apply (mixed_not_sortable _ x).
    + rewrite <- E1. now apply in_map.
    + rewrite <- E2. now apply in_map.
Qed.

(** X19.  The data check and the income section agree: a run that shows
    the green message of line 46 never shows the error of line 93. *)
Theorem present_income_is_used s :
  In (Success "✅ income_per_capita is present") (page (final (run s))) ->
  ~ In (Error "This dataset doesn't include income data. Choose a different view or rebuild with BEA enabled.")
       (page (final (run s))).
Proof.
  intros Hgreen Hred.
  assert (Hcontra : page_avoids is_success (final (run s)) \/
                    page_avoids is_income_error (final (run s))).
  { destruct (uploaded_file s) as [file|] eqn:Hf;
      [|left; unfold run, app; rewrite Hf; reflexivity].
    destruct (load_data file) as [df|e] eqn:Hl;
      [|left; unfold run, app, bind, emit, store, eval; rewrite Hf;
        cbn [globals page]; rewrite Hl; reflexivity].
    rewrite (run_loaded _ _ _ Hf Hl).
    destruct (topics df) as [ts|e] eqn:Hts.
    - destruct (existsb (eq_str "income_per_capita") ts) eqn:Hex.
      + right.
        assert (Hs : keeps (page_avoids is_income_error) (sidebar df s))
          by (unfold sidebar; auto 40 with script).
        assert (Hd : keeps (page_avoids is_income_error) (deflator df s))
          by (unfold deflator; auto 40 with script).
        assert (Hi : keeps (page_avoids is_income_error) (income_data df)).
        { intros w Hw. unfold income_data, bind, eval, store, ret.
          rewrite Hts. cbn [globals page]. unfold income_topic_of. rewrite Hex.
          destruct (income_of df _); exact Hw. }
        assert (Hp : forall state income,
                   keeps (page_avoids is_income_error) (display state income))
          by (intros; unfold display; auto 60 with script).
        match goal with
        | |- page_avoids _ (final (?m _)) =>
            assert (Hm : keeps (page_avoids is_income_error) m) by auto 40 with script;
            apply Hm
        end.
        reflexivity.
      + left.
        assert (Hs : keeps (page_avoids is_success) (sidebar df s)).
        { unfold sidebar.
          repeat first
            [ apply avoids_emit; reflexivity
            | apply avoids_store
            | apply keeps_ret
            | apply keeps_eval_bind; intros ? ?
            | apply keeps_bind; [|intros ?]
            | match goal with
              | |- keeps _ (if ?b then _ else _) => destruct b eqn:?
              end
            | exfalso; congruence ]. }
        assert (Hd : keeps (page_avoids is_success) (deflator df s))
          by (unfold deflator; auto 40 with script).
        assert (Hi : keeps (page_avoids is_success) (income_data df))
          by (unfold income_data; auto 40 with script).
        assert (Hp : forall state income,
                   keeps (page_avoids is_success) (display state income))
          by (intros; unfold display; auto 60 with script).
        match goal with
        | |- page_avoids _ (final (?m _)) =>
            assert (Hm : keeps (page_avoids is_success) m) by auto 40 with script;
            apply Hm
        end.
        reflexivity.
    - left. unfold sidebar, bind, emit, eval, raise. rewrite Hts. reflexivity. }
  unfold page_avoids in Hcontra. rewrite !forallb_forall in Hcontra.
  destruct Hcontra as [Hc|Hc]; [specialize (Hc _ Hgreen) | specialize (Hc _ Hred)];
    discriminate Hc.
Qed.

End Topics.


(* ================================================================== *)
(** * The theorems on the sample workbooks *)

Module Checks.
Import Reference Sample Cases.

Lemma year_is_calendar_year_witness :
  load_data file = Ok loaded /\
  exists d y,
    col "date" loaded = Ok d /\
    col "year" loaded = Ok y /\
    forall r, In r (rows loaded) ->
      exists t, cell_at d r = CTime t /\ cell_at y r = CInt (ts_year t).
Proof.
  assert (Hl : load_data file = Ok loaded) by (vm_compute; reflexivity).
  split; [exact Hl|]. exact (year_is_calendar_year file loaded Hl).
Defined.

Lemma load_data_invariants_witness :
  load_data file_with_blanks = Ok loaded_with_blanks /\
  read_excel file_with_blanks "cleaned_long" = Ok sheet_with_blanks /\
  plain_header sheet_with_blanks = true /\
  (forall r, In r (rows loaded_with_blanks) ->
     (exists x, cell_at 1 r = CStr x /\ upper x = x) /\
     (exists x, cell_at 3 r = CStr x) /\
     (exists x, cell_at 4 r = CStr x)) /\
  (forall c, In c (columns loaded_with_blanks) -> strip c = c /\ lower c = c).
Proof.
  assert (Hl : load_data file_with_blanks = Ok loaded_with_blanks)
    by (vm_compute; reflexivity).
  split; [exact Hl|]. split; [reflexivity|]. split; [reflexivity|].
  destruct (load_data_invariants file_with_blanks loaded_with_blanks sheet_with_blanks
              Hl eq_refl eq_refl)
    as (d & g & s & t & v & final & _ & Hg & Hs & Ht & _ & _ & _ & Htext & Hcols & _).
  injection Hg as <-. injection Hs as <-. injection Ht as <-.
  split; [exact (Htext eq_refl) | exact Hcols].
Defined.

(** C8 as stated fails here: where pandas keeps a missing value through
    [astype(str)], as pandas 3 does, the row with blanks in geo, series
    and topic survives the load with these fields missing, not text. *)
Lemma blank_fields_stay_missing :
  @load_data pandas3 file_with_blanks = Ok loaded_with_missing /\
  In [day 2018 1 1; CNull; CNull; CNull; CNull; CNum 1; CInt 2018]
     (rows loaded_with_missing) /\
  col "geo" loaded_with_missing = Ok 1 /\
  col "series" loaded_with_missing = Ok 3 /\
  col "topic" loaded_with_missing = Ok 4 /\
  forall i x, In i [1; 3; 4] ->
    cell_at i [day 2018 1 1; CNull; CNull; CNull; CNull; CNum 1; CInt 2018] <> CStr x.
Proof.
  split; [vm_compute; reflexivity|].
  split; [simpl; tauto|].
  split; [reflexivity|]. split; [reflexivity|]. split; [reflexivity|].
  intros i x [<-|[<-|[<-|[]]]]; discriminate.
Qed.

(** With the [astype(str)] of pandas 2 the same row has the text nan. *)
Example blank_fields_as_text : load_data file_with_blanks = Ok loaded_with_blanks.
Proof. vm_compute. reflexivity. Qed.

Lemma state_list_spec_witness :
  col "geo_level" loaded = Ok 2 /\ col "geo" loaded = Ok 1 /\
  exists codes,
    state_list loaded = Ok (map CStr codes) /\
    (forall x, In x codes <->
       char_length x = 2 /\
       exists r, In r (rows loaded) /\ cell_at 2 r = CStr "state" /\ cell_at 1 r = CStr x) /\
    List.NoDup codes /\
    StronglySorted (fun a b => String.leb a b = true) codes /\
    state_options (map CStr codes) =
      match codes with [] => [CStr "MD"] | _ => map CStr codes end.
Proof.
  split; [reflexivity|]. split; [reflexivity|].
  exact (state_list_spec loaded 2 1 eq_refl eq_refl).
Defined.

Example state_list_sample : state_list loaded = Ok [CStr "MD"].
Proof. reflexivity. Qed.

Example state_options_fallback : state_options [] = [CStr "MD"].
Proof. reflexivity. Qed.

(** A code of two characters is offered whatever its number of bytes. *)
Example state_list_abroad :
  state_list loaded_abroad = Ok [CStr "Ñ1"] /\
  char_length "Ñ1" = 2 /\ String.length "Ñ1" = 3.
Proof. split; [vm_compute; reflexivity|]. split; reflexivity. Qed.

Lemma cpi_index_formula_witness :
  deflator loaded visit after_sidebar = Done indexed after_deflator /\
  PrimFloat.is_nan (mean []) = true /\
  mean [mean (cpi_values 2 3 0 5 loaded 2017)] = mean (cpi_values 2 3 0 5 loaded 2017) /\
  In [CInt 2017; CNum (mean (cpi_values 2 3 0 5 loaded 2017)); CNum 100] (rows indexed).
Proof.
  assert (Hrun : deflator loaded visit after_sidebar = Done indexed after_deflator)
    by (vm_compute; reflexivity).
  assert (Hnil : PrimFloat.is_nan (mean []) = true) by reflexivity.
  assert (Hone : mean [mean (cpi_values 2 3 0 5 loaded (base_year_of visit))]
                 = mean (cpi_values 2 3 0 5 loaded (base_year_of visit)))
    by (vm_compute; reflexivity).
  split; [exact Hrun|]. split; [exact Hnil|]. split; [exact Hone|].
  destruct (cpi_index_formula loaded visit after_sidebar indexed after_deflator 2 3 0 5
              Hrun eq_refl eq_refl eq_refl eq_refl Hnil Hone)
    as (years & _ & _ & _ & _ & _ & Hbase & _).
  apply Hbase. vm_compute. reflexivity.
Defined.

Example cpi_index_sample :
  deflator loaded visit after_sidebar = Done indexed after_deflator /\
  rows indexed = [[CInt 2017; CNum 245; CNum 100];
                  [CInt 2018; CNum 260; CNum (260 / 245 * 100)%float]].
Proof. split; [vm_compute|]; reflexivity. Qed.

(** C2 as stated fails here: the two CPI values of the base year are
    finite, their mean overflows to infinity, which is neither NaN nor
    zero, and the index of the base year comes out as NaN instead of 100. *)
Lemma base_index_of_infinite_mean :
  load_data file_with_huge_cpi = Ok loaded_with_huge_cpi /\
  (exists w, deflator loaded_with_huge_cpi visit start = Done indexed_with_huge_cpi w /\
             globals w !! "base_cpi" = Some (VFloat PrimFloat.infinity)) /\
  invalid_base PrimFloat.infinity = false /\
  base_year_of visit = 2017%Z /\
  In [CInt 2017; CNum PrimFloat.infinity; CNum PrimFloat.nan] (rows indexed_with_huge_cpi) /\
  forall value, ~ In [CInt 2017; value; CNum 100] (rows indexed_with_huge_cpi).
Proof.
  split; [vm_compute; reflexivity|].
  split; [eexists; split; vm_compute; reflexivity|].
  split; [reflexivity|]. split; [reflexivity|].
  split; [now left|].
  intros value [E|[E|[]]]; discriminate E.
Qed.

Lemma deflator_guard_witness :
  cpi_of loaded = Ok cpi /\
  cpi_annual_of cpi = Ok cpi_annual /\
  base_cpi_of cpi_annual (base_year_of visit_1990) = Ok PrimFloat.nan /\
  deflator loaded visit_1990 start =
    Stopped
      {| globals :=
           <["base_cpi" := VFloat PrimFloat.nan]>
             (<["cpi_annual" := VFrame cpi_annual]>
                (<["cpi" := VFrame cpi]>
                   (<["base_year" := VInt (base_year_of visit_1990)]> (globals start))));
         page :=
           (page start ++ [NumberInput "Deflation base year" 1985 2030 (base_year_of visit_1990)])
           ++ [Warning "Invalid CPI base year selected."] |} /\
  columns cpi_annual = ["year"; "value"].
Proof.
  assert (H1 : cpi_of loaded = Ok cpi) by (vm_compute; reflexivity).
  assert (H2 : cpi_annual_of cpi = Ok cpi_annual) by (vm_compute; reflexivity).
  assert (H3 : base_cpi_of cpi_annual (base_year_of visit_1990) = Ok PrimFloat.nan)
    by (vm_compute; reflexivity).
  split; [exact H1|]. split; [exact H2|]. split; [exact H3|].
  exact (deflator_guard loaded visit_1990 start cpi cpi_annual PrimFloat.nan H1 H2 H3).
Defined.

(** Whole numbers are read as the nearest float: the same table with
    the two large values held as integers gives the same index. *)
Example base_index_of_whole_numbers :
  float_of_Z (2 ^ 63) = 0x1p+63%float /\
  float_of_Z (2 ^ 1023) = 0x1p+1023%float /\
  exists w, deflator loaded_with_huge_whole_cpi visit start = Done indexed_with_huge_cpi w.
Proof.
  split; [vm_compute; reflexivity|]. split; [vm_compute; reflexivity|].
  eexists. vm_compute. reflexivity.
Qed.

(** With the default base year, which has CPI rows, the division is done. *)
Example deflator_guard_valid :
  base_cpi_of cpi_annual (base_year_of visit) = Ok 245%float /\
  with_cpi_index 245 cpi_annual = Ok indexed.
Proof. split; vm_compute; reflexivity. Qed.

Lemma growth_needs_two_rows_witness :
  growth_of real_incomes = Ok growth /\
  col "geo" real_incomes = Ok 1 /\
  (forall row, In row (rows growth) ->
     exists k p, row = [k; CNum p] /\ PrimFloat.is_nan p = false /\
       (2 <= length (List.filter (fun r => cell_eqb (cell_at 1 r) k) (rows real_incomes)))%nat) /\
  (forall k p,
     (length (List.filter (fun r => cell_eqb (cell_at 1 r) k) (rows real_incomes)) <= 1)%nat ->
     ~ In [k; p] (rows growth)).
Proof.
  assert (Hg : growth_of real_incomes = Ok growth) by (vm_compute; reflexivity).
  split; [exact Hg|]. split; [reflexivity|].
  exact (growth_needs_two_rows real_incomes growth 1 Hg eq_refl
           (fun leb l => insertion_sort_perm leb l)).
Defined.

(** The state with a single year is not ranked. *)
Example single_year_not_ranked p : ~ In [CStr "DC"; p] (rows growth).
Proof. intros [E|[E|[]]]; discriminate E. Qed.

(** The income table of line 96 for [ranking_file]. *)
Example real_incomes_from_file :
  exists df, load_data ranking_file = Ok df /\
             income_of df (CStr "income_per_capita") = Ok real_incomes.
Proof. eexists. split; vm_compute; reflexivity. Qed.



Lemma real_income_never_computed_witness :
  uploaded_file visit = Some file /\
  load_data file = Ok loaded /\
  sidebar loaded visit (loaded_world file loaded) = Done (CStr "MD") after_sidebar /\
  deflator loaded visit after_sidebar = Done indexed after_deflator /\
  income_data loaded after_deflator = Done income after_income /\
  run visit =
    Raised (NameError "sel")
      {| globals := globals after_income;
         page := page after_income ++
                   [Subheader (str_of (CStr "MD") +:+ " — Nominal vs Real Income")] |} /\
  globals after_income !! "sel" = None /\
  globals after_income !! "income" = Some (VFrame income) /\
  columns income = columns loaded /\
  (forall r, In r (rows income) -> In r (rows loaded)).
Proof.
  assert (Hl : load_data file = Ok loaded) by (vm_compute; reflexivity).
  assert (H1 : sidebar loaded visit (loaded_world file loaded) = Done (CStr "MD") after_sidebar)
    by (vm_compute; reflexivity).
  assert (H2 : deflator loaded visit after_sidebar = Done indexed after_deflator)
    by (vm_compute; reflexivity).
  assert (H3 : income_data loaded after_deflator = Done income after_income)
    by (vm_compute; reflexivity).
  split; [reflexivity|]. split; [exact Hl|]. split; [exact H1|].
  split; [exact H2|]. split; [exact H3|].
  exact (real_income_never_computed visit file loaded (CStr "MD") after_sidebar indexed
           after_deflator income after_income eq_refl Hl H1 H2 H3).
Defined.

(** The income table the sample visit binds has no real_income column. *)
Example income_has_no_real_income : col "real_income" income = Raise (KeyError "real_income").
Proof. reflexivity. Qed.

(** The sample visit: every guard passes, and the run ends on line 103. *)
Example sample_visit_fails :
  exists w, run visit = Raised (NameError "sel") w /\
            last (page w) = Some (Subheader "MD — Nominal vs Real Income").
Proof. eexists. split; vm_compute; reflexivity. Qed.

(** C4 as stated fails here: the sheet has no value column, and the run
    ends with an uncaught KeyError and no message on the page. *)
Lemma missing_value_column_raises :
  run visit_without_value =
    Raised (KeyError "value")
      {| globals := <["load_data" := VFunction]>
                      (<["uploaded_file" := VFile file_without_value]> ∅);
         page := [PageConfig "Real Income by State Explorer";
                  Title "Real Income by State Explorer";
                  Caption "Upload your cleaned economic dataset to begin";
                  FileUploader "Upload cleaned_economic_dataset.xlsx"] |}.
Proof. vm_compute. reflexivity. Qed.

(** A header cell that holds a number: line 29 raises. *)
Example numeric_label_raises :
  exists w, run (visiting (Some file_with_numeric_label)) =
              Raised (AttributeError "object has no attribute 'strip'") w.
Proof. eexists. vm_compute. reflexivity. Qed.

Lemma absent_income_is_reported_witness :
  (plain_header {| labels := map CStr header; grid := firstn 3 (grid sheet) |} = true /\
   load_data file_without_income = Ok loaded_without_income /\
   topics loaded_without_income = Ok [CStr "cpi"] /\
   run visit_without_income =
     Stopped
       {| globals := <["income_topic" := VNone]>
                       (<["income_topics" := VList []]>
                          (globals after_deflator_without_income));
          page := page after_deflator_without_income ++
            [Error "This dataset doesn't include income data. Choose a different view or rebuild with BEA enabled."] |}) /\
  (exists e w,
     run visit_without_value = Raised e w /\
     ((exists c', e = KeyError c' /\
                  col_index c' ["date"; "geo"; "geo_level"; "series"; "topic"] = None) \/
      (keeps_missing = true /\ e = TypeError "'<' not supported"))).
Proof.
  split.
  - assert (Hl : load_data file_without_income = Ok loaded_without_income)
      by (vm_compute; reflexivity).
    assert (Ht : topics loaded_without_income = Ok [CStr "cpi"]) by reflexivity.
    split; [reflexivity|]. split; [exact Hl|]. split; [exact Ht|].
    apply (proj1 (proj1 (absent_income_is_reported visit_without_income file_without_income
                    _ eq_refl eq_refl) eq_refl)
             loaded_without_income (CStr "MD") after_sidebar_without_income
             indexed after_deflator_without_income [CStr "cpi"] Hl).
    + vm_compute. reflexivity.
    + vm_compute. reflexivity.
    + exact Ht.
    + intros t [<-|[]]. reflexivity.
  - destruct (proj2 (proj1 (absent_income_is_reported visit_without_value file_without_value
                       _ eq_refl eq_refl) eq_refl)
                ["date"; "geo"; "geo_level"; "series"; "topic"] "value")
      as (e & w & Hrun & _ & He).
    + reflexivity.
    + simpl. tauto.
    + reflexivity.
    + exists e, w. split; assumption.
Defined.

End Checks.

(* ================================================================== *)
(** * The further properties on the sample workbooks *)

Module Further.
Import Reference Sample Cases.

Lemma stop_is_announced_witness :
  run no_upload =
    Stopped (final (run no_upload)) /\
  exists e, List.last (page (final (run no_upload))) (PageConfig EmptyString) = e /\
            is_alert e = true.
Proof.
  assert (Hrun : run no_upload = Stopped (final (run no_upload))) by reflexivity.
  split; [exact Hrun|]. exact (stop_is_announced no_upload _ Hrun).
Defined.

Lemma upload_prompt_witness :
  uploaded_file no_upload = None /\
  In (Info "Please upload cleaned_economic_dataset.xlsx to continue.")
     (page (final (run no_upload))).
Proof.
  split; [reflexivity|].
  apply (proj1 (upload_prompt no_upload)). reflexivity.
Defined.

Lemma missing_sheet_escapes_witness :
  uploaded_file (visiting (Some file_without_sheet)) = Some file_without_sheet /\
  load_data file_without_sheet =
    Raise (ValueError "Worksheet named 'cleaned_long' not found") /\
  final (run (visiting (Some file_without_sheet))) =
    {| globals := <["load_data" := VFunction]>
                    (<["uploaded_file" := VFile file_without_sheet]> ∅);
       page := [PageConfig "Real Income by State Explorer";
                Title "Real Income by State Explorer";
                Caption "Upload your cleaned economic dataset to begin";
                FileUploader "Upload cleaned_economic_dataset.xlsx"] |}.
Proof.
  assert (Hno : forall sh, ~ In ("cleaned_long", sh) file_without_sheet)
    by (intros sh [E|[]]; discriminate E).
  destruct (missing_sheet_escapes (visiting (Some file_without_sheet)) file_without_sheet
              eq_refl Hno) as [Hl Hrun].
  split; [reflexivity|]. split; [exact Hl|]. now rewrite Hrun.
Defined.

Lemma display_never_drawn_witness :
  In (Subheader "MD — Nominal vs Real Income") (page (final (run visit))) /\
  is_display (Subheader "MD — Nominal vs Real Income") = false.
Proof.
  assert (Hin : In (Subheader "MD — Nominal vs Real Income") (page (final (run visit))))
    by (vm_compute; tauto).
  split; [exact Hin|]. exact (display_never_drawn visit _ Hin).
Defined.

Lemma load_data_columns_witness :
  load_data file = Ok loaded /\
  read_excel file "cleaned_long" = Ok sheet /\
  plain_header sheet = true /\
  ~ In "year" (map (fun c => lower (strip c)) header) /\
  columns loaded = map (fun c => lower (strip c)) header ++ ["year"] /\
  List.NoDup (columns loaded).
Proof.
  assert (Hl : load_data file = Ok loaded) by (vm_compute; reflexivity).
  assert (Hno : ~ In "year" (map (fun c => lower (strip c)) header))
    by (vm_compute; intuition discriminate).
  split; [exact Hl|]. split; [reflexivity|]. split; [reflexivity|]. split; [exact Hno|].
  destruct (load_data_columns file loaded sheet Hl eq_refl eq_refl)
    as (raw & Hraw & _ & Hnew & Hnd & _).
  apply (f_equal (map (fun c => match c with CStr x => x | _ => EmptyString end))) in Hraw.
  cbn [labels sheet] in Hraw. rewrite !map_map in Hraw. cbn [map header] in Hraw.
  rewrite map_id in Hraw. subst raw.
  split; [exact (Hnew Hno) | exact Hnd].
Defined.

Lemma load_data_other_columns_witness :
  load_data file = Ok loaded /\
  read_excel file "cleaned_long" = Ok sheet /\
  normal_labels sheet = Ok ["date"; "geo"; "geo_level"; "series"; "topic"; "value"] /\
  col "geo_level" loaded = Ok 2 /\
  map (cell_at 2) (rows loaded) =
    map (cell_at 2)
      (List.filter
         (fun r => negb (isna (to_datetime (cell_at 0 r))) && negb (isna (cell_at 5 r)))
         (grid sheet)).
Proof.
  assert (Hl : load_data file = Ok loaded) by (vm_compute; reflexivity).
  assert (Hn : normal_labels sheet = Ok ["date"; "geo"; "geo_level"; "series"; "topic"; "value"])
    by (vm_compute; reflexivity).
  split; [exact Hl|]. split; [reflexivity|]. split; [exact Hn|].
  destruct (load_data_other_columns file loaded sheet _ "geo_level" 2 Hl eq_refl Hn eq_refl)
    as (d & v & Hd & Hv & Hc & Hcells).
  - simpl. intuition discriminate.
  - injection Hd as <-. injection Hv as <-. split; [exact Hc | exact Hcells].
Defined.

Lemma year_bounds_of_loaded_witness :
  load_data file = Ok loaded /\
  exists y lo hi,
    col "year" loaded = Ok y /\
    year_bound Z.min loaded = Ok lo /\
    year_bound Z.max loaded = Ok hi /\
    (exists r, In r (rows loaded) /\ cell_at y r = CInt lo) /\
    (exists r, In r (rows loaded) /\ cell_at y r = CInt hi) /\
    (forall r, In r (rows loaded) ->
       exists n, cell_at y r = CInt n /\ (lo <= n <= hi)%Z).
Proof.
  assert (Hl : load_data file = Ok loaded) by (vm_compute; reflexivity).
  split; [exact Hl|]. exact (year_bounds_of_loaded file loaded Hl).
Defined.

Lemma empty_table_escapes_witness :
  load_data file_of_blank_values = Ok loaded_without_rows /\
  exists w,
    run (visiting (Some file_of_blank_values)) =
      Raised (ValueError "cannot convert float NaN to integer") w /\
    List.last (page w) (PageConfig EmptyString) = Selectbox "State" [CStr "MD"].
Proof.
  assert (Hl : load_data file_of_blank_values = Ok loaded_without_rows)
    by (vm_compute; reflexivity).
  split; [exact Hl|].
  eexists. split.
  - apply (empty_table_escapes (visiting (Some file_of_blank_values))
             file_of_blank_values loaded_without_rows eq_refl Hl eq_refl).
    simpl. auto.
  - reflexivity.
Defined.

Lemma blank_geo_level_escapes_witness :
  load_data file_with_blanks = Ok loaded_with_blanks /\
  exists w,
    run (visiting (Some file_with_blanks)) = Raised (TypeError "'<' not supported") w /\
    globals w = globals (loaded_world file_with_blanks loaded_with_blanks) /\
    (page w = page (loaded_world file_with_blanks loaded_with_blanks) ++
              [Subheader "Data check (what's in your file)"] \/
     exists ts,
       page w = page (loaded_world file_with_blanks loaded_with_blanks) ++
                [Subheader "Data check (what's in your file)"; Write "Topics:" ts]).
Proof.
  assert (Hl : load_data file_with_blanks = Ok loaded_with_blanks)
    by (vm_compute; reflexivity).
  split; [exact Hl|].
  apply (blank_geo_level_escapes (visiting (Some file_with_blanks)) file_with_blanks
           loaded_with_blanks 2
           [day 2018 1 1; CStr "NAN"; CNull; CStr "nan"; CStr "nan"; CNum 1; CInt 2018]
           [day 2017 1 1; CStr "US"; CStr "national"; CStr "CPIAUCSL"; CStr "cpi";
            CNum 240; CInt 2017]
           "national" eq_refl Hl eq_refl).
  - simpl. tauto.
  - reflexivity.
  - simpl. tauto.
  - reflexivity.
Defined.

(** With income_per_capita absent, the first topic that mentions income
    is taken, whatever its case. *)
Lemma income_topic_choice_witness :
  income_topic_of [CStr "cpi"; CStr "Median Income"; CStr "income_total"] =
    Some (CStr "Median Income") /\
  ~ In (CStr "income_per_capita") [CStr "cpi"; CStr "Median Income"; CStr "income_total"] /\
  contains "income" (lower (str_of (CStr "Median Income"))) = true.
Proof.
  assert (E : income_topic_of [CStr "cpi"; CStr "Median Income"; CStr "income_total"] =
              Some (CStr "Median Income")) by reflexivity.
  split; [exact E|].
  pose proof (income_topic_choice [CStr "cpi"; CStr "Median Income"; CStr "income_total"])
    as Hc.
  cbv zeta in Hc. rewrite E in Hc. destruct Hc as (_ & Hm & [[_ Habs]|[Hno _]]).
  - discriminate Habs.
  - split; [exact Hno | exact Hm].
Defined.

Lemma income_states_offered_witness :
  income_of loaded (CStr "income_per_capita") = Ok income /\
  state_list loaded = Ok [CStr "MD"] /\
  exists g,
    col "geo" loaded = Ok g /\
    (forall r, In r (rows income) -> In (cell_at g r) (state_options [CStr "MD"])) /\
    ([CStr "MD"] = [] -> state_options [CStr "MD"] = [CStr "MD"] /\ rows income = []).
Proof.
  assert (Hi : income_of loaded (CStr "income_per_capita") = Ok income)
    by (vm_compute; reflexivity).
  assert (Hs : state_list loaded = Ok [CStr "MD"]) by (vm_compute; reflexivity).
  split; [exact Hi|]. split; [exact Hs|].
  exact (income_states_offered loaded (CStr "income_per_capita") income [CStr "MD"] Hi Hs).
Defined.

Lemma base_year_without_cpi_witness :
  cpi_of loaded = Ok cpi /\
  cpi_annual_of cpi = Ok cpi_annual /\
  cpi_values 2 3 0 5 loaded (base_year_of visit_1990) = [] /\
  PrimFloat.is_nan (mean []) = true /\
  base_cpi_of cpi_annual (base_year_of visit_1990) = Ok (mean []) /\
  exists w, deflator loaded visit_1990 start = Stopped w /\
            List.last (page w) (PageConfig EmptyString) =
              Warning "Invalid CPI base year selected.".
Proof.
  assert (H1 : cpi_of loaded = Ok cpi) by (vm_compute; reflexivity).
  assert (H2 : cpi_annual_of cpi = Ok cpi_annual) by (vm_compute; reflexivity).
  assert (H3 : cpi_values 2 3 0 5 loaded (base_year_of visit_1990) = [])
    by (vm_compute; reflexivity).
  assert (H4 : PrimFloat.is_nan (mean []) = true) by reflexivity.
  split; [exact H1|]. split; [exact H2|]. split; [exact H3|]. split; [exact H4|].
  destruct (base_year_without_cpi loaded visit_1990 start cpi cpi_annual 2 3 0 5
              H1 H2 eq_refl eq_refl eq_refl eq_refl H3 H4) as [Hb Hrun].
  split; [exact Hb|]. eexists. split; [exact Hrun | reflexivity].
Defined.


Lemma real_income_is_required_witness :
  load_data file = Ok loaded /\
  income_of loaded (CStr "income_per_capita") = Ok income /\
  ~ In "real_income" (columns loaded) /\
  melt "year" ["value"; "real_income"] "Type" "Income" income =
    Raise (KeyError "real_income") /\
  growth_of income = Raise (KeyError "real_income").
Proof.
  assert (Hl : load_data file = Ok loaded) by (vm_compute; reflexivity).
  assert (Hi : income_of loaded (CStr "income_per_capita") = Ok income)
    by (vm_compute; reflexivity).
  assert (Hno : ~ In "real_income" (columns loaded)) by (simpl; intuition discriminate).
  split; [exact Hl|]. split; [exact Hi|]. split; [exact Hno|].
  exact (real_income_is_required file loaded (CStr "income_per_capita") income Hl Hi Hno).
Defined.

Lemma ranking_tables_cover_witness :
  growth_of real_incomes = Ok growth /\
  exists bottom,
    bottom_states growth = Ok bottom /\
    length (rows (top_states growth)) = Nat.min 10 (length (rows growth)) /\
    length (rows bottom) = Nat.min 10 (length (rows growth)) /\
    (length (rows growth) <= 20 ->
     forall r, In r (rows growth) -> In r (rows (top_states growth)) \/ In r (rows bottom)) /\
    (length (rows growth) <= 10 ->
     rows (top_states growth) = rows growth /\ Permutation (rows bottom) (rows growth)).
Proof.
  assert (Hg : growth_of real_incomes = Ok growth) by (vm_compute; reflexivity).
  split; [exact Hg|].
  exact (ranking_tables_cover real_incomes growth Hg
           (fun leb l => insertion_sort_perm leb l)).
Defined.

Lemma topics_listing_witness :
  load_data file = Ok loaded /\
  (forall r, In r (rows loaded) -> cell_at 4 r <> CNull) /\
  exists names,
    (let! ts := topics loaded in py_sorted ts) = Ok (map CStr names) /\
    List.NoDup names /\
    StronglySorted (fun a b => String.leb a b = true) names.
Proof.
  assert (Hl : load_data file = Ok loaded) by (vm_compute; reflexivity).
  assert (Hfull : forall r, In r (rows loaded) -> cell_at 4 r <> CNull).
  { intros r Hr. simpl in Hr.
    repeat (destruct Hr as [<-|Hr]; [discriminate|]). destruct Hr. }
  split; [exact Hl|]. split; [exact Hfull|].
  destruct (topics_listing file loaded Hl) as (t & Ht & Hsorted & _).
  injection Ht as <-.
  destruct (Hsorted Hfull) as (names & Hnames & _ & Hnd & Hs).
  exists names. split; [exact Hnames|]. split; [exact Hnd | exact Hs].
Defined.

Lemma present_income_is_used_witness :
  In (Success "✅ income_per_capita is present") (page (final (run visit))) /\
  ~ In (Error "This dataset doesn't include income data. Choose a different view or rebuild with BEA enabled.")
       (page (final (run visit))).
Proof.
  assert (Hin : In (Success "✅ income_per_capita is present") (page (final (run visit))))
    by (vm_compute; tauto).
  split; [exact Hin|]. exact (present_income_is_used visit Hin).
Defined.

End Further.
